(** * Apex OLED system monitor: a shallow embedding of [oled_lhm.py]

    The development follows the layout of the Python module: text helpers of
    the Python runtime, the LibreHardwareMonitor metric extractor
    ([_to_float_best], [walk_json], [lhm_read_metrics]), the RAM progress bar,
    and the GameSense endpoint resolver and publisher ([get_current_base],
    [safe_post], [try_rebind], [send_screen], [watchdog]).

    Conventions.
    - A Python [str] is a [string] read as a sequence of code points below
      256 (the Latin-1 range): one [ascii] is one character, so the degree
      sign U+00B0 is the single character 176.
    - A Python [float] is a [pyfloat]: an exact rational, or one of the
      special values inf, -inf, nan.  Arithmetic on finite values is exact
      (rounding and overflow of binary64 are not modelled).
    - A Python exception is a value [Raise e] of the [result] type.
    - The process-wide globals are the fields of [State]; the outside world
      (clock, candidate files, HTTP peers) is the scripted [World]. *)

From Stdlib Require Import List String Ascii Bool Arith ZArith QArith Qround Lia Lqa.
Import ListNotations.

#[local] Set Warnings "-register-all".
Local Open Scope string_scope.

(** ** Exceptions *)

Inductive exn : Type :=
| ValueError
| OverflowError
| ZeroDivisionError.

Inductive result (A : Type) : Type :=
| Ok (a : A)
| Raise (e : exn).

Arguments Ok {A} a.
Arguments Raise {A} e.

Definition rbind {A B : Type} (r : result A) (k : A -> result B) : result B :=
  match r with
  | Ok a => k a
  | Raise e => Raise e
  end.

Notation "'try!' x <- r ; k" := (rbind r (fun x => k))
  (at level 60, x name, r at next level, k at level 200, right associativity).

(** ** Python [str] methods on Latin-1 text *)

Module PyStr.

Definition code (c : ascii) : N := N_of_ascii c.

(** [str.isdigit]: '0'..'9' and the superscripts U+00B2, U+00B3, U+00B9. *)
Definition isdigit (c : ascii) : bool :=
  let n := code c in
  ((48 <=? n) && (n <=? 57) || (n =? 178) || (n =? 179) || (n =? 185))%N.

(** The decimal digits [float] accepts. *)
Definition isdecimal (c : ascii) : bool :=
  let n := code c in ((48 <=? n) && (n <=? 57))%N.

(** [str.isspace]: TAB..CR, FS..US, space, NEL U+0085, NBSP U+00A0. *)
Definition isspace (c : ascii) : bool :=
  let n := code c in
  ((9 <=? n) && (n <=? 13) || (28 <=? n) && (n <=? 32)
   || (n =? 133) || (n =? 160))%N.

(** [str.lower] on one character: A..Z and U+00C0..U+00DE except U+00D7. *)
Definition lower_char (c : ascii) : ascii :=
  let n := code c in
  if ((65 <=? n) && (n <=? 90)
      || (192 <=? n) && (n <=? 222) && negb (n =? 215))%N
  then ascii_of_N (n + 32) else c.

Fixpoint lower (s : string) : string :=
  match s with
  | EmptyString => EmptyString
  | String c r => String (lower_char c) (lower r)
  end.

Fixpoint lstrip (s : string) : string :=
  match s with
  | EmptyString => EmptyString
  | String c r => if isspace c then lstrip r else s
  end.

(** Drops the trailing white space: a character is kept when it is not a
    space or when something is kept after it. *)
Fixpoint rstrip (s : string) : string :=
  match s with
  | EmptyString => EmptyString
  | String c r =>
      match rstrip r with
      | EmptyString => if isspace c then EmptyString else String c EmptyString
      | r' => String c r'
      end
  end.

Definition strip (s : string) : string := rstrip (lstrip s).

(** [sub in s] *)
Fixpoint contains (sub s : string) : bool :=
  prefix sub s ||
  match s with
  | EmptyString => false
  | String _ r => contains sub r
  end.

(** [s.replace(a, b)] for one-character [a] and [b]. *)
Fixpoint replace_char (a b : ascii) (s : string) : string :=
  match s with
  | EmptyString => EmptyString
  | String c r => String (if Ascii.eqb c a then b else c) (replace_char a b r)
  end.

(** [s[:n]] for [n >= 0]. *)
Fixpoint take (n : nat) (s : string) : string :=
  match n, s with
  | O, _ => EmptyString
  | _, EmptyString => EmptyString
  | S n', String c r => String c (take n' r)
  end.

(** [c * n]: a negative count gives the empty string. *)
Definition repeat (c : string) (n : Z) : string :=
  String.concat "" (List.repeat c (Z.to_nat n)).

(** Truth value of a string: empty is false. *)
Definition truthy (s : string) : bool :=
  match s with EmptyString => false | _ => true end.

End PyStr.

(** ** Python [float] values *)

Inductive pyfloat : Type :=
| Fin (q : Q)
| PosInf
| NegInf
| NaN.

Module PyFloat.

Definition Qltb (a b : Q) : bool := negb (Qle_bool b a).

(** [a < b]; every comparison with nan is false. *)
Definition lt (a b : pyfloat) : bool :=
  match a, b with
  | NaN, _ | _, NaN => false
  | Fin x, Fin y => Qltb x y
  | NegInf, NegInf => false
  | NegInf, _ => true
  | _, NegInf => false
  | PosInf, _ => false
  | Fin _, PosInf => true
  end.

Definition le (a b : pyfloat) : bool :=
  match a, b with
  | NaN, _ | _, NaN => false
  | Fin x, Fin y => Qle_bool x y
  | NegInf, _ => true
  | _, NegInf => false
  | _, PosInf => true
  | PosInf, Fin _ => false
  end.

(** Two-argument [min(a, b)]: [b] replaces [a] only when [b < a]. *)
Definition min (a b : pyfloat) : pyfloat := if lt b a then b else a.

(** Two-argument [max(a, b)]: [b] replaces [a] only when [b > a]. *)
Definition max (a b : pyfloat) : pyfloat := if lt a b then b else a.

Definition is_zero (q : Q) : bool := (Qnum q =? 0)%Z.

(** [a / b] *)
Definition div (a b : pyfloat) : result pyfloat :=
  match a, b with
  | _, Fin y =>
      if is_zero y then Raise ZeroDivisionError
      else match a with
           | Fin x => Ok (Fin (Qred (x / y)))
           | PosInf => Ok (if Qltb 0 y then PosInf else NegInf)
           | NegInf => Ok (if Qltb 0 y then NegInf else PosInf)
           | NaN => Ok NaN
           end
  | NaN, _ | _, NaN => Ok NaN
  | Fin _, _ => Ok (Fin 0)
  | _, _ => Ok NaN
  end.

(** [a * n] for an integer [n]. *)
Definition mul_int (a : pyfloat) (n : Z) : pyfloat :=
  match a with
  | Fin x => Fin (Qred (x * inject_Z n))
  | PosInf => if (0 <? n)%Z then PosInf else if (n <? 0)%Z then NegInf else NaN
  | NegInf => if (0 <? n)%Z then NegInf else if (n <? 0)%Z then PosInf else NaN
  | NaN => NaN
  end.

(** [round(x)] with one argument: the nearest integer, ties to the even
    one. *)
Definition round_half_even (x : Q) : Z :=
  let f := Qfloor x in
  let r := (x - inject_Z f)%Q in
  if Qltb r (1 # 2) then f
  else if Qltb (1 # 2) r then (f + 1)%Z
  else if Z.even f then f else (f + 1)%Z.

Definition round (a : pyfloat) : result Z :=
  match a with
  | Fin x => Ok (round_half_even x)
  | PosInf | NegInf => Raise OverflowError
  | NaN => Raise ValueError
  end.

(** Truth value of a float: only zero is false. *)
Definition truthy (a : pyfloat) : bool :=
  match a with
  | Fin x => negb (is_zero x)
  | _ => true
  end.

End PyFloat.

(** [x or y] on optional floats: [y] when [x] is [None] or zero. *)
Definition py_or (x y : option pyfloat) : option pyfloat :=
  match x with
  | Some a => if PyFloat.truthy a then x else y
  | None => y
  end.

Module PyFloatParse.

Import PyStr.

(** The leading run of decimal digits of [s], and what follows it. *)
Fixpoint span_decimal (s : string) : string * string :=
  match s with
  | EmptyString => (EmptyString, EmptyString)
  | String c r =>
      if isdecimal c
      then let (d, rest) := span_decimal r in (String c d, rest)
      else (EmptyString, s)
  end.

(** The number written by a string of decimal digits. *)
Fixpoint digits_value (acc : Z) (s : string) : Z :=
  match s with
  | EmptyString => acc
  | String c r => digits_value (10 * acc + (Z.of_N (code c) - 48)) r
  end.

(** [float(s)] on the texts [_to_float_best] hands it: characters accepted
    by its scan (digits, dot, minus) after the commas became dots.  Python
    accepts an optional minus sign, then digits with an optional dot and
    more digits, or a dot and digits; anything else is a [ValueError]. *)
Definition float (s : string) : result pyfloat :=
  let (neg, body) :=
    match s with
    | String "-" r => (true, r)
    | _ => (false, s)
    end in
  let (ip, rest) := span_decimal body in
  let (fp, closed) :=
    match rest with
    | EmptyString => (EmptyString, true)
    | String "." r =>
        let (fp, rest') := span_decimal r in (fp, negb (truthy rest'))
    | _ => (EmptyString, false)
    end in
  if closed && (truthy ip || truthy fp) then
    let m := digits_value 0 (ip ++ fp) in
    let q := Qred (Qmake m (Z.to_pos (10 ^ Z.of_nat (String.length fp)))) in
    Ok (Fin (if neg then Qred (- q) else q))
  else Raise ValueError.

End PyFloatParse.

(** ** Telemetry documents

    The value [requests]' [r.json()] returns.  A number (int, float or bool)
    and a container carry the text Python's [str()] gives for them, so that
    [str(text)] and [str(val)] are defined on every node; the members of a
    mapping are in insertion order, which for a parsed JSON object is
    document order, and their keys are distinct. *)

Inductive pyval : Type :=
| PNone
| PNum (x : pyfloat) (shown : string)
| PStr (s : string)
| PList (shown : string) (items : list pyval)
| PDict (shown : string) (members : list (string * pyval)).

Definition py_str (v : pyval) : string :=
  match v with
  | PNone => "None"
  | PNum _ shown => shown
  | PStr s => s
  | PList shown _ => shown
  | PDict shown _ => shown
  end.

Definition is_none (v : pyval) : bool :=
  match v with PNone => true | _ => false end.

Fixpoint lookup (key : string) (members : list (string * pyval)) : pyval :=
  match members with
  | [] => PNone
  | (k, v) :: rest => if String.eqb k key then v else lookup key rest
  end.

(** [n.get(key)] *)
Definition get (n : pyval) (key : string) : pyval :=
  match n with
  | PDict _ members => lookup key members
  | _ => PNone
  end.

(** ** Metric extractor *)

Import PyStr PyFloatParse.

(** The character test of the scan in [_to_float_best]:
    [ch.isdigit() or ch in ".-,"]. *)
Definition numeric_char (ch : ascii) : bool :=
  isdigit ch || Ascii.eqb ch "." || Ascii.eqb ch "-" || Ascii.eqb ch ",".

(** The [for ch in s] loop of [_to_float_best], [num] being the text
    collected so far. *)
Fixpoint scan_number (num s : string) : string :=
  match s with
  | EmptyString => num
  | String ch rest =>
      if numeric_char ch then scan_number (num ++ String ch EmptyString) rest
      else if truthy num then num
      else scan_number num rest
  end.

Definition _to_float_best (val : pyval) : result (option pyfloat) :=
  match val with
  | PNone => Ok None
  | PNum x _ => Ok (Some x)
  | _ =>
      let s := strip (py_str val) in
      let num := scan_number EmptyString s in
      if negb (truthy num) then Ok None
      else try! x <- float (replace_char "," "." num); Ok (Some x)
  end.

(** The mappings of a document, parents before children, members and items
    in their order. *)
Fixpoint walk_json (node : pyval) : list pyval :=
  match node with
  | PDict _ members =>
      node :: flat_map (fun kv => walk_json (snd kv)) members
  | PList _ items => flat_map walk_json items
  | _ => []
  end.

(** The accumulators of the loop in [lhm_read_metrics]. *)
Inductive Var : Type :=
| cpu_temp | cpu_load | cpu_clock_mhz
| gpu_temp | gpu_hotspot
| gpu_core_load | d3d_3d
| vram_used_mb | vram_total_mb.

Definition Var_eq_dec (x y : Var) : {x = y} + {x <> y}.
Proof. decide equality. Defined.

Definition Locals : Type := Var -> option pyfloat.

Definition unset : Locals := fun _ => None.

Definition set (x : Var) (v : option pyfloat) (env : Locals) : Locals :=
  fun y => if Var_eq_dec x y then v else env y.

Definition is_unset (v : option pyfloat) : bool :=
  match v with None => true | Some _ => false end.

(** One guarded assignment of the loop body:
    [if x is None and lname == label and marker in sval: x = _to_float_best(val)]. *)
Definition assign_if (x : Var) (label marker lname sval : string) (val : pyval)
    (env : Locals) : result Locals :=
  if is_unset (env x) && String.eqb lname label && contains marker sval
  then try! v <- _to_float_best val; Ok (set x v env)
  else Ok env.

(** The body of [for n in walk_json(data)]. *)
Definition visit (env : Locals) (n : pyval) : result Locals :=
  let text := get n "Text" in
  let val := get n "Value" in
  if is_none text || is_none val then Ok env
  else
    let lname := lower (strip (py_str text)) in
    let sval := lower (strip (py_str val)) in
    try! env <- assign_if cpu_temp "core (tctl/tdie)" "c" lname sval val env;
    try! env <- assign_if cpu_load "cpu total" "%" lname sval val env;
    try! env <- assign_if cpu_clock_mhz "cores (average)" "mhz" lname sval val env;
    try! env <- assign_if gpu_temp "gpu core" "c" lname sval val env;
    try! env <- assign_if gpu_hotspot "gpu hot spot" "c" lname sval val env;
    try! env <- assign_if gpu_core_load "gpu core" "%" lname sval val env;
    try! env <- assign_if d3d_3d "d3d 3d" "%" lname sval val env;
    try! env <- assign_if vram_used_mb "gpu memory used" "mb" lname sval val env;
    assign_if vram_total_mb "gpu memory total" "mb" lname sval val env.

Fixpoint visit_all (env : Locals) (nodes : list pyval) : result Locals :=
  match nodes with
  | [] => Ok env
  | n :: rest => try! env <- visit env n; visit_all env rest
  end.

(** The dictionary [lhm_read_metrics] returns, one field per key. *)
Module M.
Record Metrics : Type := {
  cpu_temp : option pyfloat;
  cpu_load : option pyfloat;
  cpu_clock_mhz : option pyfloat;
  gpu_temp : option pyfloat;
  gpu_load : option pyfloat;
  vram_used_mb : option pyfloat;
  vram_total_mb : option pyfloat
}.
End M.

Definition all_unknown : M.Metrics :=
  {| M.cpu_temp := None; M.cpu_load := None; M.cpu_clock_mhz := None;
     M.gpu_temp := None; M.gpu_load := None;
     M.vram_used_mb := None; M.vram_total_mb := None |}.

(** The shipped configuration value. *)
Definition GPU_LOAD_SOURCE : string := "d3d".

(** [lhm_read_metrics], for a value [source] of [GPU_LOAD_SOURCE] and the
    outcome [fetched] of the guarded request: [None] when [requests.get],
    [raise_for_status] or [r.json()] raised, the document otherwise. *)
Definition lhm_read_metrics (source : string) (fetched : option pyval)
    : result M.Metrics :=
  match fetched with
  | None => Ok all_unknown
  | Some data =>
      try! env <- visit_all unset (walk_json data);
      let gpu_load :=
        if String.eqb (lower source) "core"
        then py_or (env gpu_core_load) (env d3d_3d)
        else py_or (env d3d_3d) (env gpu_core_load) in
      let gpu_temp_final := py_or (env gpu_temp) (env gpu_hotspot) in
      Ok {| M.cpu_temp := env cpu_temp;
            M.cpu_load := env cpu_load;
            M.cpu_clock_mhz := env cpu_clock_mhz;
            M.gpu_temp := gpu_temp_final;
            M.gpu_load := gpu_load;
            M.vram_used_mb := env vram_used_mb;
            M.vram_total_mb := env vram_total_mb |}
  end.

(** ** Formatting / rendering *)

Definition BAR_WIDTH : Z := 16.
Definition BAR_FILLED : string := "#".
Definition BAR_EMPTY : string := "-".

Definition progress_bar (used total : option pyfloat) : result string :=
  match used, total with
  | Some u, Some t =>
      if PyFloat.le t (Fin 0)
      then Ok ("[" ++ repeat BAR_EMPTY BAR_WIDTH ++ "]")
      else
        try! ratio <- PyFloat.div u t;
        let frac := PyFloat.max (Fin 0) (PyFloat.min (Fin 1) ratio) in
        try! filled <- PyFloat.round (PyFloat.mul_int frac BAR_WIDTH);
        let filled := Z.max 0 (Z.min BAR_WIDTH filled) in
        Ok ("[" ++ repeat BAR_FILLED filled
                ++ repeat BAR_EMPTY (BAR_WIDTH - filled) ++ "]")
  | _, _ => Ok ("[" ++ repeat BAR_EMPTY BAR_WIDTH ++ "]")
  end.

(** ** GameSense: configuration and payloads *)

Definition AUTO_REBIND_ON_FAIL : bool := true.
Definition REBIND_COOLDOWN_SECONDS : Q := 10.
Definition AUTO_START_LHM : bool := false.

Definition GAME : string := "LHM_OLED".
Definition CPU_EVENT : string := "CPU_PAGE".
Definition GPU_EVENT : string := "GPU_PAGE".
Definition RAM_EVENT : string := "RAM_PAGE".

Definition COREPROPS_PATHS : list string :=
  [ "C:\ProgramData\SteelSeries\SteelSeries Engine 3\coreProps.json";
    "C:\ProgramData\SteelSeries\GG\coreProps.json";
    "C:\ProgramData\SteelSeries\SteelSeries GG\coreProps.json" ].

Record Line : Type := { has_text : bool; context_frame_key : string }.

Record Handler : Type := {
  device_type : string;
  zone : string;
  mode : string;
  datas : list (list Line)
}.

(** The JSON bodies the module posts, one constructor per shape. *)
Inductive Payload : Type :=
| game_metadata (game game_display_name developer : string)
    (deinitialize_timer_length_ms : Z)
| bind_game_event (game event : string) (icon_id : Z) (handlers : list Handler)
| game_event (game event : string) (value : Z) (l1 l2 : string)
| game_heartbeat (game : string).

(** ** The outside world *)

(** What a coming sequence of observations will give; once the script is
    used up the last observation stays. *)
Record Script (A : Type) : Type := { coming : list A; current : A }.

Arguments coming {A} s.
Arguments current {A} s.

Definition next {A : Type} (s : Script A) : A * Script A :=
  match coming s with
  | [] => (current s, s)
  | a :: rest => (a, {| coming := rest; current := a |})
  end.

(** One candidate [coreProps.json]. *)
Inductive CoreProps : Type :=
| Missing
| Unreadable
| Props (address : option string).

Definition Disk : Type := string -> CoreProps.

(** Outcome of one [requests.post]: a status code, or an exception. *)
Inductive Reply : Type :=
| Status (code : Z)
| Failed.

Inductive LogLine : Type :=
| BaseChanged (base : string)
| PostFailedRebind (path : string) (code : Z)
| PostExceptionRebind (path : string)
| RebindDone
| LhmNotReady
| GameSenseNotOkRebind.

Inductive Event : Type :=
| Scanned
| Posted (url : string) (payload : Payload) (reply : Reply)
| Logged (at_time : Q) (line : LogLine).

(** The clock gives the readings of [time.time()], the disk the candidate
    files as each scan finds them, the net the outcome of each
    [requests.post], lhm the outcome of each [is_lhm_ready]; the trace
    records what the module did, oldest first, a log line with the latest
    clock reading. *)
Record World : Type := {
  clock : Script Q;
  disk : Script Disk;
  net : Script Reply;
  lhm : Script bool;
  trace : list Event
}.

Definition emit (e : Event) (w : World) : World :=
  {| clock := clock w; disk := disk w; net := net w; lhm := lhm w;
     trace := trace w ++ [e] |}.

Definition time_time (w : World) : Q * World :=
  let (t, c) := next (clock w) in
  (t, {| clock := c; disk := disk w; net := net w; lhm := lhm w;
         trace := trace w |}).

Definition log (line : LogLine) (w : World) : World :=
  emit (Logged (current (clock w)) line) w.

Definition requests_post (url : string) (payload : Payload) (w : World)
    : Reply * World :=
  let (r, n) := next (net w) in
  (r, emit (Posted url payload r)
        {| clock := clock w; disk := disk w; net := n; lhm := lhm w;
           trace := trace w |}).

Definition is_lhm_ready (w : World) : bool * World :=
  let (b, l) := next (lhm w) in
  (b, {| clock := clock w; disk := disk w; net := net w; lhm := l;
         trace := trace w |}).

(** ** GameSense dynamic port handling *)

Record State : Type := {
  _current_base : option string;
  _last_base_read : Q;
  _last_rebind : Q;
  _counter : Z
}.

Definition initial : State :=
  {| _current_base := None; _last_base_read := 0; _last_rebind := 0;
     _counter := 0 |}.

Fixpoint first_address (d : Disk) (paths : list string) : option string :=
  match paths with
  | [] => None
  | p :: rest =>
      match d p with
      | Props (Some addr) =>
          if truthy addr then Some ("http://" ++ addr)
          else first_address d rest
      | _ => first_address d rest
      end
  end.

Definition read_coreprops_address (w : World) : option string * World :=
  let (d, k) := next (disk w) in
  (first_address d COREPROPS_PATHS,
   emit Scanned
     {| clock := clock w; disk := k; net := net w; lhm := lhm w;
        trace := trace w |}).

Definition is_gamesense_alive (base : string) (w : World) : bool * World :=
  let (r, w) := requests_post (base ++ "/game_heartbeat") (game_heartbeat "PING") w in
  (match r with
   | Status code => (code =? 200)%Z || (code =? 204)%Z
   | Failed => false
   end, w).

Definition truthy_base (b : option string) : bool :=
  match b with Some s => truthy s | None => false end.

Definition same_base (a b : option string) : bool :=
  match a, b with
  | Some x, Some y => String.eqb x y
  | None, None => true
  | _, _ => false
  end.

Definition set_current_base (b : option string) (st : State) : State :=
  {| _current_base := b; _last_base_read := _last_base_read st;
     _last_rebind := _last_rebind st; _counter := _counter st |}.

Definition set_last_base_read (t : Q) (st : State) : State :=
  {| _current_base := _current_base st; _last_base_read := t;
     _last_rebind := _last_rebind st; _counter := _counter st |}.

Definition set_last_rebind (t : Q) (st : State) : State :=
  {| _current_base := _current_base st; _last_base_read := _last_base_read st;
     _last_rebind := t; _counter := _counter st |}.

Definition set_counter (n : Z) (st : State) : State :=
  {| _current_base := _current_base st; _last_base_read := _last_base_read st;
     _last_rebind := _last_rebind st; _counter := n |}.

Definition get_current_base (force : bool) (st : State) (w : World)
    : option string * State * World :=
  let (now, w) := time_time w in
  if negb force && truthy_base (_current_base st)
     && PyFloat.Qltb (now - _last_base_read st) 3
  then (_current_base st, st, w)
  else
    let (base, w) := read_coreprops_address w in
    let st := set_last_base_read now st in
    match base with
    | Some b =>
        if truthy b then
          let (alive, w) := is_gamesense_alive b w in
          if alive then
            let w := if negb (same_base base (_current_base st))
                     then log (BaseChanged b) w else w in
            (Some b, set_current_base (Some b) st, w)
          else (_current_base st, st, w)
        else (_current_base st, st, w)
    | None => (_current_base st, st, w)
    end.

Definition gamesense_ok (st : State) (w : World) : bool * State * World :=
  let '(base, st, w) := get_current_base false st w in
  match base with
  | Some b =>
      if truthy b
      then let (alive, w) := is_gamesense_alive b w in (alive, st, w)
      else (false, st, w)
  | None => (false, st, w)
  end.

(** ** Publisher

    [safe_post] and [try_rebind] call each other.  The first argument of
    [safe_post] bounds the depth of that nesting; [None] stands for a call
    that did not come back within the bound. *)

Definition Run (A : Type) : Type := State -> World -> option (A * State * World).

Definition and_then {A B : Type} (c : Run A) (k : A -> Run B) : Run B :=
  fun st w =>
    match c st w with
    | Some (a, st', w') => k a st' w'
    | None => None
    end.

Notation "c1 ';;' c2" := (and_then c1 (fun _ => c2))
  (at level 61, right associativity).

Definition screen_handler : Handler :=
  {| device_type := "screened-128x40"; zone := "one"; mode := "screen";
     datas := [ [ {| has_text := true; context_frame_key := "l1" |};
                  {| has_text := true; context_frame_key := "l2" |} ] ] |}.

Section Rebind.

(** The [safe_post] the rebind sequence goes through. *)
Variable post : string -> Payload -> Run (option Z).

Definition register_game_with : Run (option Z) :=
  post "/game_metadata" (game_metadata GAME "LHM OLED Monitor" "local" 60000).

Definition bind_screen_with (event_name : string) : Run (option Z) :=
  post "/bind_game_event" (bind_game_event GAME event_name 1 [screen_handler]).

Definition bind_all_with : Run (option Z) :=
  bind_screen_with CPU_EVENT ;; bind_screen_with GPU_EVENT ;;
  bind_screen_with RAM_EVENT.

(** Nothing in the sequence raises, so the handler of [try_rebind] is
    never entered. *)
Definition try_rebind_with : Run unit :=
  register_game_with ;; bind_all_with ;;
  (fun st w => Some (tt, st, log RebindDone w)).

End Rebind.

Fixpoint safe_post (depth : nat) (path : string) (payload : Payload)
    (st : State) (w : World) : option (option Z * State * World) :=
  match depth with
  | O => None
  | S depth' =>
      let '(base, st, w) := get_current_base false st w in
      if negb (truthy_base base) then Some (None, st, w)
      else
        let b := match base with Some b => b | None => EmptyString end in
        let (r, w) := requests_post (b ++ path) payload w in
        match r with
        | Status code =>
            if (400 <=? code)%Z && AUTO_REBIND_ON_FAIL then
              let (now, w) := time_time w in
              if PyFloat.Qltb REBIND_COOLDOWN_SECONDS (now - _last_rebind st) then
                let st := set_last_rebind now st in
                let w := log (PostFailedRebind path code) w in
                match try_rebind_with (safe_post depth') st w with
                | Some (_, st, w) => Some (Some code, st, w)
                | None => None
                end
              else Some (Some code, st, w)
            else Some (Some code, st, w)
        | Failed =>
            if AUTO_REBIND_ON_FAIL then
              let (now, w) := time_time w in
              if PyFloat.Qltb REBIND_COOLDOWN_SECONDS (now - _last_rebind st) then
                let st := set_last_rebind now st in
                let w := log (PostExceptionRebind path) w in
                let '(_, st, w) := get_current_base true st w in
                match try_rebind_with (safe_post depth') st w with
                | Some (_, st, w) => Some (None, st, w)
                | None => None
                end
              else Some (None, st, w)
            else Some (None, st, w)
        end
  end.

Definition register_game (depth : nat) : Run (option Z) :=
  register_game_with (safe_post depth).

Definition bind_all (depth : nat) : Run (option Z) :=
  bind_all_with (safe_post depth).

Definition try_rebind (depth : nat) : Run unit :=
  try_rebind_with (safe_post depth).

(** [line or ""] *)
Definition text_of (line : option string) : string :=
  match line with Some s => s | None => EmptyString end.

Definition send_screen (depth : nat) (event_name : string)
    (line1 line2 : option string) : Run unit :=
  fun st w =>
    match safe_post depth "/game_event"
            (game_event GAME event_name (_counter st)
               (take 18 (text_of line1)) (take 18 (text_of line2))) st w with
    | Some (_, st', w') => Some (tt, set_counter (_counter st' + 1) st', w')
    | None => None
    end.

Definition heartbeat (depth : nat) : Run (option Z) :=
  safe_post depth "/game_heartbeat" (game_heartbeat GAME).

(** [start_lhm_if_needed] returns at once: [AUTO_START_LHM] is off. *)
Definition watchdog (depth : nat) : Run unit :=
  fun st w =>
    let (ready, w) := is_lhm_ready w in
    let w := if negb ready then log LhmNotReady w else w in
    if AUTO_REBIND_ON_FAIL then
      let '(ok, st, w) := gamesense_ok st w in
      if negb ok then
        let w := log GameSenseNotOkRebind w in
        let '(_, st, w) := get_current_base true st w in
        try_rebind depth st w
      else Some (tt, st, w)
    else Some (tt, st, w).

(** ** Executions: what the scheduler loop of [main] runs, tick after tick *)

Inductive Job : Type :=
| RegisterGame
| BindAll
| SendScreen (event_name : string) (line1 line2 : option string)
| Heartbeat
| Watchdog.

Definition run_job (depth : nat) (j : Job) : Run unit :=
  match j with
  | RegisterGame => register_game depth ;; (fun st w => Some (tt, st, w))
  | BindAll => bind_all depth ;; (fun st w => Some (tt, st, w))
  | SendScreen e l1 l2 => send_screen depth e l1 l2
  | Heartbeat => heartbeat depth ;; (fun st w => Some (tt, st, w))
  | Watchdog => watchdog depth
  end.

Fixpoint run_pending (depth : nat) (jobs : list Job) : Run unit :=
  match jobs with
  | [] => fun st w => Some (tt, st, w)
  | j :: rest => run_job depth j ;; run_pending depth rest
  end.

(** ** Reading a trace *)

(** The frames handed to [requests.post] by [send_screen]. *)
Fixpoint frames (evs : list Event) : list Payload :=
  match evs with
  | [] => []
  | Posted _ (game_event g e v a b) _ :: rest => game_event g e v a b :: frames rest
  | _ :: rest => frames rest
  end.

(** Clock readings at which [safe_post] started a rebind. *)
Fixpoint send_rebinds (evs : list Event) : list Q :=
  match evs with
  | [] => []
  | Logged t (PostFailedRebind _ _) :: rest => t :: send_rebinds rest
  | Logged t (PostExceptionRebind _) :: rest => t :: send_rebinds rest
  | _ :: rest => send_rebinds rest
  end.

(** Clock readings at which any rebind started, [watchdog]'s included. *)
Fixpoint rebinds (evs : list Event) : list Q :=
  match evs with
  | [] => []
  | Logged t (PostFailedRebind _ _) :: rest => t :: rebinds rest
  | Logged t (PostExceptionRebind _) :: rest => t :: rebinds rest
  | Logged t GameSenseNotOkRebind :: rest => t :: rebinds rest
  | _ :: rest => rebinds rest
  end.

(** Each start comes more than the cooldown after the one before it, the
    first one after [last]. *)
Fixpoint spaced (last : Q) (starts : list Q) : Prop :=
  match starts with
  | [] => True
  | t :: rest => (REBIND_COOLDOWN_SECONDS < t - last)%Q /\ spaced t rest
  end.

(** Did [read_coreprops_address] or [requests.post] run? *)
Definition touches_outside (e : Event) : bool :=
  match e with
  | Scanned | Posted _ _ _ => true
  | Logged _ _ => false
  end.


(** ** Reading the extractor

    The conditions of the loop body, per accumulator. *)

(** Label and unit marker an accumulator is bound to. *)
Definition rule (x : Var) : string * string :=
  match x with
  | cpu_temp => ("core (tctl/tdie)", "c")
  | cpu_load => ("cpu total", "%")
  | cpu_clock_mhz => ("cores (average)", "mhz")
  | gpu_temp => ("gpu core", "c")
  | gpu_hotspot => ("gpu hot spot", "c")
  | gpu_core_load => ("gpu core", "%")
  | d3d_3d => ("d3d 3d", "%")
  | vram_used_mb => ("gpu memory used", "mb")
  | vram_total_mb => ("gpu memory total", "mb")
  end.

Definition lname (n : pyval) : string := lower (strip (py_str (get n "Text"))).
Definition sval (n : pyval) : string := lower (strip (py_str (get n "Value"))).

(** The node has both members, the label of [x] and the unit marker of [x]. *)
Definition candidate (x : Var) (n : pyval) : bool :=
  negb (is_none (get n "Text") || is_none (get n "Value"))
  && String.eqb (lname n) (fst (rule x))
  && contains (snd (rule x)) (sval n).

(** The number the value text of a node normalizes to. *)
Definition reading (n : pyval) : result (option pyfloat) :=
  _to_float_best (get n "Value").

(** The number of the first candidate, in the order of [nodes], whose value
    text gives one. *)
Fixpoint first_reading (x : Var) (nodes : list pyval) : option pyfloat :=
  match nodes with
  | [] => None
  | n :: rest =>
      if candidate x n then
        match reading n with
        | Ok (Some v) => Some v
        | _ => first_reading x rest
        end
      else first_reading x rest
  end.

(** The keys of the returned dictionary. *)
Inductive Field : Type :=
| f_cpu_temp | f_cpu_load | f_cpu_clock_mhz
| f_gpu_temp | f_gpu_load
| f_vram_used_mb | f_vram_total_mb.

Definition metric (f : Field) (m : M.Metrics) : option pyfloat :=
  match f with
  | f_cpu_temp => M.cpu_temp m
  | f_cpu_load => M.cpu_load m
  | f_cpu_clock_mhz => M.cpu_clock_mhz m
  | f_gpu_temp => M.gpu_temp m
  | f_gpu_load => M.gpu_load m
  | f_vram_used_mb => M.vram_used_mb m
  | f_vram_total_mb => M.vram_total_mb m
  end.

(** The unit marker of a field: Celsius for temperatures, percent for
    loads, MHz for the clock, MB for VRAM, as the lowered value text is
    tested for them. *)
Definition unit_marker (f : Field) : string :=
  match f with
  | f_cpu_temp | f_gpu_temp => "c"
  | f_cpu_load | f_gpu_load => "%"
  | f_cpu_clock_mhz => "mhz"
  | f_vram_used_mb | f_vram_total_mb => "mb"
  end.

(** The accumulators a field is filled from. *)
Definition feeders (f : Field) : list Var :=
  match f with
  | f_cpu_temp => [cpu_temp]
  | f_cpu_load => [cpu_load]
  | f_cpu_clock_mhz => [cpu_clock_mhz]
  | f_gpu_temp => [gpu_temp; gpu_hotspot]
  | f_gpu_load => [gpu_core_load; d3d_3d]
  | f_vram_used_mb => [vram_used_mb]
  | f_vram_total_mb => [vram_total_mb]
  end.

(** A telemetry node as LibreHardwareMonitor writes it. *)
Definition sensor (text value : string) : pyval :=
  PDict "" [("Text", PStr text); ("Value", PStr value)].

(** The degree sign, U+00B0. *)
Definition DEGREE_SYMBOL : string := String (ascii_of_nat 176) EmptyString.

(** ** Sample documents *)

(** Two "CPU Total" percent nodes, the first without a number. *)
Definition doc_two_totals : pyval :=
  PList "" [ sensor "CPU Total" "%"; sensor "CPU Total" "37,0 %" ].

(** An idle 3D engine next to a busy core, and the converse. *)
Definition doc_idle_d3d : pyval :=
  PList "" [ sensor "D3D 3D" "0,0 %"; sensor "GPU Core" "35,0 %" ].

Definition doc_idle_core : pyval :=
  PList "" [ sensor "GPU Core" "0,0 %"; sensor "D3D 3D" "35,0 %" ].

(** A load whose value text is a lone minus sign before the unit. *)
Definition doc_dash : pyval :=
  PDict ""
    [ ("Text", PStr "Sensor");
      ("Children",
       PList "" [ sensor "CPU Total" "- %";
                  sensor "Core (Tctl/Tdie)" ("52,4 " ++ DEGREE_SYMBOL ++ "C") ]) ].

(** The two nodes of the end-to-end scenario, nested. *)
Definition doc_cpu : pyval :=
  PDict ""
    [ ("Text", PStr "Sensor");
      ("Children",
       PList "" [ PDict "" [ ("Text", PStr "CPU");
                            ("Children",
                             PList "" [ sensor "CPU Total" "37,0 %" ]) ];
                  sensor "Core (Tctl/Tdie)" ("52,4 " ++ DEGREE_SYMBOL ++ "C") ]) ].

(** ** Reading the publisher *)

(** The world after the candidate files and the peers changed. *)
Definition with_outside (d : Script Disk) (n : Script Reply) (w : World) : World :=
  {| clock := clock w; disk := d; net := n; lhm := lhm w; trace := trace w |}.

(** The liveness test of [is_gamesense_alive] on a reply. *)
Definition alive_reply (r : Reply) : bool :=
  match r with
  | Status code => (code =? 200)%Z || (code =? 204)%Z
  | Failed => false
  end.

(** Readings left in the clock script, and the reading it ends on. *)
Definition ticks (w : World) : nat := List.length (coming (clock w)).
Definition final (w : World) : Q := List.last (coming (clock w)) (current (clock w)).

(** A depth above this bound lets every call come back: a nested rebind
    needs a clock reading more than the cooldown after the one that set
    [_last_rebind]. *)
Definition budget (st : State) (w : World) : nat :=
  2 * ticks w
  + (if PyFloat.Qltb REBIND_COOLDOWN_SECONDS (final w - _last_rebind st)
     then 1 else 0).

(** What [safe_post] hands to [requests.post] when it has a base. *)
Definition frames_of (payload : Payload) : list Payload :=
  frames [Posted EmptyString payload Failed].

(** ** Sample worlds *)

(** Nothing on disk, nobody answering. *)
Definition quiet : World :=
  {| clock := {| coming := []; current := 0 |};
     disk := {| coming := []; current := fun _ => Missing |};
     net := {| coming := []; current := Failed |};
     lhm := {| coming := []; current := true |};
     trace := [] |}.

(** A base resolved at 99 s, no rebind so far. *)
Definition st_bound : State :=
  {| _current_base := Some "http://127.0.0.1:5000"; _last_base_read := 99;
     _last_rebind := 0; _counter := 7 |}.

(** GameSense is down: a send at 100 s (eleven clock readings), the
    watchdog at 101 s. *)
Definition w_down : World :=
  {| clock := {| coming := List.repeat 100 11 ++ [101]; current := 99 |};
     disk := disk quiet; net := net quiet; lhm := lhm quiet; trace := [] |}.

(** The second candidate file names a new port. *)
Definition disk_moved : Disk :=
  fun p =>
    if String.eqb p "C:\ProgramData\SteelSeries\GG\coreProps.json"
    then Props (Some "127.0.0.1:6000") else Missing.

(** Calls at 101 s and 103 s, the file changing after the first one, the
    new port answering. *)
Definition w_moved : World :=
  {| clock := {| coming := [101; 103]; current := 99 |};
     disk := {| coming := []; current := disk_moved |};
     net := {| coming := []; current := Status 200 |};
     lhm := lhm quiet; trace := [] |}.

(** The rebinds [safe_post] started, read off the new part of a trace: they
    keep the cooldown, and [_last_rebind] follows the latest one. *)
Definition paced (st st' : State) (new : list Event) : Prop :=
  spaced (_last_rebind st) (send_rebinds new)
  /\ _last_rebind st' = List.last (send_rebinds new) (_last_rebind st).

(** What a call leaves behind: the counter as it was, [new] events of which
    [sent] are the frames posted, the cooldown kept. *)
Definition outcome (st : State) (w : World) (st' : State) (w' : World)
    (sent : list Payload) : Prop :=
  _counter st' = _counter st
  /\ exists new,
       trace w' = (trace w ++ new)%list
       /\ frames new = sent
       /\ paced st st' new.

(** GameSense is down and the clock stands at 100 s. *)
Definition w_down_still : World :=
  {| clock := {| coming := []; current := 100 |};
     disk := disk quiet; net := net quiet; lhm := lhm quiet; trace := [] |}.

(** The first ticks of [main] once the display is bound. *)
Definition first_ticks : list Job :=
  [ SendScreen CPU_EVENT (Some "LHM OLED") (Some "starting...");
    SendScreen CPU_EVENT (Some "CPU 4.20GHz") (Some "CPU 37% 52C");
    Heartbeat;
    SendScreen CPU_EVENT (Some "CPU 4.21GHz") (Some "CPU 35% 52C") ].

(** ** Further reading of the extractor *)

(** The node has both a label and a value (neither missing nor null). *)
Definition labelled (n : pyval) : bool :=
  negb (is_none (get n "Text") || is_none (get n "Value")).

(** [v] occurs in [d]: it is [d], or occurs in an item of the list [d] or
    in the value of a member of the mapping [d]. *)
Inductive inside (v : pyval) : pyval -> Prop :=
| inside_here : inside v v
| inside_item (shown : string) (items : list pyval) (x : pyval) :
    In x items -> inside v x -> inside v (PList shown items)
| inside_member (shown : string) (members : list (string * pyval))
    (k : string) (x : pyval) :
    In (k, x) members -> inside v x -> inside v (PDict shown members).

Definition is_dict (v : pyval) : bool :=
  match v with PDict _ _ => true | _ => false end.

(** Every character of [s] passes [p]. *)
Fixpoint all_chars (p : ascii -> bool) (s : string) : bool :=
  match s with
  | EmptyString => true
  | String c r => p c && all_chars p r
  end.

Definition non_numeric (c : ascii) : bool := negb (numeric_char c).

(** The text is over, or goes on with a character the scan stops at. *)
Definition stops (post : string) : bool :=
  match post with
  | EmptyString => true
  | String c _ => non_numeric c
  end.

(** The bar with [filled] filled characters. *)
Definition bar (filled : Z) : string :=
  "[" ++ repeat BAR_FILLED filled ++ repeat BAR_EMPTY (BAR_WIDTH - filled) ++ "]".

(** ** Further reading of the resolver and the publisher *)

(** The address a candidate file yields: the file exists, parses, and has a
    non-empty "address". *)
Definition usable (d : Disk) (p : string) : option string :=
  match d p with
  | Props (Some a) => if truthy a then Some a else None
  | _ => None
  end.

(** The bases announced by "GameSense base changed" log lines. *)
Fixpoint base_changes (evs : list Event) : list string :=
  match evs with
  | [] => []
  | Logged _ (BaseChanged b) :: rest => b :: base_changes rest
  | _ :: rest => base_changes rest
  end.

(** The base an unforced resolution gives, and the world it leaves. *)
Definition resolved (st : State) (w : World) : option string :=
  fst (fst (get_current_base false st w)).

Definition after_resolution (st : State) (w : World) : State * World :=
  (snd (fst (get_current_base false st w)), snd (get_current_base false st w)).


(** Every observation a script has in store passes [p]. *)
Definition script_all {A : Type} (p : A -> bool) (s : Script A) : bool :=
  forallb p (coming s) && p (current s).

(** A reply with a status below 400. *)
Definition ok_reply (r : Reply) : bool :=
  match r with
  | Status code => (code <? 400)%Z
  | Failed => false
  end.

(** The liveness probe of [is_gamesense_alive]. *)
Definition is_probe (p : Payload) : bool :=
  match p with
  | game_heartbeat g => String.eqb g "PING"
  | _ => false
  end.

(** The bodies posted to the API, in order, the liveness probes left out. *)
Fixpoint api_posts (evs : list Event) : list Payload :=
  match evs with
  | [] => []
  | Posted _ p _ :: rest =>
      if is_probe p then api_posts rest else p :: api_posts rest
  | _ :: rest => api_posts rest
  end.

(** The four bodies of a rebind sequence. *)
Definition rebind_sequence : list Payload :=
  [ game_metadata GAME "LHM OLED Monitor" "local" 60000;
    bind_game_event GAME CPU_EVENT 1 [screen_handler];
    bind_game_event GAME GPU_EVENT 1 [screen_handler];
    bind_game_event GAME RAM_EVENT 1 [screen_handler] ].

(** ** Reading whole runs *)

(** The number of [send_screen] calls among the jobs. *)
Fixpoint sends (jobs : list Job) : nat :=
  match jobs with
  | [] => O
  | SendScreen _ _ _ :: rest => S (sends rest)
  | _ :: rest => sends rest
  end.

(** The sequence values of the frames posted. *)
Fixpoint frame_values (ps : list Payload) : list Z :=
  match ps with
  | [] => []
  | game_event _ _ v _ _ :: rest => v :: frame_values rest
  | _ :: rest => frame_values rest
  end.

(** The values go up strictly, starting at [lo] or above. *)
Fixpoint ascending (lo : Z) (vs : list Z) : Prop :=
  match vs with
  | [] => True
  | v :: rest => (lo <= v)%Z /\ ascending (v + 1) rest
  end.

(** The clock readings a world can still give: the latest one and those
    its script has in store. *)
Definition readings (w : World) : list Q := current (clock w) :: coming (clock w).

(** The clock readings stamped on the log lines. *)
Fixpoint stamps (evs : list Event) : list Q :=
  match evs with
  | [] => []
  | Logged t _ :: rest => t :: stamps rest
  | _ :: rest => stamps rest
  end.

(** What every call keeps: it only reads the clock forward, it stamps its
    log lines with readings of that clock, and it leaves a base cached if
    one was. *)
Definition heard (st : State) (w : World) (st' : State) (w' : World) : Prop :=
  incl (readings w') (readings w)
  /\ (truthy_base (_current_base st) = true ->
      truthy_base (_current_base st') = true)
  /\ exists new,
       trace w' = (trace w ++ new)%list /\ incl (stamps new) (readings w).

(** A job that comes back, posts no frame and leaves the counter alone. *)
Definition frameless (st : State) (w : World)
    (res : option (unit * State * World)) : Prop :=
  exists st' w',
    res = Some (tt, st', w')
    /\ (budget st' w' <= budget st w)%nat
    /\ outcome st w st' w' [].

(** ** Pages

    [fmt_gb] and [fmt_ghz_from_mhz] print a float with a fixed number of
    decimals ([f"{v:.1f}"], [f"{x:.2f}"]).  That printing depends on the
    binary value of the float, which the exact rationals of [pyfloat] do
    not have, so the two printers are parameters of this section: what is
    proved about the pages holds whatever they print. *)

From Stdlib Require Import DecimalString.

Definition USE_DEGREE_SYMBOL : bool := true.

(** [str(n)] for an int. *)
Definition str_int (n : Z) : string := NilZero.string_of_int (Z.to_int n).

Definition fmt_pct (v : option pyfloat) : result string :=
  match v with
  | None => Ok "?"
  | Some x => try! n <- PyFloat.round x; Ok (str_int n ++ "%")
  end.

Definition fmt_temp (v : option pyfloat) : result string :=
  match v with
  | None => Ok "?"
  | Some x =>
      try! t <- PyFloat.round x;
      if USE_DEGREE_SYMBOL then Ok (str_int t ++ DEGREE_SYMBOL ++ "C")
      else Ok (str_int t ++ "C")
  end.

(** The runtime state [MET], one field per key. *)
Module Met.
Record MET : Type := {
  cpu_clock_mhz : option pyfloat;
  cpu_load : option pyfloat;
  cpu_temp : option pyfloat;
  gpu_load : option pyfloat;
  gpu_temp : option pyfloat;
  vram_used_gb : option pyfloat;
  vram_total_gb : option pyfloat;
  ram_used_gb : option pyfloat;
  ram_total_gb : option pyfloat
}.
End Met.

Section Pages.

(** [f"{v:.1f}"] and [f"{x:.2f}"]. *)
Variable fixed1 : pyfloat -> string.
Variable fixed2 : pyfloat -> string.

Definition fmt_gb (v : option pyfloat) : string :=
  match v with
  | None => "?"
  | Some x => fixed1 x ++ "G"
  end.

Definition fmt_ghz_from_mhz (mhz : option pyfloat) : result string :=
  match mhz with
  | None => Ok "?"
  | Some x => try! g <- PyFloat.div x (Fin 1000); Ok (fixed2 g ++ "GHz")
  end.

(** [render_page] for the page [PAGE] and the metrics [met]: the two lines
    are built first, which may raise, and then handed to [send_screen]. *)
Definition render_page (depth : nat) (PAGE : Z) (met : Met.MET)
    : result (Run unit) :=
  if (PAGE =? 0)%Z then
    try! ghz <- fmt_ghz_from_mhz (Met.cpu_clock_mhz met);
    let l1 := "CPU " ++ ghz in
    try! pct <- fmt_pct (Met.cpu_load met);
    try! temp <- fmt_temp (Met.cpu_temp met);
    let l2 := "CPU " ++ pct ++ " " ++ temp in
    Ok (send_screen depth CPU_EVENT (Some l1) (Some l2))
  else if (PAGE =? 1)%Z then
    try! pct <- fmt_pct (Met.gpu_load met);
    try! temp <- fmt_temp (Met.gpu_temp met);
    let l1 := "GPU " ++ pct ++ " " ++ temp in
    let l2 := "VRAM " ++ fmt_gb (Met.vram_total_gb met) ++ "/"
                      ++ fmt_gb (Met.vram_used_gb met) in
    Ok (send_screen depth GPU_EVENT (Some l1) (Some l2))
  else
    let l1 := "RAM " ++ fmt_gb (Met.ram_total_gb met) ++ "/"
                     ++ fmt_gb (Met.ram_used_gb met) in
    try! l2 <- progress_bar (Met.ram_used_gb met) (Met.ram_total_gb met);
    Ok (send_screen depth RAM_EVENT (Some l1) (Some l2)).


End Pages.

(** The event a page is sent under. *)
Definition page_event (PAGE : Z) : string :=
  if (PAGE =? 0)%Z then CPU_EVENT
  else if (PAGE =? 1)%Z then GPU_EVENT
  else RAM_EVENT.

(** The metrics of the end-to-end scenario: 37 % load at 52.4 degrees. *)
Definition met_cpu : Met.MET :=
  {| Met.cpu_clock_mhz := None;
     Met.cpu_load := Some (Fin 37);
     Met.cpu_temp := Some (Fin (262 # 5));
     Met.gpu_load := None; Met.gpu_temp := None;
     Met.vram_used_gb := None; Met.vram_total_gb := None;
     Met.ram_used_gb := Some (Fin (79 # 10));
     Met.ram_total_gb := Some (Fin (157 # 10)) |}.

(** A document whose only mapping has a label and no value. *)
Definition doc_unlabelled : pyval :=
  PList "" [ PDict "" [ ("Text", PStr "CPU Total") ] ].

(** A base cached at 99 s, the clock at 100 s, a peer that answers 200. *)
Definition w_healthy : World :=
  {| clock := {| coming := []; current := 100 |};
     disk := disk quiet;
     net := {| coming := []; current := Status 200 |};
     lhm := lhm quiet; trace := [] |}.

(** * Properties of the metric extractor *)

Section NumericNormalization.

Let dot (c : ascii) : ascii := if Ascii.eqb c "," then "."%char else c.

Lemma isspace_dot c : isspace (dot c) = isspace c.
Proof. unfold dot. destruct (Ascii.eqb_spec c ","); subst; reflexivity. Qed.

Lemma numeric_char_dot c : numeric_char (dot c) = numeric_char c.
Proof. unfold dot. destruct (Ascii.eqb_spec c ","); subst; reflexivity. Qed.

Lemma dot_dot c : dot (dot c) = dot c.
Proof.
  unfold dot. destruct (Ascii.eqb_spec c ","); subst; [reflexivity|].
  destruct (Ascii.eqb_spec c ","); congruence.
Qed.

Lemma lstrip_replace s :
  lstrip (replace_char "," "." s) = replace_char "," "." (lstrip s).
Proof.
  induction s as [|c s IH]; simpl; [reflexivity|].
  fold (dot c). rewrite isspace_dot. destruct (isspace c); [exact IH|reflexivity].
Qed.

Lemma rstrip_replace s :
  rstrip (replace_char "," "." s) = replace_char "," "." (rstrip s).
Proof.
  induction s as [|c s IH]; simpl; [reflexivity|].
  fold (dot c). rewrite IH. destruct (rstrip s); simpl.
  - rewrite isspace_dot. destruct (isspace c); reflexivity.
  - reflexivity.
Qed.

Lemma replace_app a b :
  replace_char "," "." (a ++ b) = replace_char "," "." a ++ replace_char "," "." b.
Proof. induction a as [|c a IH]; simpl; [reflexivity|]. now rewrite IH. Qed.

Lemma truthy_replace s : truthy (replace_char "," "." s) = truthy s.
Proof. destruct s; reflexivity. Qed.

Lemma replace_replace s :
  replace_char "," "." (replace_char "," "." s) = replace_char "," "." s.
Proof.
  induction s as [|c s IH]; simpl; [reflexivity|].
  fold (dot c). fold (dot (dot c)). now rewrite dot_dot, IH.
Qed.

Lemma scan_number_replace s : forall num,
  scan_number (replace_char "," "." num) (replace_char "," "." s)
  = replace_char "," "." (scan_number num s).
Proof.
  induction s as [|c s IH]; intros num; simpl; [reflexivity|].
  fold (dot c). rewrite numeric_char_dot, truthy_replace.
  destruct (numeric_char c).
  - rewrite <- IH, replace_app. reflexivity.
  - destruct (truthy num); [reflexivity|apply IH].
Qed.

Lemma scan_number_replace_all s :
  scan_number EmptyString (replace_char "," "." s)
  = replace_char "," "." (scan_number EmptyString s).
Proof. exact (scan_number_replace s EmptyString). Qed.

End NumericNormalization.

(** C8. A value text and the same text with its commas written as dots
    normalize to the same float: the same text reaches [float], so both
    give the same number, both give no value, or both raise.  The two
    spellings of 52.6 degrees give 52.6. *)
Theorem comma_and_dot_agree :
  (forall s : string,
     _to_float_best (PStr (replace_char "," "." s)) = _to_float_best (PStr s))
  /\ _to_float_best (PStr ("52,6 " ++ DEGREE_SYMBOL ++ "C")) = Ok (Some (Fin (263 # 5)))
  /\ _to_float_best (PStr ("52.6 " ++ DEGREE_SYMBOL ++ "C")) = Ok (Some (Fin (263 # 5))).
Proof.
  split; [|split; reflexivity].
  intros s. unfold _to_float_best, strip. simpl py_str.
  rewrite lstrip_replace, rstrip_replace.
  rewrite !scan_number_replace_all, truthy_replace, replace_replace.
  reflexivity.
Qed.

(** ** The loop body, one accumulator at a time *)

Lemma set_same x v env : set x v env x = v.
Proof. unfold set. destruct (Var_eq_dec x x); congruence. Qed.

Lemma set_other x y v env : y <> x -> set x v env y = env y.
Proof. unfold set. intros H. destruct (Var_eq_dec x y); congruence. Qed.

Lemma assign_if_other x l m ln sv val env env' y :
  assign_if x l m ln sv val env = Ok env' -> y <> x -> env' y = env y.
Proof.
  unfold assign_if. intros H Hy.
  destruct (is_unset (env x) && String.eqb ln l && contains m sv).
  - destruct (_to_float_best val); simpl in H; [|discriminate].
    injection H as <-. now apply set_other.
  - now injection H as <-.
Qed.

Lemma assign_if_self x l m ln sv val env env' :
  assign_if x l m ln sv val env = Ok env' ->
  (env x = None /\ String.eqb ln l = true /\ contains m sv = true
   /\ _to_float_best val = Ok (env' x))
  \/ ((env x <> None \/ String.eqb ln l = false \/ contains m sv = false)
      /\ env' x = env x).
Proof.
  unfold assign_if. intros H.
  destruct (env x) as [v|] eqn:Ex; simpl in H.
  - right. injection H as <-. split; [left; discriminate|exact Ex].
  - destruct (String.eqb ln l); simpl in H.
    + destruct (contains m sv); simpl in H.
      * left. destruct (_to_float_best val); simpl in H; [|discriminate].
        injection H as <-. now rewrite set_same.
      * right. injection H as <-. split; [right; right; reflexivity|exact Ex].
    + right. injection H as <-. split; [right; left; reflexivity|exact Ex].
Qed.

Ltac open_assign H :=
  match type of H with
  | rbind (assign_if ?z ?l ?m ?ln ?sv ?val ?e) _ = Ok _ =>
      let E := fresh "E" in
      let e' := fresh "env" in
      destruct (assign_if z l m ln sv val e) as [e'|] eqn:E;
      simpl in H; [|discriminate H]
  end.

Ltac read_assign x :=
  repeat match goal with
  | E : assign_if ?z _ _ _ _ _ _ = Ok _ |- _ =>
      first [ pose proof (assign_if_other _ _ _ _ _ _ _ _ x E ltac:(discriminate))
            | pose proof (assign_if_self _ _ _ _ _ _ _ _ E) ];
      clear E
  end.

Ltac close_assign x :=
  read_assign x; simpl fst; simpl snd;
  repeat match goal with
  | Hq : ?a x = ?b x |- _ => is_var a; is_var b; rewrite Hq in *; clear Hq
  end;
  match goal with
  | Hd : _ \/ _ |- _ =>
      destruct Hd as [(? & ? & ? & ?) | ([? | [? | ?]] & ?)]
  end;
  [ left;
    repeat match goal with
    | Hq : _ = true |- _ => rewrite Hq; clear Hq
    end; repeat split; assumption
  | right; split; [left; assumption | assumption]
  | right; split; [right|assumption];
    match goal with Hq : _ = false |- _ => rewrite Hq end; reflexivity
  | right; split; [right|assumption];
    match goal with Hq : _ = false |- _ => rewrite Hq end;
    simpl; apply andb_false_r ].

Lemma visit_skip env n env' :
  visit env n = Ok env' ->
  is_none (get n "Text") || is_none (get n "Value") = true ->
  env' = env.
Proof. unfold visit. intros H Hs. rewrite Hs in H. now injection H. Qed.

Lemma visit_spec env n env' (x : Var) :
  visit env n = Ok env' ->
  (env x = None /\ candidate x n = true /\ reading n = Ok (env' x))
  \/ ((env x <> None \/ candidate x n = false) /\ env' x = env x).
Proof.
  intros H. unfold candidate, reading.
  destruct (is_none (get n "Text") || is_none (get n "Value")) eqn:Hs.
  - apply visit_skip in H; [|exact Hs]. subst. right. split; [now right|reflexivity].
  - unfold visit in H. rewrite Hs in H. fold (lname n) (sval n) in H.
    do 8 open_assign H.
    destruct x;
      [ close_assign cpu_temp | close_assign cpu_load
      | close_assign cpu_clock_mhz | close_assign gpu_temp
      | close_assign gpu_hotspot | close_assign gpu_core_load
      | close_assign d3d_3d | close_assign vram_used_mb
      | close_assign vram_total_mb ].
Qed.

(** ** The whole traversal *)

Lemma visit_all_app a : forall b env,
  visit_all env (a ++ b) = (try! e <- visit_all env a; visit_all e b).
Proof.
  induction a as [|n a IH]; intros b env; simpl; [reflexivity|].
  destruct (visit env n); simpl; [apply IH|reflexivity].
Qed.

Lemma visit_all_first nodes : forall env env' x,
  visit_all env nodes = Ok env' ->
  env' x = match env x with
           | Some v => Some v
           | None => first_reading x nodes
           end.
Proof.
  induction nodes as [|n rest IH]; intros env env' x H; simpl in H.
  - injection H as <-. now destruct (env x).
  - destruct (visit env n) as [e1|] eqn:Hv; simpl in H; [|discriminate].
    rewrite (IH _ _ x H). simpl.
    destruct (visit_spec _ _ _ x Hv) as [(Hu & Hc & Hr) | ([Hu | Hc] & He)].
    + rewrite Hu, Hc, Hr. now destruct (e1 x).
    + rewrite He. destruct (env x); [reflexivity|congruence].
    + rewrite He, Hc. reflexivity.
Qed.

Lemma visit_all_keeps nodes env env' x v :
  visit_all env nodes = Ok env' -> env x = Some v -> env' x = Some v.
Proof. intros H Hx. rewrite (visit_all_first _ _ _ x H), Hx. reflexivity. Qed.

Lemma first_reading_source x nodes v :
  first_reading x nodes = Some v ->
  exists n, In n nodes /\ candidate x n = true /\ reading n = Ok (Some v).
Proof.
  induction nodes as [|n rest IH]; simpl; [discriminate|].
  intros H.
  assert (Hrest : first_reading x rest = Some v ->
                  exists n0, (n = n0 \/ In n0 rest) /\ candidate x n0 = true
                             /\ reading n0 = Ok (Some v)).
  { intros Hr. destruct (IH Hr) as (n0 & Hin & Hc & Hv). eauto. }
  destruct (candidate x n) eqn:Hc; [|auto].
  destruct (reading n) as [[v'|]|] eqn:Hr; [|auto|auto].
  injection H as ->. exists n. auto.
Qed.

Lemma py_or_some a b v : py_or a b = Some v -> a = Some v \/ b = Some v.
Proof.
  unfold py_or. destruct a as [x|]; [|auto].
  destruct (PyFloat.truthy x); auto.
Qed.

Lemma candidate_marker x n :
  candidate x n = true -> contains (snd (rule x)) (sval n) = true.
Proof. unfold candidate. intros H. now apply andb_true_iff in H. Qed.

Lemma lhm_read_metrics_env source data m :
  lhm_read_metrics source (Some data) = Ok m ->
  exists env,
    visit_all unset (walk_json data) = Ok env
    /\ m = {| M.cpu_temp := env cpu_temp;
              M.cpu_load := env cpu_load;
              M.cpu_clock_mhz := env cpu_clock_mhz;
              M.gpu_temp := py_or (env gpu_temp) (env gpu_hotspot);
              M.gpu_load :=
                if String.eqb (lower source) "core"
                then py_or (env gpu_core_load) (env d3d_3d)
                else py_or (env d3d_3d) (env gpu_core_load);
              M.vram_used_mb := env vram_used_mb;
              M.vram_total_mb := env vram_total_mb |}.
Proof.
  unfold lhm_read_metrics. intros H.
  destruct (visit_all unset (walk_json data)) as [env|]; simpl in H; [|discriminate].
  exists env. split; [reflexivity|]. now injection H.
Qed.

(** C4, as the code has it.  When extraction completes, every accumulator
    holds the number of the first node, in the order of [walk_json], that
    carries its label and unit marker and whose value text gives a number
    (a candidate without a number leaves it open for a later one); an
    accumulator set after a prefix of the walk keeps that number to the end;
    and the walk lists a mapping before the mappings below it, members and
    items in their order. *)
Theorem first_reading_wins source data m :
  lhm_read_metrics source (Some data) = Ok m ->
  exists env,
    visit_all unset (walk_json data) = Ok env
    /\ (forall x, env x = first_reading x (walk_json data))
    /\ (forall pre post env1 x v,
          walk_json data = (pre ++ post)%list ->
          visit_all unset pre = Ok env1 ->
          env1 x = Some v -> env x = Some v)
    /\ (M.cpu_temp m = env cpu_temp
        /\ M.cpu_load m = env cpu_load
        /\ M.cpu_clock_mhz m = env cpu_clock_mhz
        /\ M.vram_used_mb m = env vram_used_mb
        /\ M.vram_total_mb m = env vram_total_mb
        /\ M.gpu_temp m = py_or (env gpu_temp) (env gpu_hotspot)
        /\ M.gpu_load m =
             if String.eqb (lower source) "core"
             then py_or (env gpu_core_load) (env d3d_3d)
             else py_or (env d3d_3d) (env gpu_core_load))
    /\ (forall shown members,
          walk_json (PDict shown members)
          = PDict shown members
              :: flat_map (fun kv => walk_json (snd kv)) members)
    /\ (forall shown items,
          walk_json (PList shown items) = flat_map walk_json items).
Proof.
  intros H. destruct (lhm_read_metrics_env _ _ _ H) as (env & Hrun & ->).
  exists env. split; [exact Hrun|]. split; [|split; [|split]].
  - intros x. now rewrite (visit_all_first _ _ _ x Hrun).
  - intros pre post env1 x v Hsplit Hpre Hx.
    rewrite Hsplit, visit_all_app, Hpre in Hrun. simpl in Hrun.
    exact (visit_all_keeps _ _ _ _ _ Hrun Hx).
  - simpl. repeat split.
  - split; reflexivity.
Qed.

Lemma first_reading_wins_witness :
  lhm_read_metrics GPU_LOAD_SOURCE (Some doc_cpu)
  = Ok {| M.cpu_temp := Some (Fin (262 # 5)); M.cpu_load := Some (Fin 37);
          M.cpu_clock_mhz := None; M.gpu_temp := None; M.gpu_load := None;
          M.vram_used_mb := None; M.vram_total_mb := None |}
  /\ exists env,
       visit_all unset (walk_json doc_cpu) = Ok env
       /\ (forall x, env x = first_reading x (walk_json doc_cpu)).
Proof.
  assert (H : lhm_read_metrics GPU_LOAD_SOURCE (Some doc_cpu)
    = Ok {| M.cpu_temp := Some (Fin (262 # 5)); M.cpu_load := Some (Fin 37);
            M.cpu_clock_mhz := None; M.gpu_temp := None; M.gpu_load := None;
            M.vram_used_mb := None; M.vram_total_mb := None |})
    by (vm_compute; reflexivity).
  split; [exact H|].
  destruct (first_reading_wins _ _ _ H) as (env & Hrun & Hfirst & _).
  exists env. split; assumption.
Defined.

(** C4 as stated fails: in [doc_two_totals] the first node with the label
    and the percent marker has no number in its value text, and [cpu_load]
    ends with the number of the second node. *)
Lemma first_candidate_counterexample :
  exists m n,
    lhm_read_metrics GPU_LOAD_SOURCE (Some doc_two_totals) = Ok m
    /\ List.find (candidate cpu_load) (walk_json doc_two_totals) = Some n
    /\ n = sensor "CPU Total" "%"
    /\ reading n = Ok None
    /\ M.cpu_load m = Some (Fin 37).
Proof.
  eexists. exists (sensor "CPU Total" "%").
  repeat (split; [vm_compute; reflexivity|]). reflexivity.
Qed.

(** C7. A field of the returned snapshot only ever holds the number of a
    node of the document that has the label of one of the field's
    accumulators and whose lowered value text contains the field's unit
    marker: a node without the marker populates nothing, whatever its
    label. *)
Theorem unit_marker_required source data m f v :
  lhm_read_metrics source (Some data) = Ok m ->
  metric f m = Some v ->
  exists n x,
    In n (walk_json data)
    /\ In x (feeders f)
    /\ String.eqb (lname n) (fst (rule x)) = true
    /\ contains (unit_marker f) (sval n) = true
    /\ reading n = Ok (Some v).
Proof.
  intros H Hf. destruct (lhm_read_metrics_env _ _ _ H) as (env & Hrun & ->).
  assert (Hsrc : forall x, env x = Some v ->
            exists n, In n (walk_json data)
              /\ String.eqb (lname n) (fst (rule x)) = true
              /\ contains (snd (rule x)) (sval n) = true
              /\ reading n = Ok (Some v)).
  { intros x Hx. rewrite (visit_all_first _ _ _ x Hrun) in Hx. simpl in Hx.
    destruct (first_reading_source _ _ _ Hx) as (n & Hin & Hc & Hr).
    exists n. repeat split; try assumption.
    - unfold candidate in Hc. apply andb_true_iff in Hc. destruct Hc as [Hc _].
      now apply andb_true_iff in Hc.
    - now apply candidate_marker. }
  assert (Hfrom : forall x, In x (feeders f) ->
            snd (rule x) = unit_marker f -> env x = Some v ->
            exists n x0,
              In n (walk_json data) /\ In x0 (feeders f)
              /\ String.eqb (lname n) (fst (rule x0)) = true
              /\ contains (unit_marker f) (sval n) = true
              /\ reading n = Ok (Some v)).
  { intros x Hin Hm Hx. destruct (Hsrc _ Hx) as (n & ? & ? & ? & ?).
    exists n, x. rewrite <- Hm. repeat split; assumption. }
  destruct f; simpl in Hf.
  - apply (Hfrom cpu_temp); simpl; auto.
  - apply (Hfrom cpu_load); simpl; auto.
  - apply (Hfrom cpu_clock_mhz); simpl; auto.
  - apply py_or_some in Hf. destruct Hf as [Hf | Hf].
    + apply (Hfrom gpu_temp); simpl; auto.
    + apply (Hfrom gpu_hotspot); simpl; auto.
  - destruct (String.eqb (lower source) "core");
      apply py_or_some in Hf; destruct Hf as [Hf | Hf];
      first [ apply (Hfrom gpu_core_load); simpl; now auto
            | apply (Hfrom d3d_3d); simpl; now auto ].
  - apply (Hfrom vram_used_mb); simpl; auto.
  - apply (Hfrom vram_total_mb); simpl; auto.
Qed.

Lemma unit_marker_required_witness :
  exists n x,
    In n (walk_json doc_cpu)
    /\ In x (feeders f_cpu_load)
    /\ String.eqb (lname n) (fst (rule x)) = true
    /\ contains (unit_marker f_cpu_load) (sval n) = true
    /\ reading n = Ok (Some (Fin 37)).
Proof.
  apply (unit_marker_required GPU_LOAD_SOURCE doc_cpu
           {| M.cpu_temp := Some (Fin (262 # 5)); M.cpu_load := Some (Fin 37);
              M.cpu_clock_mhz := None; M.gpu_temp := None; M.gpu_load := None;
              M.vram_used_mb := None; M.vram_total_mb := None |}
           f_cpu_load (Fin 37)).
  - vm_compute. reflexivity.
  - reflexivity.
Defined.

(** C3 fails on the code: a value text whose numeric run is not a number
    makes [float] raise, and nothing catches it before it leaves
    [lhm_read_metrics]; the other field of the document is lost with it. *)
Theorem malformed_number_aborts :
  _to_float_best (PStr "- %") = Raise ValueError
  /\ lhm_read_metrics GPU_LOAD_SOURCE (Some doc_dash) = Raise ValueError
  /\ first_reading cpu_temp (walk_json doc_dash) = Some (Fin (262 # 5)).
Proof. repeat split; vm_compute; reflexivity. Qed.

(** C2 fails on the code: [or] also falls back when the chosen source was
    found and reads zero.  With the shipped source "d3d" an idle 3D engine
    (0 %) is replaced by the core load, and with "core" an idle core by the
    3D load. *)
Theorem zero_load_falls_back :
  first_reading d3d_3d (walk_json doc_idle_d3d) = Some (Fin 0)
  /\ (exists m, lhm_read_metrics "d3d" (Some doc_idle_d3d) = Ok m
                /\ M.gpu_load m = Some (Fin 35))
  /\ first_reading gpu_core_load (walk_json doc_idle_core) = Some (Fin 0)
  /\ (exists m, lhm_read_metrics "core" (Some doc_idle_core) = Ok m
                /\ M.gpu_load m = Some (Fin 35)).
Proof.
  split; [vm_compute; reflexivity|]. split.
  - eexists. split; [vm_compute; reflexivity|reflexivity].
  - split; [vm_compute; reflexivity|].
    eexists. split; [vm_compute; reflexivity|reflexivity].
Qed.

(** * Properties of the progress bar *)

Lemma length_app (a b : string) :
  String.length (a ++ b) = (String.length a + String.length b)%nat.
Proof. induction a as [|c a IH]; simpl; [reflexivity|]. now rewrite IH. Qed.

Lemma length_repeat_char (c : ascii) (k : nat) :
  String.length (String.concat "" (List.repeat (String c EmptyString) k)) = k.
Proof.
  induction k as [|k IH]; [reflexivity|].
  simpl List.repeat. destruct k as [|k]; [reflexivity|].
  change (String.length
            (String c EmptyString ++ "" ++
             String.concat "" (List.repeat (String c EmptyString) (S k)))
          = S (S k))%nat.
  rewrite !length_app, IH. reflexivity.
Qed.

Lemma length_bar (filled : Z) :
  (0 <= filled <= BAR_WIDTH)%Z ->
  String.length ("[" ++ repeat BAR_FILLED filled
                     ++ repeat BAR_EMPTY (BAR_WIDTH - filled) ++ "]") = 18%nat.
Proof.
  unfold BAR_WIDTH, BAR_FILLED, BAR_EMPTY, repeat. intros H.
  rewrite !length_app, !length_repeat_char. simpl String.length. lia.
Qed.

Lemma positive_not_zero (y : Q) :
  Qle_bool y 0 = false -> PyFloat.is_zero y = false.
Proof.
  unfold PyFloat.is_zero, Qle_bool. intros H.
  destruct (Qnum y =? 0)%Z eqn:E; [|reflexivity].
  apply Z.eqb_eq in E. rewrite E in H. discriminate H.
Qed.

(** Past the guard the division does not raise. *)
Lemma div_guarded (u t : pyfloat) :
  PyFloat.le t (Fin 0) = false -> exists r, PyFloat.div u t = Ok r.
Proof.
  intros H. destruct t as [y| | |]; simpl in H.
  - apply positive_not_zero in H. unfold PyFloat.div. rewrite H.
    destruct u; eexists; reflexivity.
  - destruct u; eexists; reflexivity.
  - discriminate H.
  - destruct u; eexists; reflexivity.
Qed.

(** The clamp gives a finite fraction, whatever the quotient. *)
Lemma clamp_finite (r : pyfloat) :
  exists q, PyFloat.max (Fin 0) (PyFloat.min (Fin 1) r) = Fin q.
Proof.
  unfold PyFloat.max, PyFloat.min.
  destruct r as [x| | |]; simpl.
  - destruct (PyFloat.Qltb x 1); simpl.
    + destruct (PyFloat.Qltb 0 x); eexists; reflexivity.
    + eexists; reflexivity.
  - eexists; reflexivity.
  - eexists; reflexivity.
  - eexists; reflexivity.
Qed.

(** C10. For every pair of optional floats, nan and the infinities
    included, [progress_bar] returns without raising a string of 18
    characters: "[", [filled] times "#", [16 - filled] times "-", "]", with
    [filled] between 0 and 16; the bar is empty when [used] or [total] is
    [None] or [total <= 0]. *)
Theorem progress_bar_shape (used total : option pyfloat) :
  exists filled : Z,
    (0 <= filled <= BAR_WIDTH)%Z
    /\ progress_bar used total
       = Ok ("[" ++ repeat BAR_FILLED filled
                 ++ repeat BAR_EMPTY (BAR_WIDTH - filled) ++ "]")
    /\ String.length ("[" ++ repeat BAR_FILLED filled
                          ++ repeat BAR_EMPTY (BAR_WIDTH - filled) ++ "]") = 18%nat
    /\ ((used = None \/ total = None
         \/ exists t, total = Some t /\ PyFloat.le t (Fin 0) = true) ->
        progress_bar used total = Ok "[----------------]").
Proof.
  assert (Hempty : exists filled : Z,
            (0 <= filled <= BAR_WIDTH)%Z
            /\ Ok ("[" ++ repeat BAR_EMPTY BAR_WIDTH ++ "]")
               = Ok ("[" ++ repeat BAR_FILLED filled
                         ++ repeat BAR_EMPTY (BAR_WIDTH - filled) ++ "]")
            /\ String.length ("[" ++ repeat BAR_FILLED filled
                          ++ repeat BAR_EMPTY (BAR_WIDTH - filled) ++ "]") = 18%nat).
  { exists 0%Z. repeat split; unfold BAR_WIDTH; lia. }
  destruct used as [u|], total as [t|]; simpl;
    try (destruct Hempty as (k & ? & ? & ?); exists k; now repeat split).
  destruct (PyFloat.le t (Fin 0)) eqn:Hle.
  - destruct Hempty as (k & ? & ? & ?). exists k. now repeat split.
  - destruct (div_guarded u t Hle) as (r & ->). simpl.
    destruct (clamp_finite r) as (q & ->). simpl.
    set (z := PyFloat.round_half_even _).
    exists (Z.max 0 (Z.min BAR_WIDTH z)).
    assert (Hr : (0 <= Z.max 0 (Z.min BAR_WIDTH z) <= BAR_WIDTH)%Z)
      by (unfold BAR_WIDTH; lia).
    split; [exact Hr|]. split; [reflexivity|]. split; [now apply length_bar|].
    intros [H | [H | (t' & H & Ht)]]; try discriminate H.
    injection H as <-. congruence.
Qed.

Example progress_bar_over :
  progress_bar (Some (Fin 48)) (Some (Fin 16)) = Ok "[################]".
Proof. vm_compute. reflexivity. Qed.

Example progress_bar_under :
  progress_bar (Some (Fin (-3))) (Some (Fin 16)) = Ok "[----------------]".
Proof. vm_compute. reflexivity. Qed.

Example progress_bar_half :
  progress_bar (Some (Fin (79 # 10))) (Some (Fin (157 # 10)))
  = Ok "[########--------]".
Proof. vm_compute. reflexivity. Qed.

Example progress_bar_nan :
  progress_bar (Some NaN) (Some NaN) = Ok "[################]".
Proof. vm_compute. reflexivity. Qed.

(** * Properties of the endpoint resolver *)

Lemma Qltb_lt (a b : Q) : PyFloat.Qltb a b = true <-> (a < b)%Q.
Proof.
  unfold PyFloat.Qltb. rewrite negb_true_iff. split.
  - intros H. apply Qnot_le_lt. intros Hle.
    apply Qle_bool_iff in Hle. congruence.
  - intros H. destruct (Qle_bool b a) eqn:E; [|reflexivity].
    apply Qle_bool_iff in E. exfalso. exact (Qlt_not_le _ _ H E).
Qed.

Lemma next_current {A : Type} (s : Script A) : current (snd (next s)) = fst (next s).
Proof. unfold next. destruct (coming s); reflexivity. Qed.

Lemma time_time_eq w :
  time_time w
  = (fst (next (clock w)),
     {| clock := snd (next (clock w)); disk := disk w; net := net w;
        lhm := lhm w; trace := trace w |}).
Proof. unfold time_time. now destruct (next (clock w)). Qed.

Lemma read_coreprops_address_eq w :
  read_coreprops_address w
  = (first_address (fst (next (disk w))) COREPROPS_PATHS,
     {| clock := clock w; disk := snd (next (disk w)); net := net w;
        lhm := lhm w; trace := trace w ++ [Scanned] |}).
Proof. unfold read_coreprops_address. now destruct (next (disk w)). Qed.

Lemma requests_post_eq url payload w :
  requests_post url payload w
  = (fst (next (net w)),
     {| clock := clock w; disk := disk w; net := snd (next (net w));
        lhm := lhm w;
        trace := trace w ++ [Posted url payload (fst (next (net w)))] |}).
Proof. unfold requests_post. now destruct (next (net w)). Qed.

Lemma is_gamesense_alive_eq base w :
  is_gamesense_alive base w
  = (alive_reply (fst (next (net w))),
     {| clock := clock w; disk := disk w; net := snd (next (net w));
        lhm := lhm w;
        trace := trace w ++ [Posted (base ++ "/game_heartbeat")
                               (game_heartbeat "PING") (fst (next (net w)))] |}).
Proof. unfold is_gamesense_alive. now rewrite requests_post_eq. Qed.

Lemma is_lhm_ready_eq w :
  is_lhm_ready w
  = (fst (next (lhm w)),
     {| clock := clock w; disk := disk w; net := net w;
        lhm := snd (next (lhm w)); trace := trace w |}).
Proof. unfold is_lhm_ready. now destruct (next (lhm w)). Qed.

(** A call that finds a fresh cached base hands it back and does nothing
    else. *)
Lemma get_current_base_cached st w b :
  _current_base st = Some b -> truthy b = true ->
  (fst (next (clock w)) - _last_base_read st < 3)%Q ->
  get_current_base false st w
  = (Some b, st,
     {| clock := snd (next (clock w)); disk := disk w; net := net w;
        lhm := lhm w; trace := trace w |}).
Proof.
  intros Hb Ht Hfresh. apply Qltb_lt in Hfresh.
  unfold get_current_base. rewrite time_time_eq, Hb. cbn -[next].
  rewrite Ht, Hfresh. reflexivity.
Qed.

Lemma first_address_truthy d ps b :
  first_address d ps = Some b -> truthy b = true.
Proof.
  induction ps as [|p ps IH]; simpl; [discriminate|].
  destruct (d p) as [| |[a|]]; try exact IH.
  destruct (truthy a); [|exact IH]. intros H. injection H as <-. reflexivity.
Qed.

(** A forced call scans the files and probes what it finds; a new address
    that answers the probe becomes the base. *)
Lemma get_current_base_forced st w b' :
  first_address (fst (next (disk w))) COREPROPS_PATHS = Some b' ->
  alive_reply (fst (next (net w))) = true ->
  exists st' w' new,
    get_current_base true st w = (Some b', st', w')
    /\ _current_base st' = Some b'
    /\ trace w' = (trace w ++ Scanned :: new)%list.
Proof.
  intros Hfile Halive.
  pose proof (first_address_truthy _ _ _ Hfile) as Htruthy.
  unfold get_current_base.
  rewrite time_time_eq, read_coreprops_address_eq.
  cbn -[first_address next same_base].
  rewrite Hfile, Htruthy, is_gamesense_alive_eq.
  cbn -[first_address next same_base].
  rewrite Halive.
  destruct (negb (same_base (Some b') (_current_base st)));
    do 3 eexists; (split; [reflexivity|split; [reflexivity|]]);
    unfold log, emit; cbn [trace]; rewrite <- ?app_assoc; reflexivity.
Qed.

(** C6, as the code has it.  The freshness of the cache is counted from
    the last scan of the candidate files ([_last_base_read]), not from the
    previous call.  Two unforced calls whose clock readings are both within
    3 s of that scan, with a base cached, return that base, leave the state
    alone and neither scan the files nor post a probe, whatever became of
    the files and the peers in between; a forced call then scans the files
    again and, when the address it finds answers the probe, returns it and
    makes it the base. *)
Theorem cache_within_ttl st w b (d' : Script Disk) (n' : Script Reply) :
  _current_base st = Some b -> truthy b = true ->
  (fst (next (clock w)) - _last_base_read st < 3)%Q ->
  (fst (next (snd (next (clock w)))) - _last_base_read st < 3)%Q ->
  exists w1 w2,
    get_current_base false st w = (Some b, st, w1)
    /\ get_current_base false st (with_outside d' n' w1) = (Some b, st, w2)
    /\ trace w1 = trace w /\ trace w2 = trace w
    /\ disk w1 = disk w /\ net w1 = net w
    /\ disk w2 = d' /\ net w2 = n'
    /\ forall b',
         first_address (fst (next d')) COREPROPS_PATHS = Some b' ->
         alive_reply (fst (next n')) = true ->
         exists st3 w3 new,
           get_current_base true st (with_outside d' n' w1) = (Some b', st3, w3)
           /\ _current_base st3 = Some b'
           /\ trace w3 = (trace w ++ Scanned :: new)%list.
Proof.
  intros Hb Ht H1 H2.
  rewrite (get_current_base_cached st w b Hb Ht H1).
  eexists. eexists. split; [reflexivity|].
  split; [apply (get_current_base_cached st _ b Hb Ht); exact H2|].
  simpl. repeat split.
  intros b' Hfile Halive.
  apply (get_current_base_forced st
           (with_outside d' n'
              {| clock := snd (next (clock w)); disk := disk w; net := net w;
                 lhm := lhm w; trace := trace w |}) b'); assumption.
Qed.

Lemma cache_within_ttl_witness :
  exists w1 w2,
    get_current_base false st_bound
      {| clock := {| coming := [100; 101]; current := 99 |};
         disk := disk quiet; net := net quiet; lhm := lhm quiet; trace := [] |}
    = (Some "http://127.0.0.1:5000", st_bound, w1)
    /\ get_current_base false st_bound
         (with_outside (disk w_moved) (net w_moved) w1)
       = (Some "http://127.0.0.1:5000", st_bound, w2)
    /\ trace w2 = []
    /\ exists st3 w3 new,
         get_current_base true st_bound
           (with_outside (disk w_moved) (net w_moved) w1)
         = (Some "http://127.0.0.1:6000", st3, w3)
         /\ trace w3 = Scanned :: new.
Proof.
  destruct (cache_within_ttl st_bound
              {| clock := {| coming := [100; 101]; current := 99 |};
                 disk := disk quiet; net := net quiet; lhm := lhm quiet;
                 trace := [] |}
              "http://127.0.0.1:5000" (disk w_moved) (net w_moved))
    as (w1 & w2 & H1 & H2 & _ & Ht2 & _ & _ & _ & _ & Hforced);
    try reflexivity.
  exists w1, w2. split; [exact H1|]. split; [exact H2|]. split; [exact Ht2|].
  destruct (Hforced "http://127.0.0.1:6000") as (st3 & w3 & new & H3 & _ & Ht3);
    try reflexivity.
  exists st3, w3, new. split; [exact H3|exact Ht3].
Defined.

(** C6 as stated fails: with the files last scanned at 99 s, unforced calls
    at 101 s and 103 s are 2 s apart, yet the second one is 4 s after the
    scan, reads the changed file and returns the new address. *)
Lemma calls_within_ttl_of_each_other_counterexample :
  exists s1 w1 s2 w2,
    get_current_base false st_bound w_moved
      = (Some "http://127.0.0.1:5000", s1, w1)
    /\ get_current_base false s1 w1 = (Some "http://127.0.0.1:6000", s2, w2)
    /\ (103 - 101 < 3)%Q
    /\ trace w2 = [ Scanned;
                    Posted "http://127.0.0.1:6000/game_heartbeat"
                      (game_heartbeat "PING") (Status 200);
                    Logged 103 (BaseChanged "http://127.0.0.1:6000") ].
Proof.
  do 4 eexists. split; [vm_compute; reflexivity|].
  split; [vm_compute; reflexivity|]. split; reflexivity.
Qed.

(** * Properties of the publisher *)

(** ** Traces *)

Lemma frames_app a b : frames (a ++ b) = (frames a ++ frames b)%list.
Proof.
  induction a as [|e a IH]; [reflexivity|].
  destruct e as [|url p r|t l]; simpl; try exact IH.
  destruct p; simpl; try exact IH. now rewrite IH.
Qed.

Lemma send_rebinds_app a b :
  send_rebinds (a ++ b) = (send_rebinds a ++ send_rebinds b)%list.
Proof.
  induction a as [|e a IH]; [reflexivity|].
  destruct e as [|url p r|t l]; simpl; try exact IH.
  destruct l; simpl; try exact IH; now rewrite IH.
Qed.

Lemma last_app {A : Type} (a b : list A) (d : A) :
  List.last (a ++ b) d = List.last b (List.last a d).
Proof.
  revert d. induction a as [|x a IH]; intros d; [reflexivity|].
  destruct a as [|y a].
  - simpl. destruct b as [|z b]; [reflexivity|].
    clear IH. revert z. induction b as [|z' b IHb]; intros z; [reflexivity|].
    simpl in *. apply IHb.
  - change (List.last ((y :: a) ++ b) d = List.last b (List.last (y :: a) d)).
    rewrite <- IH. simpl. destruct (a ++ b)%list; reflexivity.
Qed.

Lemma last_cons {A : Type} (a : list A) : forall t l : A,
  List.last (t :: a) l = List.last a t.
Proof.
  induction a as [|x a IH]; intros t l; [reflexivity|].
  change (List.last (x :: a) l = List.last (x :: a) t).
  now rewrite !IH.
Qed.

Lemma spaced_app a : forall b l,
  spaced l (a ++ b) <-> spaced l a /\ spaced (List.last a l) b.
Proof.
  induction a as [|t a IH]; intros b l.
  - simpl. tauto.
  - change (spaced l ((t :: a) ++ b))
      with ((REBIND_COOLDOWN_SECONDS < t - l)%Q /\ spaced t (a ++ b)).
    change (spaced l (t :: a))
      with ((REBIND_COOLDOWN_SECONDS < t - l)%Q /\ spaced t a).
    rewrite IH.
    rewrite last_cons. tauto.
Qed.

Lemma spaced_later ts : forall l t,
  spaced l ts -> In t ts -> (REBIND_COOLDOWN_SECONDS < t - l)%Q.
Proof.
  unfold REBIND_COOLDOWN_SECONDS.
  induction ts as [|a ts IH]; intros l t Hs Hin; [contradiction|].
  destruct Hs as [Ha Hs]. destruct Hin as [<- | Hin]; [exact Ha|].
  specialize (IH a t Hs Hin).
  unfold REBIND_COOLDOWN_SECONDS in *. lra.
Qed.

(** ** Composing outcomes *)

Lemma paced_nil st : paced st st [].
Proof. split; [exact I|reflexivity]. Qed.

Lemma paced_app st st1 st2 a b :
  paced st st1 a -> paced st1 st2 b -> paced st st2 (a ++ b).
Proof.
  intros [Ha La] [Hb Lb]. unfold paced.
  rewrite send_rebinds_app, last_app, <- La. split; [|exact Lb].
  apply spaced_app. rewrite <- La. split; assumption.
Qed.

Lemma outcome_refl st w : outcome st w st w [].
Proof.
  split; [reflexivity|]. exists []. rewrite app_nil_r.
  repeat split.
Qed.

Lemma outcome_trans st w st1 w1 st2 w2 s1 s2 :
  outcome st w st1 w1 s1 -> outcome st1 w1 st2 w2 s2 ->
  outcome st w st2 w2 (s1 ++ s2).
Proof.
  intros (Hc1 & n1 & Ht1 & Hf1 & Hp1) (Hc2 & n2 & Ht2 & Hf2 & Hp2).
  split; [congruence|]. exists (n1 ++ n2)%list.
  split; [now rewrite Ht2, Ht1, app_assoc|].
  split; [now rewrite frames_app, Hf1, Hf2|].
  eapply paced_app; eassumption.
Qed.

(** A step that adds events without a rebind of [safe_post] or a frame, and
    keeps [_last_rebind] and [_counter]. *)
Lemma outcome_calm st w st' w' new :
  trace w' = (trace w ++ new)%list ->
  send_rebinds new = [] -> frames new = [] ->
  _last_rebind st' = _last_rebind st -> _counter st' = _counter st ->
  outcome st w st' w' [].
Proof.
  intros Ht Hs Hf Hl Hc. split; [exact Hc|]. exists new.
  repeat split; try assumption; unfold paced; rewrite Hs; simpl; auto.
Qed.

(** ** What each step leaves behind *)

Ltac calm :=
  eapply outcome_calm;
  [ unfold log, emit; cbn [trace]; rewrite <- ?app_assoc;
    first [ reflexivity | symmetry; apply app_nil_r ]
  | reflexivity .. ].

Lemma get_current_base_outcome force st w :
  outcome st w (snd (fst (get_current_base force st w)))
    (snd (get_current_base force st w)) []
  /\ clock (snd (get_current_base force st w)) = snd (next (clock w))
  /\ _last_rebind (snd (fst (get_current_base force st w))) = _last_rebind st.
Proof.
  unfold get_current_base. rewrite time_time_eq. cbn -[next same_base first_address].
  destruct (negb force && truthy_base (_current_base st)
            && PyFloat.Qltb (fst (next (clock w)) - _last_base_read st) 3).
  - cbn -[next]. split; [calm|split; reflexivity].
  - rewrite read_coreprops_address_eq. cbn -[next same_base first_address].
    destruct (first_address (fst (next (disk w))) COREPROPS_PATHS) as [b|].
    + destruct (truthy b).
      * rewrite is_gamesense_alive_eq. cbn -[next same_base].
        destruct (alive_reply (fst (next (net w)))).
        -- destruct (negb (same_base (Some b) (_current_base st)));
             (split; [calm|split; reflexivity]).
        -- split; [calm|split; reflexivity].
      * split; [calm|split; reflexivity].
    + split; [calm|split; reflexivity].
Qed.

Lemma frames_posted url payload r : frames [Posted url payload r] = frames_of payload.
Proof. now destruct payload. Qed.

Lemma requests_post_outcome st w url payload :
  outcome st w st (snd (requests_post url payload w)) (frames_of payload)
  /\ clock (snd (requests_post url payload w)) = clock w.
Proof.
  rewrite requests_post_eq. cbn -[next frames_of]. split; [|reflexivity].
  split; [reflexivity|]. eexists. split; [reflexivity|].
  split; [apply frames_posted|].
  destruct payload; apply paced_nil.
Qed.

Lemma time_time_outcome st w :
  outcome st w st (snd (time_time w)) []
  /\ current (clock (snd (time_time w))) = fst (time_time w).
Proof.
  rewrite time_time_eq. cbn -[next]. split; [calm|apply next_current].
Qed.

(** The two log lines with which [safe_post] starts a rebind. *)
Definition starts_rebind (line : LogLine) : bool :=
  match line with
  | PostFailedRebind _ _ | PostExceptionRebind _ => true
  | _ => false
  end.

Lemma rebind_start_outcome st w line :
  starts_rebind line = true ->
  PyFloat.Qltb REBIND_COOLDOWN_SECONDS (current (clock w) - _last_rebind st) = true ->
  outcome st w (set_last_rebind (current (clock w)) st) (log line w) [].
Proof.
  intros Hline Hcool. apply Qltb_lt in Hcool.
  split; [reflexivity|]. exists [Logged (current (clock w)) line].
  split; [reflexivity|].
  destruct line; try discriminate Hline; (split; [reflexivity|]);
    (split; [split; [exact Hcool|exact I]|reflexivity]).
Qed.

Lemma log_outcome st w line :
  starts_rebind line = false -> outcome st w st (log line w) [].
Proof.
  intros Hline. apply outcome_calm with (new := [Logged (current (clock w)) line]);
    try reflexivity; destruct line; try reflexivity; discriminate Hline.
Qed.

Section RebindOutcome.

Variable post : string -> Payload -> Run (option Z).

Hypothesis post_outcome : forall path payload st w r st' w',
  post path payload st w = Some (r, st', w') ->
  frames_of payload = [] ->
  outcome st w st' w' [].

Lemma try_rebind_with_outcome st w u st' w' :
  try_rebind_with post st w = Some (u, st', w') -> outcome st w st' w' [].
Proof.
  unfold try_rebind_with, bind_all_with, bind_screen_with,
    register_game_with, and_then.
  intros H.
  destruct (post "/game_metadata" _ st w) as [[[r1 s1] w1]|] eqn:H1;
    [|discriminate].
  destruct (post "/bind_game_event" _ s1 w1) as [[[r2 s2] w2]|] eqn:H2;
    [|discriminate].
  destruct (post "/bind_game_event" _ s2 w2) as [[[r3 s3] w3]|] eqn:H3;
    [|discriminate].
  destruct (post "/bind_game_event" _ s3 w3) as [[[r4 s4] w4]|] eqn:H4;
    [|discriminate].
  injection H as _ <- <-.
  apply post_outcome in H1, H2, H3, H4; try reflexivity.
  pose proof (log_outcome s4 w4 RebindDone eq_refl) as H5.
  exact (outcome_trans _ _ _ _ _ _ _ _ H1
           (outcome_trans _ _ _ _ _ _ _ _ H2
              (outcome_trans _ _ _ _ _ _ _ _ H3
                 (outcome_trans _ _ _ _ _ _ _ _ H4 H5)))).
Qed.

End RebindOutcome.

Lemma outcome_sent st w st' w' s s' :
  outcome st w st' w' s -> s = s' -> outcome st w st' w' s'.
Proof. now intros H <-. Qed.

(** Whatever the replies, a call of [safe_post] that comes back has posted
    its payload once if a base was resolved and not at all otherwise, has
    left the counter alone and has kept the cooldown. *)
Lemma safe_post_outcome depth : forall path payload st w r st' w',
  safe_post depth path payload st w = Some (r, st', w') ->
  outcome st w st' w'
    (if truthy_base (fst (fst (get_current_base false st w)))
     then frames_of payload else []).
Proof.
  induction depth as [|d IH]; intros path payload st w r st' w' H;
    [discriminate|].
  cbn [safe_post] in H.
  pose proof (get_current_base_outcome false st w) as (Hg & _ & _).
  destruct (get_current_base false st w) as [[base st1] w1].
  cbn [fst snd] in *.
  destruct (truthy_base base); cbn [negb] in H.
  2:{ injection H as _ <- <-. exact Hg. }
  set (url := ((match base with Some b => b | None => EmptyString end) ++ path)) in H.
  pose proof (requests_post_outcome st1 w1 url payload) as (Hp & _).
  destruct (requests_post url payload w1) as [reply w2]. cbn [snd] in Hp.
  pose proof (outcome_trans _ _ _ _ _ _ _ _ Hg Hp) as Hsent. cbn [app] in Hsent.
  assert (Hrebind : forall st2 w3 u st3 w4,
            try_rebind_with (safe_post d) st2 w3 = Some (u, st3, w4) ->
            outcome st2 w3 st3 w4 []).
  { intros st2 w3 u st3 w4. apply try_rebind_with_outcome.
    intros path0 payload0 sa wa ra sb wb Hpost Hnil.
    specialize (IH _ _ _ _ _ _ _ Hpost). rewrite Hnil in IH.
    now destruct (truthy_base _) in IH. }
  destruct reply as [code|].
  - destruct ((400 <=? code)%Z && AUTO_REBIND_ON_FAIL).
    + pose proof (time_time_outcome st1 w2) as (Ht & Hnow).
      destruct (time_time w2) as [now w3]. cbn [fst snd] in Ht, Hnow. subst now.
      destruct (PyFloat.Qltb REBIND_COOLDOWN_SECONDS
                  (current (clock w3) - _last_rebind st1)) eqn:Hcool.
      * destruct (try_rebind_with (safe_post d) _ _) as [[[u st3] w4]|] eqn:Hr;
          [|discriminate].
        injection H as _ <- <-.
        pose proof (rebind_start_outcome st1 w3 (PostFailedRebind path code)
                      eq_refl Hcool) as Hm.
        apply Hrebind in Hr.
        eapply outcome_sent.
        -- exact (outcome_trans _ _ _ _ _ _ _ _ Hsent
                    (outcome_trans _ _ _ _ _ _ _ _ Ht
                       (outcome_trans _ _ _ _ _ _ _ _ Hm Hr))).
        -- cbn [app]. apply app_nil_r.
      * injection H as _ <- <-.
        eapply outcome_sent;
          [exact (outcome_trans _ _ _ _ _ _ _ _ Hsent Ht)|apply app_nil_r].
    + injection H as _ <- <-. exact Hsent.
  - destruct AUTO_REBIND_ON_FAIL.
    + pose proof (time_time_outcome st1 w2) as (Ht & Hnow).
      destruct (time_time w2) as [now w3]. cbn [fst snd] in Ht, Hnow. subst now.
      destruct (PyFloat.Qltb REBIND_COOLDOWN_SECONDS
                  (current (clock w3) - _last_rebind st1)) eqn:Hcool.
      * pose proof (rebind_start_outcome st1 w3 (PostExceptionRebind path)
                      eq_refl Hcool) as Hm.
        pose proof (get_current_base_outcome true
                      (set_last_rebind (current (clock w3)) st1)
                      (log (PostExceptionRebind path) w3)) as (Hf & _ & _).
        destruct (get_current_base true _ _) as [[b2 st2] w4].
        cbn [fst snd] in Hf.
        destruct (try_rebind_with (safe_post d) _ _) as [[[u st3] w5]|] eqn:Hr;
          [|discriminate].
        injection H as _ <- <-.
        apply Hrebind in Hr.
        eapply outcome_sent.
        -- exact (outcome_trans _ _ _ _ _ _ _ _ Hsent
                    (outcome_trans _ _ _ _ _ _ _ _ Ht
                       (outcome_trans _ _ _ _ _ _ _ _ Hm
                          (outcome_trans _ _ _ _ _ _ _ _ Hf Hr)))).
        -- cbn [app]. apply app_nil_r.
      * injection H as _ <- <-.
        eapply outcome_sent;
          [exact (outcome_trans _ _ _ _ _ _ _ _ Hsent Ht)|apply app_nil_r].
    + injection H as _ <- <-. exact Hsent.
Qed.

(** ** Every call comes back *)

Lemma next_coming {A : Type} (s : Script A) :
  List.length (coming (snd (next s))) = Nat.pred (List.length (coming s)).
Proof.
  unfold next. destruct (coming s) eqn:E; cbn [snd coming];
    [now rewrite E|reflexivity].
Qed.

Lemma next_final {A : Type} (s : Script A) :
  List.last (coming (snd (next s))) (current (snd (next s)))
  = List.last (coming s) (current s).
Proof.
  unfold next. destruct (coming s) as [|a rest] eqn:E; cbn [snd coming current].
  - now rewrite E.
  - symmetry. apply last_cons.
Qed.

Lemma Qltb_self (x : Q) : PyFloat.Qltb REBIND_COOLDOWN_SECONDS (x - x) = false.
Proof.
  destruct (PyFloat.Qltb REBIND_COOLDOWN_SECONDS (x - x)) eqn:E; [|reflexivity].
  apply Qltb_lt in E. unfold REBIND_COOLDOWN_SECONDS in E. lra.
Qed.

Lemma budget_same st w st' w' :
  clock w' = clock w -> _last_rebind st' = _last_rebind st ->
  budget st' w' = budget st w.
Proof. unfold budget, ticks, final. now intros -> ->. Qed.

Lemma budget_next st w st' w' :
  clock w' = snd (next (clock w)) -> _last_rebind st' = _last_rebind st ->
  (budget st' w' <= budget st w)%nat.
Proof.
  unfold budget, ticks, final. intros -> ->.
  rewrite next_coming, next_final. lia.
Qed.

(** The reading that lets a rebind start uses the budget up: the clock
    script is shorter, or it is over and the cooldown cannot pass again. *)
Lemma budget_rebind st w st2 w3 :
  clock w3 = snd (next (snd (next (clock w)))) ->
  PyFloat.Qltb REBIND_COOLDOWN_SECONDS (current (clock w3) - _last_rebind st) = true ->
  _last_rebind st2 = current (clock w3) ->
  (budget st2 w3 < budget st w)%nat.
Proof.
  unfold budget, ticks, final. intros Hc Hcool ->. rewrite Hc in *. clear Hc.
  rewrite !next_coming, !next_final.
  destruct (coming (clock w)) as [|a rest] eqn:E.
  - assert (Hn : next (clock w) = (current (clock w), clock w))
      by (unfold next; now rewrite E).
    rewrite Hn in *. cbn [snd] in *. rewrite Hn in *. cbn [snd] in *.
    cbn [List.last List.length Nat.pred]. rewrite Hcool, Qltb_self. lia.
  - cbn [List.length Nat.pred].
    destruct (PyFloat.Qltb _ _); destruct (PyFloat.Qltb _ _); lia.
Qed.

Section RebindReturns.

Variable post : string -> Payload -> Run (option Z).
Variable bound : nat.

Hypothesis post_returns : forall path payload st w,
  (budget st w < bound)%nat ->
  exists r st' w',
    post path payload st w = Some (r, st', w')
    /\ (budget st' w' <= budget st w)%nat.

Lemma try_rebind_with_returns st w :
  (budget st w < bound)%nat ->
  exists st' w',
    try_rebind_with post st w = Some (tt, st', w')
    /\ (budget st' w' <= budget st w)%nat.
Proof.
  intros H0.
  unfold try_rebind_with, bind_all_with, bind_screen_with,
    register_game_with, and_then.
  destruct (post_returns "/game_metadata"
              (game_metadata GAME "LHM OLED Monitor" "local" 60000) st w H0)
    as (r1 & s1 & w1 & -> & L1).
  destruct (post_returns "/bind_game_event"
              (bind_game_event GAME CPU_EVENT 1 [screen_handler]) s1 w1
              ltac:(lia)) as (r2 & s2 & w2 & -> & L2).
  destruct (post_returns "/bind_game_event"
              (bind_game_event GAME GPU_EVENT 1 [screen_handler]) s2 w2
              ltac:(lia)) as (r3 & s3 & w3 & -> & L3).
  destruct (post_returns "/bind_game_event"
              (bind_game_event GAME RAM_EVENT 1 [screen_handler]) s3 w3
              ltac:(lia)) as (r4 & s4 & w4 & -> & L4).
  do 2 eexists. split; [reflexivity|].
  rewrite (budget_same s4 w4 s4 (log RebindDone w4)) by reflexivity. lia.
Qed.

End RebindReturns.

(** With a depth above the budget [safe_post] comes back, and leaves a
    budget that is no larger. *)
Lemma safe_post_returns depth : forall path payload st w,
  (budget st w < depth)%nat ->
  exists r st' w',
    safe_post depth path payload st w = Some (r, st', w')
    /\ (budget st' w' <= budget st w)%nat.
Proof.
  induction depth as [|d IH]; intros path payload st w Hb; [lia|].
  cbn [safe_post].
  pose proof (get_current_base_outcome false st w) as (_ & Hgc & Hgl).
  destruct (get_current_base false st w) as [[base st1] w1].
  cbn [fst snd] in *.
  pose proof (budget_next _ _ _ _ Hgc Hgl) as L1.
  destruct (truthy_base base); cbn [negb].
  2:{ do 3 eexists. split; [reflexivity|exact L1]. }
  set (url := ((match base with Some b => b | None => EmptyString end) ++ path)).
  pose proof (requests_post_outcome st1 w1 url payload) as (_ & Hpc).
  destruct (requests_post url payload w1) as [reply w2]. cbn [snd] in Hpc.
  pose proof (time_time_outcome st1 w2) as (_ & Hnow).
  assert (Htc : clock (snd (time_time w2)) = snd (next (clock w2)))
    by (now rewrite time_time_eq).
  assert (Hstay : forall code : option Z,
            exists r st' w',
              Some (code, st1, w2) = Some (r, st', w')
              /\ (budget st' w' <= budget st w)%nat).
  { intros code. do 3 eexists. split; [reflexivity|].
    rewrite (budget_same st1 w1 st1 w2) by (assumption || reflexivity).
    exact L1. }
  assert (Hwait : forall code : option Z,
            exists r st' w',
              Some (code, st1, snd (time_time w2)) = Some (r, st', w')
              /\ (budget st' w' <= budget st w)%nat).
  { intros code. do 3 eexists. split; [reflexivity|].
    pose proof (budget_next st1 w2 st1 (snd (time_time w2)) Htc eq_refl) as L2.
    rewrite (budget_same st1 w1 st1 w2) in L2 by (assumption || reflexivity).
    lia. }
  assert (Hdeep : forall line,
            PyFloat.Qltb REBIND_COOLDOWN_SECONDS
              (fst (time_time w2) - _last_rebind st1) = true ->
            (budget (set_last_rebind (fst (time_time w2)) st1)
               (log line (snd (time_time w2))) < budget st w)%nat).
  { intros line Hcool. apply budget_rebind.
    - cbn [log emit clock]. now rewrite Htc, Hpc, Hgc.
    - cbn [log emit clock]. now rewrite Hnow, <- Hgl.
    - cbn [log emit clock set_last_rebind _last_rebind]. now rewrite Hnow. }
  destruct (time_time w2) as [now w3]. cbn [fst snd] in *.
  destruct reply as [code|].
  - destruct ((400 <=? code)%Z && AUTO_REBIND_ON_FAIL); [|apply Hstay].
    destruct (PyFloat.Qltb REBIND_COOLDOWN_SECONDS (now - _last_rebind st1));
      [|apply Hwait].
    specialize (Hdeep (PostFailedRebind path code) eq_refl).
    destruct (try_rebind_with_returns (safe_post d) d IH
                (set_last_rebind now st1)
                (log (PostFailedRebind path code) w3) ltac:(lia))
      as (st3 & w4 & -> & L3).
    do 3 eexists. split; [reflexivity|lia].
  - destruct AUTO_REBIND_ON_FAIL; [|apply Hstay].
    destruct (PyFloat.Qltb REBIND_COOLDOWN_SECONDS (now - _last_rebind st1));
      [|apply Hwait].
    specialize (Hdeep (PostExceptionRebind path) eq_refl).
    pose proof (get_current_base_outcome true (set_last_rebind now st1)
                  (log (PostExceptionRebind path) w3)) as (_ & Hfc & Hfl).
    destruct (get_current_base true _ _) as [[b2 st2] w4]. cbn [fst snd] in *.
    pose proof (budget_next _ _ _ _ Hfc Hfl) as L2.
    destruct (try_rebind_with_returns (safe_post d) d IH st2 w4 ltac:(lia))
      as (st3 & w5 & -> & L3).
    do 3 eexists. split; [reflexivity|lia].
Qed.

(** ** Rebinds, sends and the watchdog *)

Lemma try_rebind_outcome depth st w u st' w' :
  try_rebind depth st w = Some (u, st', w') -> outcome st w st' w' [].
Proof.
  apply try_rebind_with_outcome.
  intros path payload sa wa ra sb wb Hpost Hnil.
  pose proof (safe_post_outcome _ _ _ _ _ _ _ _ Hpost) as H.
  rewrite Hnil in H. now destruct (truthy_base _) in H.
Qed.

Lemma try_rebind_returns depth st w :
  (budget st w < depth)%nat ->
  exists st' w',
    try_rebind depth st w = Some (tt, st', w')
    /\ (budget st' w' <= budget st w)%nat.
Proof. apply try_rebind_with_returns. apply safe_post_returns. Qed.

(** What a job of the scheduler leaves behind. *)
Definition settled (st : State) (w : World)
    (res : option (unit * State * World)) : Prop :=
  exists st' w' new,
    res = Some (tt, st', w')
    /\ (budget st' w' <= budget st w)%nat
    /\ trace w' = (trace w ++ new)%list
    /\ paced st st' new.

Lemma settled_outcome st w st' w' sent :
  outcome st w st' w' sent -> (budget st' w' <= budget st w)%nat ->
  settled st w (Some (tt, st', w')).
Proof.
  intros (_ & new & Ht & _ & Hp) Hb. exists st', w', new. auto.
Qed.

Lemma safe_post_settled depth path payload st w :
  (budget st w < depth)%nat ->
  settled st w
    ((safe_post depth path payload ;; (fun st w => Some (tt, st, w))) st w).
Proof.
  intros Hb. unfold and_then.
  destruct (safe_post_returns depth path payload st w Hb)
    as (r & st' & w' & Hrun & Hle).
  rewrite Hrun. eapply settled_outcome; [|exact Hle].
  exact (safe_post_outcome _ _ _ _ _ _ _ _ Hrun).
Qed.

Lemma bind_all_settled depth st w :
  (budget st w < depth)%nat ->
  settled st w ((bind_all depth ;; (fun st w => Some (tt, st, w))) st w).
Proof.
  intros Hb. unfold bind_all, bind_all_with, bind_screen_with, and_then.
  destruct (safe_post_returns depth "/bind_game_event"
              (bind_game_event GAME CPU_EVENT 1 [screen_handler]) st w Hb)
    as (r1 & s1 & w1 & H1 & L1).
  destruct (safe_post_returns depth "/bind_game_event"
              (bind_game_event GAME GPU_EVENT 1 [screen_handler]) s1 w1
              ltac:(lia)) as (r2 & s2 & w2 & H2 & L2).
  destruct (safe_post_returns depth "/bind_game_event"
              (bind_game_event GAME RAM_EVENT 1 [screen_handler]) s2 w2
              ltac:(lia)) as (r3 & s3 & w3 & H3 & L3).
  rewrite H1, H2, H3.
  apply safe_post_outcome in H1, H2, H3.
  eapply settled_outcome; [|lia].
  exact (outcome_trans _ _ _ _ _ _ _ _ H1
           (outcome_trans _ _ _ _ _ _ _ _ H2 H3)).
Qed.

(** [send_screen] in full: it comes back, the counter is one more, and the
    frames posted are the one frame built from the old counter and the
    cropped lines when a base was resolved, none otherwise. *)
Lemma send_screen_spec depth event_name line1 line2 st w :
  (budget st w < depth)%nat ->
  exists st' w' new,
    send_screen depth event_name line1 line2 st w = Some (tt, st', w')
    /\ _counter st' = (_counter st + 1)%Z
    /\ (budget st' w' <= budget st w)%nat
    /\ trace w' = (trace w ++ new)%list
    /\ frames new
       = (if truthy_base (fst (fst (get_current_base false st w)))
          then [game_event GAME event_name (_counter st)
                  (take 18 (text_of line1)) (take 18 (text_of line2))]
          else [])
    /\ paced st st' new.
Proof.
  intros Hb. unfold send_screen.
  destruct (safe_post_returns depth "/game_event"
              (game_event GAME event_name (_counter st)
                 (take 18 (text_of line1)) (take 18 (text_of line2))) st w Hb)
    as (r & st1 & w1 & Hrun & Hle).
  rewrite Hrun.
  destruct (safe_post_outcome _ _ _ _ _ _ _ _ Hrun)
    as (Hc & new & Ht & Hf & Hs & Hl).
  exists (set_counter (_counter st1 + 1) st1), w1, new.
  split; [reflexivity|]. split; [cbn; now rewrite Hc|].
  split; [now rewrite (budget_same st1 w1 _ w1) by reflexivity|].
  split; [exact Ht|]. split; [exact Hf|]. split; assumption.
Qed.

Lemma gamesense_ok_outcome st w :
  outcome st w (snd (fst (gamesense_ok st w))) (snd (gamesense_ok st w)) []
  /\ clock (snd (gamesense_ok st w)) = snd (next (clock w))
  /\ _last_rebind (snd (fst (gamesense_ok st w))) = _last_rebind st.
Proof.
  unfold gamesense_ok.
  pose proof (get_current_base_outcome false st w) as (Hg & Hc & Hl).
  destruct (get_current_base false st w) as [[base st1] w1].
  cbn [fst snd] in *.
  destruct base as [b|]; [|auto].
  destruct (truthy b); [|auto].
  rewrite is_gamesense_alive_eq. cbn [fst snd clock].
  split; [|auto].
  eapply outcome_sent; [eapply outcome_trans; [exact Hg|]|reflexivity].
  calm.
Qed.

Lemma watchdog_settled depth st w :
  (budget st w < depth)%nat -> settled st w (watchdog depth st w).
Proof.
  intros Hb. unfold watchdog. rewrite is_lhm_ready_eq.
  set (w0 := {| clock := clock w; disk := disk w; net := net w;
                lhm := snd (next (lhm w)); trace := trace w |}).
  set (w1 := if negb (fst (next (lhm w))) then log LhmNotReady w0 else w0).
  assert (H1 : outcome st w st w1 [] /\ clock w1 = clock w).
  { unfold w1. destruct (negb (fst (next (lhm w)))); split; try reflexivity; calm. }
  destruct H1 as (H1 & C1).
  destruct AUTO_REBIND_ON_FAIL.
  2:{ eapply settled_outcome; [exact H1|].
      rewrite (budget_same st w st w1) by (assumption || reflexivity).
      apply Nat.le_refl. }
  pose proof (gamesense_ok_outcome st w1) as (H2 & C2 & L2).
  destruct (gamesense_ok st w1) as [[ok st2] w2]. cbn [fst snd] in *.
  assert (B2 : (budget st2 w2 <= budget st w)%nat).
  { pose proof (budget_next st w1 st2 w2 C2 L2) as B.
    now rewrite (budget_same st w st w1) in B by (assumption || reflexivity). }
  destruct (negb ok).
  - pose proof (get_current_base_outcome true st2 (log GameSenseNotOkRebind w2))
      as (H3 & C3 & L3).
    destruct (get_current_base true st2 _) as [[b3 st3] w3]. cbn [fst snd] in *.
    pose proof (budget_next _ _ _ _ C3 L3) as B3.
    rewrite (budget_same st2 w2 st2 (log GameSenseNotOkRebind w2)) in B3
      by reflexivity.
    destruct (try_rebind_returns depth st3 w3 ltac:(lia)) as (st4 & w4 & Hr & B4).
    rewrite Hr. apply try_rebind_outcome in Hr.
    pose proof (log_outcome st2 w2 GameSenseNotOkRebind eq_refl) as Hlog.
    eapply settled_outcome; [|lia].
    exact (outcome_trans _ _ _ _ _ _ _ _ H1
             (outcome_trans _ _ _ _ _ _ _ _ H2
                (outcome_trans _ _ _ _ _ _ _ _ Hlog
                   (outcome_trans _ _ _ _ _ _ _ _ H3 Hr)))).
  - eapply settled_outcome; [|exact B2].
    exact (outcome_trans _ _ _ _ _ _ _ _ H1 H2).
Qed.

Lemma run_job_settled depth j st w :
  (budget st w < depth)%nat -> settled st w (run_job depth j st w).
Proof.
  intros Hb. destruct j; cbn [run_job].
  - now apply safe_post_settled.
  - now apply bind_all_settled.
  - destruct (send_screen_spec depth event_name line1 line2 st w Hb)
      as (st' & w' & new & Hrun & _ & Hle & Ht & _ & Hp).
    exists st', w', new. auto.
  - now apply safe_post_settled.
  - now apply watchdog_settled.
Qed.

Lemma run_pending_settled depth jobs : forall st w,
  (budget st w < depth)%nat -> settled st w (run_pending depth jobs st w).
Proof.
  induction jobs as [|j rest IH]; intros st w Hb; cbn [run_pending].
  - exists st, w, []. rewrite app_nil_r. repeat split; auto.
  - unfold and_then.
    destruct (run_job_settled depth j st w Hb)
      as (s1 & w1 & n1 & -> & L1 & T1 & P1).
    destruct (IH s1 w1 ltac:(lia)) as (s2 & w2 & n2 & -> & L2 & T2 & P2).
    exists s2, w2, (n1 ++ n2)%list.
    split; [reflexivity|]. split; [lia|].
    split; [now rewrite T2, T1, app_assoc|].
    eapply paced_app; eassumption.
Qed.

(** ** The sequence counter *)

(** C5. Every call of [send_screen] comes back with [_counter] one more
    than it was, whatever the replies of the peer are: a status below or
    above 400, a transport failure with or without a rebind, or no base
    at all.  The frame posted carries the counter as it was before the
    call; without a base no frame is posted and the counter still
    advances. *)
Theorem send_screen_counts depth event_name line1 line2 st w :
  (budget st w < depth)%nat ->
  exists st' w' new,
    send_screen depth event_name line1 line2 st w = Some (tt, st', w')
    /\ _counter st' = (_counter st + 1)%Z
    /\ trace w' = (trace w ++ new)%list
    /\ frames new
       = (if truthy_base (fst (fst (get_current_base false st w)))
          then [game_event GAME event_name (_counter st)
                  (take 18 (text_of line1)) (take 18 (text_of line2))]
          else []).
Proof.
  intros Hb.
  destruct (send_screen_spec depth event_name line1 line2 st w Hb)
    as (st' & w' & new & Hrun & Hc & _ & Ht & Hf & _).
  exists st', w', new. auto.
Qed.

Lemma send_screen_counts_witness :
  (budget initial quiet < 2)%nat
  /\ exists st' w' new,
       send_screen 2 CPU_EVENT (Some "LHM OLED") (Some "starting...")
         initial quiet = Some (tt, st', w')
       /\ _counter st' = (_counter initial + 1)%Z
       /\ trace w' = (trace quiet ++ new)%list
       /\ frames new
          = (if truthy_base (fst (fst (get_current_base false initial quiet)))
             then [game_event GAME CPU_EVENT (_counter initial)
                     (take 18 (text_of (Some "LHM OLED")))
                     (take 18 (text_of (Some "starting...")))]
             else []).
Proof.
  assert (H : (budget initial quiet < 2)%nat) by (vm_compute; lia).
  split; [exact H|].
  exact (send_screen_counts 2 CPU_EVENT (Some "LHM OLED") (Some "starting...")
           initial quiet H).
Defined.

Example send_screen_without_base :
  exists w',
    send_screen 1 CPU_EVENT (Some "LHM OLED") (Some "starting...") initial quiet
    = Some (tt, set_counter 1 initial, w')
    /\ trace w' = [Scanned].
Proof. eexists. split; [vm_compute; reflexivity|reflexivity]. Qed.

Example send_screen_failed_post :
  exists st' w',
    send_screen 2 CPU_EVENT (Some "LHM OLED") (Some "starting...")
      st_bound w_down_still = Some (tt, st', w')
    /\ _counter st' = 8%Z
    /\ frames (trace w') = [game_event GAME CPU_EVENT 7 "LHM OLED" "starting..."]
    /\ send_rebinds (trace w') = [100].
Proof.
  do 2 eexists. split; [vm_compute; reflexivity|].
  repeat split; vm_compute; reflexivity.
Qed.

(** ** Cropping *)

Lemma take_length n : forall s,
  String.length (take n s) = Nat.min n (String.length s).
Proof.
  induction n as [|n IH]; intros s; [reflexivity|].
  destruct s as [|c s]; [reflexivity|]. simpl. now rewrite IH.
Qed.

Lemma take_prefix n : forall s, exists rest, s = take n s ++ rest.
Proof.
  induction n as [|n IH]; intros s; [now exists s|].
  destruct s as [|c s]; [now exists EmptyString|].
  destruct (IH s) as (rest & Hr). exists rest. simpl. now rewrite <- Hr.
Qed.

Lemma take_short n : forall s, (String.length s <= n)%nat -> take n s = s.
Proof.
  induction n as [|n IH]; intros s H.
  - destruct s; [reflexivity|simpl in H; lia].
  - destruct s as [|c s]; [reflexivity|]. simpl in *. rewrite IH; [reflexivity|lia].
Qed.

Lemma frames_in url p reply new :
  In (Posted url p reply) new -> frames_of p = [p] -> In p (frames new).
Proof.
  intros Hin Hp. induction new as [|e new IH]; [contradiction|].
  change (e :: new) with ([e] ++ new)%list. rewrite frames_app.
  apply in_or_app. destruct Hin as [-> | Hin]; [left|right; auto].
  rewrite frames_posted, Hp. now left.
Qed.

Lemma in_frames p new :
  In p (frames new) -> exists url reply, In (Posted url p reply) new.
Proof.
  induction new as [|e new IH]; [contradiction|].
  change (e :: new) with ([e] ++ new)%list. rewrite frames_app.
  intros Hin. apply in_app_or in Hin. destruct Hin as [Hin | Hin].
  - destruct e as [|url q reply|t l]; try contradiction.
    rewrite frames_posted in Hin.
    destruct q; try contradiction;
      destruct Hin as [<- | []]; exists url, reply; now left.
  - destruct (IH Hin) as (url & reply & H). exists url, reply. now right.
Qed.

(** C9. The lines of every frame [send_screen] posts are the first 18
    characters of the lines it was given ([None] counting as empty): a
    line of 18 characters or fewer goes out unchanged, a longer one as its
    prefix of length 18, nothing added. *)
Theorem send_screen_crops depth event_name line1 line2 st w :
  (budget st w < depth)%nat ->
  exists st' w' new,
    send_screen depth event_name line1 line2 st w = Some (tt, st', w')
    /\ trace w' = (trace w ++ new)%list
    /\ (forall url g e v a b reply,
          In (Posted url (game_event g e v a b) reply) new ->
          a = take 18 (text_of line1) /\ b = take 18 (text_of line2))
    /\ (truthy_base (fst (fst (get_current_base false st w))) = true ->
        exists url reply,
          In (Posted url
                (game_event GAME event_name (_counter st)
                   (take 18 (text_of line1)) (take 18 (text_of line2)))
                reply) new)
    /\ (forall s,
          String.length (take 18 s) = Nat.min 18 (String.length s)
          /\ (exists rest, s = take 18 s ++ rest)
          /\ ((String.length s <= 18)%nat -> take 18 s = s)).
Proof.
  intros Hb.
  destruct (send_screen_spec depth event_name line1 line2 st w Hb)
    as (st' & w' & new & Hrun & _ & _ & Ht & Hf & _).
  exists st', w', new. split; [exact Hrun|]. split; [exact Ht|].
  split; [|split].
  - intros url g e v a b reply Hin.
    apply frames_in in Hin; [|reflexivity]. rewrite Hf in Hin.
    destruct (truthy_base _); [|contradiction].
    destruct Hin as [Heq | []]. injection Heq as _ _ _ <- <-. now split.
  - intros Hbase. rewrite Hbase in Hf. apply in_frames. rewrite Hf. now left.
  - intros s. split; [apply take_length|].
    split; [apply take_prefix|apply take_short].
Qed.

Lemma send_screen_crops_witness :
  (budget st_bound w_down_still < 2)%nat
  /\ exists st' w' new,
       send_screen 2 CPU_EVENT (Some "0123456789012345678901234") None
         st_bound w_down_still = Some (tt, st', w')
       /\ trace w' = (trace w_down_still ++ new)%list
       /\ (forall url g e v a b reply,
             In (Posted url (game_event g e v a b) reply) new ->
             a = "012345678901234567" /\ b = EmptyString).
Proof.
  assert (H : (budget st_bound w_down_still < 2)%nat) by (vm_compute; lia).
  split; [exact H|].
  destruct (send_screen_crops 2 CPU_EVENT (Some "0123456789012345678901234")
              None st_bound w_down_still H)
    as (st' & w' & new & Hrun & Ht & Hall & _).
  exists st', w', new. split; [exact Hrun|]. split; [exact Ht|exact Hall].
Defined.

Example crop_25_characters :
  take 18 "0123456789012345678901234" = "012345678901234567".
Proof. reflexivity. Qed.

(** ** The rebind cooldown *)

(** C1, as the code has it.  In every run of the scheduler's jobs
    (registration, sends, heartbeats and watchdog ticks alike) the rebinds
    that [safe_post] starts after a failed send keep the cooldown: each one
    starts at a clock reading more than [REBIND_COOLDOWN_SECONDS] after the
    reading of the one before it, the first one more than that after the
    [_last_rebind] the run began with, however many sends fail in between;
    [_last_rebind] ends on the reading of the latest one.  (The rebind of
    [watchdog] is not among them.) *)
Theorem send_rebinds_keep_cooldown depth jobs st w :
  (budget st w < depth)%nat ->
  exists st' w' new,
    run_pending depth jobs st w = Some (tt, st', w')
    /\ trace w' = (trace w ++ new)%list
    /\ spaced (_last_rebind st) (send_rebinds new)
    /\ _last_rebind st' = List.last (send_rebinds new) (_last_rebind st)
    /\ (forall t, In t (send_rebinds new) ->
                  (REBIND_COOLDOWN_SECONDS < t - _last_rebind st)%Q).
Proof.
  intros Hb.
  destruct (run_pending_settled depth jobs st w Hb)
    as (st' & w' & new & Hrun & _ & Ht & Hs & Hl).
  exists st', w', new. repeat split; try assumption.
  intros t Hin. exact (spaced_later _ _ _ Hs Hin).
Qed.

Lemma send_rebinds_keep_cooldown_witness :
  (budget st_bound w_down_still < 2)%nat
  /\ exists st' w' new,
       run_pending 2 first_ticks st_bound w_down_still = Some (tt, st', w')
       /\ trace w' = (trace w_down_still ++ new)%list
       /\ spaced (_last_rebind st_bound) (send_rebinds new)
       /\ _last_rebind st' = List.last (send_rebinds new) (_last_rebind st_bound).
Proof.
  assert (H : (budget st_bound w_down_still < 2)%nat) by (vm_compute; lia).
  split; [exact H|].
  destruct (send_rebinds_keep_cooldown 2 first_ticks st_bound w_down_still H)
    as (st' & w' & new & Hrun & Ht & Hs & Hl & _).
  exists st', w', new. auto.
Defined.

(** Three sends and a heartbeat fail within the window: one rebind. *)
Example failed_sends_one_rebind :
  exists st' w',
    run_pending 2 first_ticks st_bound w_down_still = Some (tt, st', w')
    /\ send_rebinds (trace w') = [100]
    /\ _counter st' = 10%Z.
Proof.
  do 2 eexists. split; [vm_compute; reflexivity|].
  repeat split; vm_compute; reflexivity.
Qed.

(** C1 as stated fails: [watchdog] rebinds on a failed health check without
    looking at the cooldown.  A send fails at 100 s and starts a rebind;
    the watchdog tick at 101 s starts another one. *)
Lemma watchdog_rebinds_within_cooldown :
  exists st' w',
    run_pending 3
      [ SendScreen CPU_EVENT (Some "LHM OLED") (Some "starting..."); Watchdog ]
      st_bound w_down = Some (tt, st', w')
    /\ rebinds (trace w') = [100; 101]
    /\ ~ spaced (_last_rebind st_bound) (rebinds (trace w')).
Proof.
  do 2 eexists. split; [vm_compute; reflexivity|].
  split; [reflexivity|].
  intros (_ & H & _). unfold REBIND_COOLDOWN_SECONDS in H. lra.
Qed.

(** * Further properties of the metric extractor *)

(** ** The numeric scan *)

Lemma space_not_numeric c : isspace c = true -> numeric_char c = false.
Proof.
  destruct c as [[] [] [] [] [] [] [] []]; vm_compute; congruence.
Qed.

Lemma scan_number_lstrip s :
  scan_number EmptyString (lstrip s) = scan_number EmptyString s.
Proof.
  induction s as [|c s IH]; [reflexivity|]. simpl.
  destruct (isspace c) eqn:Hc; [|reflexivity].
  now rewrite (space_not_numeric c Hc).
Qed.

Lemma scan_number_cons num c r :
  scan_number num (String c r)
  = if numeric_char c then scan_number (num ++ String c EmptyString) r
    else if truthy num then num else scan_number num r.
Proof. reflexivity. Qed.

Lemma scan_number_rstrip s : forall num,
  scan_number num (rstrip s) = scan_number num s.
Proof.
  induction s as [|c s IH]; intros num; [reflexivity|].
  simpl rstrip. destruct (rstrip s) as [|c' r'] eqn:Hr.
  - destruct (isspace c) eqn:Hc.
    + rewrite scan_number_cons, (space_not_numeric c Hc).
      destruct (truthy num) eqn:Hn; [reflexivity|]. exact (IH num).
    + rewrite !scan_number_cons. destruct (numeric_char c).
      * apply IH.
      * destruct (truthy num); [reflexivity|]. exact (IH num).
  - rewrite (scan_number_cons num c (String c' r')), (scan_number_cons num c s).
    destruct (numeric_char c).
    + apply IH.
    + destruct (truthy num); [reflexivity|]. apply IH.
Qed.

Lemma scan_number_strip s :
  scan_number EmptyString (strip s) = scan_number EmptyString s.
Proof. unfold strip. now rewrite scan_number_rstrip, scan_number_lstrip. Qed.

Lemma scan_number_skip pre s :
  all_chars non_numeric pre = true ->
  scan_number EmptyString (pre ++ s) = scan_number EmptyString s.
Proof.
  induction pre as [|c pre IH]; [reflexivity|]. simpl. unfold non_numeric at 1.
  intros H. apply andb_true_iff in H. destruct H as [Hc Hpre].
  apply negb_true_iff in Hc. rewrite Hc. now apply IH.
Qed.

Lemma append_assoc (a b c : string) : (a ++ b) ++ c = a ++ (b ++ c).
Proof. induction a as [|x a IH]; simpl; [reflexivity|]. now rewrite IH. Qed.

Lemma append_nil_r (a : string) : a ++ EmptyString = a.
Proof. induction a as [|x a IH]; simpl; [reflexivity|]. now rewrite IH. Qed.

Lemma scan_number_run run : forall num post,
  all_chars numeric_char run = true ->
  scan_number num (run ++ post) = scan_number (num ++ run) post.
Proof.
  induction run as [|c run IH]; intros num post H; simpl.
  - now rewrite append_nil_r.
  - simpl in H. apply andb_true_iff in H. destruct H as [Hc Hrun].
    rewrite Hc, IH by exact Hrun. now rewrite append_assoc.
Qed.

Lemma scan_number_stop num post :
  truthy num = true -> stops post = true -> scan_number num post = num.
Proof.
  intros Hn Hp. destruct post as [|c post]; [reflexivity|].
  simpl in *. unfold non_numeric in Hp. apply negb_true_iff in Hp.
  now rewrite Hp, Hn.
Qed.

Lemma truthy_scan_number s : forall num,
  truthy (scan_number num s)
  = truthy num || negb (all_chars non_numeric s).
Proof.
  induction s as [|c s IH]; intros num; simpl.
  - now rewrite orb_false_r.
  - unfold non_numeric at 1. destruct (numeric_char c); simpl.
    + rewrite IH. destruct num; simpl; [reflexivity|reflexivity].
    + destruct (truthy num) eqn:Hn; [now rewrite Hn|]. now rewrite IH, Hn.
Qed.

(** X. The number read from a value text is its first run of numeric
    characters (digits, dot, minus, comma): whatever non-numeric text comes
    before the run is skipped, and whatever follows the first non-numeric
    character after it is never looked at. *)
Theorem first_numeric_run (pre run post : string) :
  all_chars non_numeric pre = true ->
  all_chars numeric_char run = true ->
  truthy run = true ->
  stops post = true ->
  _to_float_best (PStr (pre ++ run ++ post))
  = (try! x <- float (replace_char "," "." run); Ok (Some x)).
Proof.
  intros Hpre Hrun Hne Hpost. unfold _to_float_best. simpl py_str.
  rewrite scan_number_strip, scan_number_skip by exact Hpre.
  rewrite scan_number_run by exact Hrun. simpl append.
  rewrite scan_number_stop by assumption. now rewrite Hne.
Qed.

Lemma first_numeric_run_witness :
  _to_float_best (PStr ("Load: " ++ "6,3" ++ " % of 100,0"))
  = (try! x <- float (replace_char "," "." "6,3"); Ok (Some x)).
Proof. apply first_numeric_run; reflexivity. Defined.

(** X. A value text gives "no value" exactly when it has no numeric
    character at all; every other text gives a number or raises. *)
Theorem no_value_iff_no_numeric_char (s : string) :
  _to_float_best (PStr s) = Ok None <-> all_chars non_numeric s = true.
Proof.
  unfold _to_float_best. simpl py_str. rewrite scan_number_strip.
  pose proof (truthy_scan_number s EmptyString) as H. simpl in H.
  destruct (truthy (scan_number EmptyString s)) eqn:Ht; simpl.
  - split.
    + destruct (float _); simpl; discriminate.
    + intros Hs. rewrite Hs in H. discriminate H.
  - split; [|reflexivity]. intros _.
    destruct (all_chars non_numeric s); [reflexivity|discriminate H].
Qed.

(** ** Nodes without a label or a value *)

Lemma visit_unlabelled env n : labelled n = false -> visit env n = Ok env.
Proof.
  unfold labelled, visit. intros H. apply negb_false_iff in H. now rewrite H.
Qed.

(** X. A mapping whose "Text" or "Value" is missing or null never changes
    an accumulator and never raises: the traversal gives the same result
    with such nodes removed, and a document with only such nodes gives the
    all-unknown snapshot. *)
Theorem unlabelled_nodes_ignored :
  (forall env nodes,
     visit_all env (List.filter labelled nodes) = visit_all env nodes)
  /\ (forall source data,
        (forall n, In n (walk_json data) -> labelled n = false) ->
        lhm_read_metrics source (Some data) = Ok all_unknown).
Proof.
  assert (Hfilter : forall nodes env,
            visit_all env (List.filter labelled nodes) = visit_all env nodes).
  { induction nodes as [|n rest IH]; intros env; [reflexivity|]. simpl.
    destruct (labelled n) eqn:Hl; simpl.
    - destruct (visit env n); simpl; [apply IH|reflexivity].
    - rewrite (visit_unlabelled env n Hl). simpl. apply IH. }
  split; [intros env nodes; apply Hfilter|].
  intros source data Hall. unfold lhm_read_metrics.
  rewrite <- Hfilter.
  replace (List.filter labelled (walk_json data)) with (@nil pyval).
  - simpl. now destruct (String.eqb (lower source) "core").
  - symmetry. induction (walk_json data) as [|n rest IH]; [reflexivity|].
    simpl. rewrite (Hall n (or_introl eq_refl)). apply IH.
    intros m Hm. apply Hall. now right.
Qed.

(** ** The traversal visits every mapping *)

Lemma pyval_nested_ind (P : pyval -> Prop) :
  P PNone ->
  (forall x shown, P (PNum x shown)) ->
  (forall s, P (PStr s)) ->
  (forall shown items, Forall P items -> P (PList shown items)) ->
  (forall shown members,
     Forall (fun kv => P (snd kv)) members -> P (PDict shown members)) ->
  forall v, P v.
Proof.
  intros HNone HNum HStr HList HDict. fix IH 1.
  intros [|x shown|s|shown items|shown members].
  - exact HNone.
  - apply HNum.
  - apply HStr.
  - apply HList. induction items as [|x r IHr]; constructor;
      [apply IH|exact IHr].
  - apply HDict. induction members as [|[k x] r IHr]; constructor;
      [apply IH|exact IHr].
Qed.

(** X. [walk_json] yields exactly the mappings that occur in the document,
    at whatever depth and under lists or mappings alike; scalars and lists
    are never yielded. *)
Theorem walk_json_visits_every_mapping (d n : pyval) :
  In n (walk_json d) <-> inside n d /\ is_dict n = true.
Proof.
  split.
  - revert n. induction d as [| | |shown items IH|shown members IH]
      using pyval_nested_ind; intros n Hin; try contradiction.
    + simpl in Hin. apply in_flat_map in Hin. destruct Hin as (x & Hx & Hn).
      rewrite Forall_forall in IH. destruct (IH x Hx n Hn) as [Hi Hd].
      split; [|exact Hd]. eapply inside_item; eassumption.
    + simpl in Hin. destruct Hin as [<- | Hin]; [split; [constructor|reflexivity]|].
      apply in_flat_map in Hin. destruct Hin as ([k x] & Hx & Hn).
      rewrite Forall_forall in IH. destruct (IH (k, x) Hx n Hn) as [Hi Hd].
      split; [|exact Hd]. eapply inside_member; eassumption.
  - intros [Hi Hd]. induction Hi as [|shown items x Hx Hi IH|shown members k x Hx Hi IH].
    + destruct n; try discriminate Hd. simpl. now left.
    + simpl. apply in_flat_map. exists x. auto.
    + simpl. right. apply in_flat_map. exists (k, x). auto.
Qed.

(** ** Choice of the GPU readings *)

Lemma py_or_cases a b : py_or a b = a \/ py_or a b = b.
Proof. unfold py_or. destruct a as [x|]; [destruct (PyFloat.truthy x)|]; auto. Qed.

(** X. The GPU load of the snapshot is never a blend: it is the first
    "GPU Core" percent reading or the first "D3D 3D" percent reading.
    [GPU_LOAD_SOURCE], compared case-insensitively with "core", picks the
    preferred one; the snapshot has the other one when the preferred one
    is absent and the preferred one when it is present and not zero.  The
    temperature likewise prefers "GPU Core" over "GPU Hot Spot". *)
Theorem gpu_readings_selected source data m :
  lhm_read_metrics source (Some data) = Ok m ->
  let core := first_reading gpu_core_load (walk_json data) in
  let d3d := first_reading d3d_3d (walk_json data) in
  let chosen := if String.eqb (lower source) "core" then core else d3d in
  let other := if String.eqb (lower source) "core" then d3d else core in
  let temp := first_reading gpu_temp (walk_json data) in
  let hot := first_reading gpu_hotspot (walk_json data) in
  (M.gpu_load m = chosen \/ M.gpu_load m = other)
  /\ (chosen = None -> M.gpu_load m = other)
  /\ (forall v, chosen = Some v -> PyFloat.truthy v = true ->
                M.gpu_load m = Some v)
  /\ (M.gpu_temp m = temp \/ M.gpu_temp m = hot)
  /\ (temp = None -> M.gpu_temp m = hot)
  /\ (forall v, temp = Some v -> PyFloat.truthy v = true ->
                M.gpu_temp m = Some v).
Proof.
  intros H. destruct (lhm_read_metrics_env _ _ _ H) as (env & Hrun & ->).
  cbn [M.gpu_load M.gpu_temp].
  rewrite !(visit_all_first _ _ _ _ Hrun). cbn [unset].
  set (core := first_reading gpu_core_load (walk_json data)).
  set (d3d := first_reading d3d_3d (walk_json data)).
  set (temp := first_reading gpu_temp (walk_json data)).
  set (hot := first_reading gpu_hotspot (walk_json data)).
  cbv zeta.
  assert (Hor : forall a b : option pyfloat,
            (py_or a b = a \/ py_or a b = b)
            /\ (a = None -> py_or a b = b)
            /\ (forall v, a = Some v -> PyFloat.truthy v = true ->
                          py_or a b = Some v)).
  { intros a b. split; [apply py_or_cases|]. split.
    - now intros ->.
    - intros v -> Hv. unfold py_or. now rewrite Hv. }
  destruct (Hor temp hot) as (T1 & T2 & T3).
  destruct (String.eqb (lower source) "core").
  - destruct (Hor core d3d) as (L1 & L2 & L3). repeat split; assumption.
  - destruct (Hor d3d core) as (L1 & L2 & L3). repeat split; assumption.
Qed.

Lemma gpu_readings_selected_witness :
  exists m,
    lhm_read_metrics "Core" (Some doc_idle_d3d) = Ok m
    /\ M.gpu_load m = Some (Fin 35).
Proof.
  assert (H : lhm_read_metrics "Core" (Some doc_idle_d3d)
              = Ok {| M.cpu_temp := None; M.cpu_load := None;
                      M.cpu_clock_mhz := None; M.gpu_temp := None;
                      M.gpu_load := Some (Fin 35);
                      M.vram_used_mb := None; M.vram_total_mb := None |})
    by (vm_compute; reflexivity).
  eexists. split; [exact H|].
  destruct (gpu_readings_selected _ _ _ H) as (_ & _ & H3 & _).
  apply H3; reflexivity.
Defined.

(** * Further properties of the progress bar *)

Lemma Qltb_false (a b : Q) : PyFloat.Qltb a b = false <-> (b <= a)%Q.
Proof.
  unfold PyFloat.Qltb. rewrite negb_false_iff. apply Qle_bool_iff.
Qed.








(** * Further properties of the endpoint resolver *)

Lemma first_address_cons d p rest :
  first_address d (p :: rest)
  = match usable d p with
    | Some a => Some ("http://" ++ a)
    | None => first_address d rest
    end.
Proof.
  unfold usable. simpl. destruct (d p) as [| |[a|]]; try reflexivity.
  now destruct (truthy a).
Qed.

(** X. Discovery takes the candidate files in their order and stops at the
    first one that exists, parses and has a non-empty address: the result
    is "http://" followed by that address, and there is no result exactly
    when no candidate is usable.  Missing files, unreadable files and files
    without an address are passed over. *)
Theorem discovery_priority (d : Disk) (paths : list string) :
  (forall b,
     first_address d paths = Some b <->
     exists pre p post a,
       paths = (pre ++ p :: post)%list
       /\ (forall q, In q pre -> usable d q = None)
       /\ usable d p = Some a
       /\ b = "http://" ++ a)
  /\ (first_address d paths = None <->
      forall q, In q paths -> usable d q = None).
Proof.
  induction paths as [|p rest [IHsome IHnone]].
  - split.
    + intros b. split; [discriminate|].
      intros (pre & p & post & a & H & _). now destruct pre.
    + split; [intros _ q []|reflexivity].
  - split.
    + intros b. rewrite first_address_cons. split.
      * destruct (usable d p) as [a|] eqn:Hp.
        -- intros H. injection H as <-.
           exists [], p, rest, a. repeat split; auto. intros q [].
        -- intros H. apply IHsome in H.
           destruct H as (pre & p' & post & a & -> & Hpre & Hp' & ->).
           exists (p :: pre), p', post, a. repeat split; auto.
           intros q [<- | Hq]; auto.
      * intros (pre & p' & post & a & Hsplit & Hpre & Hp' & ->).
        destruct pre as [|q pre]; simpl in Hsplit;
          injection Hsplit as E1 E2; subst.
        -- now rewrite Hp'.
        -- rewrite (Hpre q (or_introl eq_refl)). apply IHsome.
           exists pre, p', post, a. repeat split; auto.
           intros q0 Hq0. apply Hpre. now right.
    + rewrite first_address_cons. split.
      * destruct (usable d p) as [a|] eqn:Hp; [discriminate|].
        intros H q [<- | Hq]; [exact Hp|]. now apply IHnone.
      * intros H. rewrite (H p (or_introl eq_refl)). apply IHnone.
        intros q Hq. apply H. now right.
Qed.

Lemma same_base_refl b : same_base b b = true.
Proof. destruct b as [s|]; [apply String.eqb_refl|reflexivity]. Qed.

Ltac scan_cases :=
  rewrite read_coreprops_address_eq; cbn -[next same_base first_address];
  match goal with
  | |- context [first_address ?d ?ps] =>
      destruct (first_address d ps) as [found|] eqn:Hfound
  end;
  [ match goal with
    | H : first_address _ _ = Some _ |- _ =>
        rewrite (first_address_truthy _ _ _ H), is_gamesense_alive_eq
    end;
    cbn -[next same_base first_address];
    match goal with
    | |- context [alive_reply ?r] => destruct (alive_reply r) eqn:Halive
    end;
    [ match goal with
      | |- context [same_base ?a ?b] => destruct (same_base a b) eqn:Hsame
      end; cbn -[next same_base first_address]
    | cbn -[next same_base first_address] ]
  | cbn -[next same_base first_address] ].

Ltac resolver_cases :=
  unfold get_current_base; rewrite time_time_eq;
  cbn -[next same_base first_address];
  match goal with
  | |- context [if ?c then _ else _] => destruct c eqn:Hhit
  end;
  [ cbn -[next same_base first_address] | scan_cases ].

Ltac forced_cases :=
  unfold get_current_base; rewrite time_time_eq;
  cbn -[next same_base first_address]; scan_cases.

Lemma first_address_shape d ps b :
  first_address d ps = Some b ->
  exists a, truthy a = true /\ b = "http://" ++ a.
Proof.
  induction ps as [|p ps IH]; [discriminate|].
  rewrite first_address_cons. unfold usable.
  destruct (d p) as [| |[a|]]; try exact IH.
  destruct (truthy a) eqn:Ha; [|exact IH].
  intros H. injection H as <-. now exists a.
Qed.

Lemma get_current_base_keeps force st w :
  let r := fst (fst (get_current_base force st w)) in
  let st' := snd (fst (get_current_base force st w)) in
  r = _current_base st'
  /\ (truthy_base (_current_base st) = true ->
      truthy_base (_current_base st') = true)
  /\ (_current_base st' = _current_base st
      \/ exists a, truthy a = true
                   /\ _current_base st' = Some ("http://" ++ a))
  /\ _last_rebind st' = _last_rebind st
  /\ _counter st' = _counter st.
Proof.
  cbv zeta. resolver_cases; repeat split; auto;
    try (intros _; exact (first_address_truthy _ _ _ Hfound));
    right; destruct (first_address_shape _ _ _ Hfound) as (a & Ha & ->);
    now exists a.
Qed.

(** X. What a resolution returns is what it leaves cached.  A cached base
    is never cleared: a call either keeps it or replaces it by a freshly
    validated "http://" address.  The sequence counter and the cooldown
    timestamp are not touched. *)
Theorem resolution_returns_cached_base force st w :
  let r := fst (fst (get_current_base force st w)) in
  let st' := snd (fst (get_current_base force st w)) in
  r = _current_base st'
  /\ (truthy_base (_current_base st) = true ->
      truthy_base (_current_base st') = true)
  /\ (_current_base st' = _current_base st
      \/ exists a, truthy a = true
                   /\ _current_base st' = Some ("http://" ++ a))
  /\ _last_rebind st' = _last_rebind st
  /\ _counter st' = _counter st.
Proof. exact (get_current_base_keeps force st w). Qed.

(** X. When a forced resolution finds no usable candidate file, or finds an
    address that does not answer the probe with 200 or 204, it returns the
    base cached before (none if there was none) and leaves it cached, and
    it still records the time of the scan; with no usable file it does not
    probe at all. *)
Theorem failed_resolution_keeps_base st w :
  first_address (fst (next (disk w))) COREPROPS_PATHS = None
  \/ alive_reply (fst (next (net w))) = false ->
  let r := fst (fst (get_current_base true st w)) in
  let st' := snd (fst (get_current_base true st w)) in
  let w' := snd (get_current_base true st w) in
  r = _current_base st
  /\ _current_base st' = _current_base st
  /\ _last_base_read st' = fst (next (clock w))
  /\ (first_address (fst (next (disk w))) COREPROPS_PATHS = None ->
      trace w' = (trace w ++ [Scanned])%list /\ net w' = net w).
Proof.
  intros Hfail. cbv zeta. forced_cases.
  - destruct Hfail as [Hnone | Hdead]; congruence.
  - destruct Hfail as [Hnone | Hdead]; congruence.
  - repeat split; try reflexivity; intros; congruence.
  - repeat split; reflexivity.
Qed.

Lemma failed_resolution_keeps_base_witness :
  fst (fst (get_current_base true st_bound w_down)) = _current_base st_bound
  /\ _last_base_read (snd (fst (get_current_base true st_bound w_down))) = 100.
Proof.
  destruct (failed_resolution_keeps_base st_bound w_down (or_introl eq_refl))
    as (H1 & _ & H3 & _).
  split; [exact H1|exact H3].
Defined.

(** X. The cache only throttles a call that has a base to hand back: with
    nothing cached, or with the last scan 3 s or more behind, an unforced
    call does exactly what a forced one does. *)
Theorem unusable_cache_resolves st w :
  truthy_base (_current_base st) = false
  \/ (3 <= fst (next (clock w)) - _last_base_read st)%Q ->
  get_current_base false st w = get_current_base true st w.
Proof.
  intros H. unfold get_current_base. rewrite time_time_eq.
  cbn -[next same_base first_address].
  replace (truthy_base (_current_base st)
           && PyFloat.Qltb (fst (next (clock w)) - _last_base_read st) 3)
    with false; [reflexivity|].
  destruct H as [-> | H]; [reflexivity|].
  apply Qltb_false in H. rewrite H. now rewrite andb_false_r.
Qed.

Lemma unusable_cache_resolves_witness :
  get_current_base false initial w_moved = get_current_base true initial w_moved.
Proof. apply unusable_cache_resolves. left. reflexivity. Defined.

(** X. A change of base is announced once and only then: a resolution logs
    "GameSense base changed" for the base it adopts exactly when that base
    differs from the one cached before, and logs nothing when it keeps the
    cached base or re-validates the same address. *)
Theorem base_change_logged force st w :
  let st' := snd (fst (get_current_base force st w)) in
  let w' := snd (get_current_base force st w) in
  exists new,
    trace w' = (trace w ++ new)%list
    /\ base_changes new
       = match _current_base st' with
         | Some b =>
             if same_base (Some b) (_current_base st) then [] else [b]
         | None => []
         end.
Proof.
  cbv zeta. resolver_cases.
  - exists []. rewrite app_nil_r. split; [reflexivity|].
    destruct (_current_base st) as [b|]; [|reflexivity].
    now rewrite (same_base_refl (Some b)).
  - rewrite Hsame. cbn [negb]. eexists. split.
    + cbn [trace]. rewrite <- app_assoc. reflexivity.
    + reflexivity.
  - rewrite Hsame. cbn [negb]. eexists. split.
    + unfold log, emit. cbn [trace]. rewrite <- !app_assoc. reflexivity.
    + reflexivity.
  - eexists. split.
    + cbn [trace]. rewrite <- app_assoc. reflexivity.
    + cbn [_current_base set_last_base_read].
      destruct (_current_base st) as [b|]; [|reflexivity].
      now rewrite (same_base_refl (Some b)).
  - eexists. split; [reflexivity|].
    cbn [_current_base set_last_base_read].
    destruct (_current_base st) as [b|]; [|reflexivity].
    now rewrite (same_base_refl (Some b)).
Qed.

(** * Further properties of the publisher *)




(** X. The two paths on which [safe_post] does nothing further, at every
    depth above zero: without a base it stops after the resolution and
    posts nothing; with a base and a status below 400 it posts once, to the
    base followed by the path, and neither reads the clock again nor
    rebinds. *)
Theorem safe_post_quiet_paths d path payload st w :
  (truthy_base (resolved st w) = false ->
   safe_post (S d) path payload st w
   = Some (None, fst (after_resolution st w), snd (after_resolution st w)))
  /\ (forall b code,
        resolved st w = Some b -> truthy b = true ->
        fst (next (net (snd (after_resolution st w)))) = Status code ->
        (code < 400)%Z ->
        safe_post (S d) path payload st w
        = Some (Some code, fst (after_resolution st w),
                snd (requests_post (b ++ path) payload
                       (snd (after_resolution st w))))).
Proof.
  unfold resolved, after_resolution. cbn [safe_post fst snd].
  destruct (get_current_base false st w) as [[base st1] w1]. cbn [fst snd].
  split.
  - now intros ->.
  - intros b code -> Hb Hreply Hok. cbn [truthy_base]. rewrite Hb. cbn [negb].
    rewrite requests_post_eq. cbn -[next]. rewrite Hreply.
    apply Z.leb_gt in Hok. rewrite Hok. reflexivity.
Qed.

Lemma forced_resolution_scans st w :
  exists new,
    trace (snd (get_current_base true st w)) = (trace w ++ Scanned :: new)%list.
Proof.
  forced_cases.
  - eexists. cbn [trace]. rewrite <- app_assoc. reflexivity.
  - eexists. unfold log, emit. cbn [trace]. rewrite <- !app_assoc. reflexivity.
  - eexists. cbn [trace]. rewrite <- app_assoc. reflexivity.
  - eexists. reflexivity.
Qed.

(** X. After a transport failure with the cooldown over, [safe_post] logs
    the failure, scans the candidate files again (a forced resolution) and
    only then goes through the rebind; the caller gets [None]. *)
Theorem transport_failure_rescans depth path payload st w b :
  (budget st w < depth)%nat ->
  resolved st w = Some b -> truthy b = true ->
  fst (next (net (snd (after_resolution st w)))) = Failed ->
  (REBIND_COOLDOWN_SECONDS
   < fst (next (clock (snd (after_resolution st w)))) - _last_rebind st)%Q ->
  exists st' w' rest,
    safe_post depth path payload st w = Some (None, st', w')
    /\ trace w'
       = (trace (snd (after_resolution st w))
          ++ Posted (b ++ path) payload Failed
             :: Logged (fst (next (clock (snd (after_resolution st w)))))
                  (PostExceptionRebind path)
             :: Scanned :: rest)%list.
Proof.
  intros Hb Hres Htb Hreply Hcool.
  destruct (safe_post_returns depth path payload st w Hb)
    as (r & st' & w' & Hrun & _).
  exists st', w'. revert Hrun.
  destruct depth as [|d]; [discriminate|].
  unfold resolved, after_resolution in *. cbn [safe_post fst snd].
  pose proof (get_current_base_outcome false st w) as (_ & _ & Hl).
  destruct (get_current_base false st w) as [[base st1] w1]. cbn [fst snd] in *.
  subst base. cbn [truthy_base]. rewrite Htb. cbn [negb].
  rewrite requests_post_eq. cbn -[next]. rewrite Hreply.
  unfold AUTO_REBIND_ON_FAIL. rewrite time_time_eq. cbn -[next].
  rewrite <- Hl in Hcool. apply Qltb_lt in Hcool. rewrite Hcool.
  set (st2 := set_last_rebind _ st1).
  set (wl := log _ _).
  destruct (forced_resolution_scans st2 wl) as (new & Hscan).
  destruct (get_current_base true st2 wl) as [[b2 s2] w4]. cbn [snd] in Hscan.
  destruct (try_rebind_with (safe_post d) s2 w4) as [[[u s3] w5]|] eqn:Hr;
    [|discriminate].
  intros H. injection H as <- <- <-.
  apply try_rebind_outcome in Hr. destruct Hr as (_ & more & Ht & _).
  exists (new ++ more)%list. split; [reflexivity|].
  rewrite Ht, Hscan. unfold wl, log, emit. cbn [trace clock current].
  rewrite next_current. rewrite <- !app_assoc. reflexivity.
Qed.

Lemma transport_failure_rescans_witness :
  exists st' w' rest,
    safe_post 2 "/game_heartbeat" (game_heartbeat GAME) st_bound w_down_still
    = Some (None, st', w')
    /\ trace w'
       = (trace (snd (after_resolution st_bound w_down_still))
          ++ Posted ("http://127.0.0.1:5000" ++ "/game_heartbeat")
               (game_heartbeat GAME) Failed
             :: Logged
                  (fst (next (clock (snd (after_resolution st_bound
                                            w_down_still)))))
                  (PostExceptionRebind "/game_heartbeat")
             :: Scanned :: rest)%list.
Proof.
  apply (transport_failure_rescans 2 "/game_heartbeat" (game_heartbeat GAME)
           st_bound w_down_still "http://127.0.0.1:5000");
    try reflexivity.
  vm_compute. lia.
Defined.

(** ** The rebind sequence *)

Lemma api_posts_app a b : api_posts (a ++ b) = (api_posts a ++ api_posts b)%list.
Proof.
  induction a as [|e a IH]; [reflexivity|].
  destruct e as [|url p r|t l]; simpl; try exact IH.
  destruct (is_probe p); simpl; now rewrite IH.
Qed.

Lemma rebinds_app a b : rebinds (a ++ b) = (rebinds a ++ rebinds b)%list.
Proof.
  induction a as [|e a IH]; [reflexivity|].
  destruct e as [|url p r|t l]; simpl; try exact IH.
  destruct l; simpl; try exact IH; now rewrite IH.
Qed.

Lemma script_all_next {A : Type} (p : A -> bool) (s : Script A) :
  script_all p s = true ->
  p (fst (next s)) = true /\ script_all p (snd (next s)) = true.
Proof.
  unfold script_all, next. intros H. apply andb_true_iff in H.
  destruct H as [Hc Hl]. destruct (coming s) as [|a rest] eqn:E; cbn [fst snd].
  - split; [exact Hl|]. now rewrite E, Hl.
  - simpl in Hc. apply andb_true_iff in Hc. destruct Hc as [Ha Hrest].
    split; [exact Ha|]. cbn [coming current]. now rewrite Hrest, Ha.
Qed.

(** The events of a resolution: a scan and a probe at most, never a post
    to the API nor the start of a rebind; the replies consumed are those of
    its probe. *)
Lemma get_current_base_events force st w :
  exists new,
    trace (snd (get_current_base force st w)) = (trace w ++ new)%list
    /\ api_posts new = []
    /\ rebinds new = []
    /\ (net (snd (get_current_base force st w)) = net w
        \/ net (snd (get_current_base force st w)) = snd (next (net w))).
Proof.
  resolver_cases.
  - exists []. rewrite app_nil_r. auto.
  - rewrite ?Hsame; cbn [negb]. eexists. split.
    + cbn [trace]. rewrite <- app_assoc. reflexivity.
    + auto.
  - rewrite ?Hsame; cbn [negb]. eexists. split.
    + unfold log, emit. cbn [trace]. rewrite <- !app_assoc. reflexivity.
    + auto.
  - eexists. split.
    + cbn [trace]. rewrite <- app_assoc. reflexivity.
    + auto.
  - eexists. split; [reflexivity|auto].
Qed.

Lemma script_all_resolution {p : Reply -> bool} force st w :
  script_all p (net w) = true ->
  script_all p (net (snd (get_current_base force st w))) = true.
Proof.
  intros H. destruct (get_current_base_events force st w)
    as (_ & _ & _ & _ & [-> | ->]); [exact H|].
  now apply script_all_next.
Qed.

(** With a base cached and a peer that answers every request with a status
    below 400, a post goes out once and nothing else happens. *)
Lemma safe_post_healthy d path payload st w :
  truthy_base (_current_base st) = true ->
  script_all ok_reply (net w) = true ->
  is_probe payload = false ->
  exists code st' w' new,
    safe_post (S d) path payload st w = Some (Some code, st', w')
    /\ truthy_base (_current_base st') = true
    /\ script_all ok_reply (net w') = true
    /\ trace w' = (trace w ++ new)%list
    /\ api_posts new = [payload]
    /\ rebinds new = []
    /\ _last_rebind st' = _last_rebind st.
Proof.
  intros Hbase Hnet Hp. cbn [safe_post].
  pose proof (get_current_base_keeps false st w) as (Hr & Hkeep & _ & Hl & _).
  pose proof (script_all_resolution (p := ok_reply) false st w Hnet) as Hnet1.
  destruct (get_current_base_events false st w) as (n1 & Ht1 & Ha1 & Hb1 & _).
  destruct (get_current_base false st w) as [[base st1] w1]. cbn [fst snd] in *.
  specialize (Hkeep Hbase). rewrite Hr, Hkeep. cbn [negb].
  rewrite requests_post_eq. cbn -[next].
  destruct (script_all_next _ _ Hnet1) as [Hreply Hnet2].
  destruct (fst (next (net w1))) as [code|]; [|discriminate Hreply].
  cbn [ok_reply] in Hreply. apply Z.ltb_lt in Hreply.
  replace (400 <=? code)%Z with false by (symmetry; apply Z.leb_gt; exact Hreply).
  cbn [andb].
  eexists code, st1, _, (n1 ++ [Posted _ payload (Status code)])%list.
  split; [reflexivity|]. split; [exact Hkeep|]. split; [exact Hnet2|].
  split; [cbn [trace]; now rewrite Ht1, app_assoc|].
  split; [rewrite api_posts_app, Ha1; cbn; now rewrite Hp|].
  split; [rewrite rebinds_app, Hb1; reflexivity|exact Hl].
Qed.

(** X. With a base cached and a peer answering every request with a status
    below 400, a rebind posts exactly four bodies, in this order: the game
    metadata, then the screen bindings of the CPU, GPU and RAM pages; it
    starts no further rebind and ends by logging "Rebind done.". *)
Theorem healthy_rebind_sequence d st w :
  truthy_base (_current_base st) = true ->
  script_all ok_reply (net w) = true ->
  exists st' w' new t,
    try_rebind (S d) st w = Some (tt, st', w')
    /\ trace w' = (trace w ++ new ++ [Logged t RebindDone])%list
    /\ api_posts new = rebind_sequence
    /\ rebinds new = []
    /\ _last_rebind st' = _last_rebind st.
Proof.
  intros Hbase Hnet.
  unfold try_rebind, try_rebind_with, bind_all_with, bind_screen_with,
    register_game_with, and_then.
  destruct (safe_post_healthy d "/game_metadata"
              (game_metadata GAME "LHM OLED Monitor" "local" 60000)
              st w Hbase Hnet eq_refl)
    as (c1 & s1 & w1 & n1 & -> & B1 & N1 & T1 & A1 & R1 & L1).
  destruct (safe_post_healthy d "/bind_game_event"
              (bind_game_event GAME CPU_EVENT 1 [screen_handler])
              s1 w1 B1 N1 eq_refl)
    as (c2 & s2 & w2 & n2 & -> & B2 & N2 & T2 & A2 & R2 & L2).
  destruct (safe_post_healthy d "/bind_game_event"
              (bind_game_event GAME GPU_EVENT 1 [screen_handler])
              s2 w2 B2 N2 eq_refl)
    as (c3 & s3 & w3 & n3 & -> & B3 & N3 & T3 & A3 & R3 & L3).
  destruct (safe_post_healthy d "/bind_game_event"
              (bind_game_event GAME RAM_EVENT 1 [screen_handler])
              s3 w3 B3 N3 eq_refl)
    as (c4 & s4 & w4 & n4 & -> & B4 & N4 & T4 & A4 & R4 & L4).
  exists s4, (log RebindDone w4), (n1 ++ n2 ++ n3 ++ n4)%list,
    (current (clock w4)).
  split; [reflexivity|].
  split; [unfold log, emit; cbn [trace];
          rewrite T4, T3, T2, T1, <- !app_assoc; reflexivity|].
  split; [rewrite !api_posts_app, A1, A2, A3, A4; reflexivity|].
  split; [rewrite !rebinds_app, R1, R2, R3, R4; reflexivity|].
  congruence.
Qed.

Lemma healthy_rebind_sequence_witness :
  exists st' w' new t,
    try_rebind 1 st_bound (with_outside (disk w_moved) (net w_moved) quiet)
    = Some (tt, st', w')
    /\ trace w'
       = (trace (with_outside (disk w_moved) (net w_moved) quiet)
          ++ new ++ [Logged t RebindDone])%list
    /\ api_posts new = rebind_sequence.
Proof.
  destruct (healthy_rebind_sequence 0 st_bound
              (with_outside (disk w_moved) (net w_moved) quiet)
              eq_refl eq_refl)
    as (st' & w' & new & t & H1 & H2 & H3 & _).
  exists st', w', new, t. auto.
Defined.



(** ** Whole runs: the clock readings behind the log *)

Lemma stamps_app a b : stamps (a ++ b) = (stamps a ++ stamps b)%list.
Proof.
  induction a as [|e a IH]; [reflexivity|].
  destruct e as [|url p r|t l]; simpl; try exact IH. now rewrite IH.
Qed.

Lemma next_readings (s : Script Q) :
  incl (current (snd (next s)) :: coming (snd (next s))) (current s :: coming s).
Proof.
  unfold next. destruct (coming s) as [|a rest] eqn:E; cbn [snd current coming].
  - rewrite E. apply incl_refl.
  - intros x [<- | Hx]; right; [now left|now right].
Qed.

Lemma heard_refl st w : heard st w st w.
Proof.
  split; [apply incl_refl|]. split; [auto|].
  exists []. rewrite app_nil_r. split; [reflexivity|intros x []].
Qed.

Lemma heard_trans st w st1 w1 st2 w2 :
  heard st w st1 w1 -> heard st1 w1 st2 w2 -> heard st w st2 w2.
Proof.
  intros (R1 & B1 & n1 & T1 & S1) (R2 & B2 & n2 & T2 & S2).
  split; [eapply incl_tran; eassumption|]. split; [auto|].
  exists (n1 ++ n2)%list. split; [now rewrite T2, T1, app_assoc|].
  rewrite stamps_app. apply incl_app; [exact S1|].
  eapply incl_tran; eassumption.
Qed.

(** A step that keeps the clock and the base and logs nothing. *)
Lemma heard_silent st w st' w' new :
  clock w' = clock w -> _current_base st' = _current_base st ->
  trace w' = (trace w ++ new)%list -> stamps new = [] ->
  heard st w st' w'.
Proof.
  intros Hc Hb Ht Hs. unfold heard, readings. rewrite Hc, Hb.
  split; [apply incl_refl|]. split; [auto|].
  exists new. split; [exact Ht|]. rewrite Hs. intros x [].
Qed.

Lemma heard_log st w st' line :
  _current_base st' = _current_base st -> heard st w st' (log line w).
Proof.
  intros Hb. unfold heard, readings. cbn [log emit clock]. rewrite Hb.
  split; [apply incl_refl|]. split; [auto|].
  exists [Logged (current (clock w)) line]. split; [reflexivity|].
  intros x [<- | []]. now left.
Qed.

Lemma heard_time st w : heard st w st (snd (time_time w)).
Proof.
  rewrite time_time_eq. cbn [snd]. unfold heard, readings. cbn [clock trace].
  split; [apply next_readings|]. split; [auto|].
  exists []. rewrite app_nil_r. split; [reflexivity|intros x []].
Qed.

Lemma heard_post st w url payload :
  heard st w st (snd (requests_post url payload w)).
Proof.
  rewrite requests_post_eq. cbn [snd].
  eapply heard_silent; [reflexivity|reflexivity|reflexivity|reflexivity].
Qed.

Lemma heard_resolution force st w :
  heard st w (snd (fst (get_current_base force st w)))
    (snd (get_current_base force st w)).
Proof.
  pose proof (get_current_base_keeps force st w) as (_ & Hkeep & _).
  pose proof (get_current_base_outcome force st w) as (_ & Hc & _).
  cbv zeta in Hkeep.
  split; [unfold readings; rewrite Hc; apply next_readings|].
  split; [exact Hkeep|]. clear Hkeep Hc.
  assert (Hin : In (current (snd (next (clock w)))) (readings w))
    by (apply next_readings; now left).
  resolver_cases.
  - exists []. rewrite app_nil_r. split; [reflexivity|intros x []].
  - rewrite ?Hsame; cbn [negb]. eexists. split.
    + cbn [trace]. rewrite <- app_assoc. reflexivity.
    + intros x [].
  - rewrite ?Hsame; cbn [negb]. eexists. split.
    + unfold log, emit. cbn [trace]. rewrite <- !app_assoc. reflexivity.
    + cbn [clock current]. intros x [<- | []]. exact Hin.
  - eexists. split.
    + cbn [trace]. rewrite <- app_assoc. reflexivity.
    + intros x [].
  - eexists. split; [reflexivity|intros x []].
Qed.

Section RebindHeard.

Variable post : string -> Payload -> Run (option Z).

Hypothesis post_heard : forall path payload st w r st' w',
  post path payload st w = Some (r, st', w') -> heard st w st' w'.

Lemma try_rebind_with_heard st w u st' w' :
  try_rebind_with post st w = Some (u, st', w') -> heard st w st' w'.
Proof.
  unfold try_rebind_with, bind_all_with, bind_screen_with,
    register_game_with, and_then.
  intros H.
  destruct (post "/game_metadata" _ st w) as [[[r1 s1] w1]|] eqn:H1;
    [|discriminate].
  destruct (post "/bind_game_event" _ s1 w1) as [[[r2 s2] w2]|] eqn:H2;
    [|discriminate].
  destruct (post "/bind_game_event" _ s2 w2) as [[[r3 s3] w3]|] eqn:H3;
    [|discriminate].
  destruct (post "/bind_game_event" _ s3 w3) as [[[r4 s4] w4]|] eqn:H4;
    [|discriminate].
  injection H as _ <- <-.
  apply post_heard in H1, H2, H3, H4.
  pose proof (heard_log s4 w4 s4 RebindDone eq_refl) as H5.
  exact (heard_trans _ _ _ _ _ _ H1
           (heard_trans _ _ _ _ _ _ H2
              (heard_trans _ _ _ _ _ _ H3
                 (heard_trans _ _ _ _ _ _ H4 H5)))).
Qed.

End RebindHeard.

Lemma safe_post_heard depth : forall path payload st w r st' w',
  safe_post depth path payload st w = Some (r, st', w') -> heard st w st' w'.
Proof.
  induction depth as [|d IH]; intros path payload st w r st' w' H;
    [discriminate|].
  cbn [safe_post] in H.
  pose proof (heard_resolution false st w) as Hg.
  destruct (get_current_base false st w) as [[base st1] w1].
  cbn [fst snd] in *.
  destruct (truthy_base base); cbn [negb] in H.
  2:{ injection H as _ <- <-. exact Hg. }
  set (url := ((match base with Some b => b | None => EmptyString end) ++ path)) in H.
  pose proof (heard_post st1 w1 url payload) as Hp.
  destruct (requests_post url payload w1) as [reply w2]. cbn [snd] in Hp.
  pose proof (heard_trans _ _ _ _ _ _ Hg Hp) as Hsent.
  pose proof (heard_time st1 w2) as Ht.
  destruct (time_time w2) as [now w3]. cbn [snd] in Ht.
  pose proof (heard_trans _ _ _ _ _ _ Hsent Ht) as Hread.
  assert (Hrebind : forall st2 w4 u st3 w5,
            try_rebind_with (safe_post d) st2 w4 = Some (u, st3, w5) ->
            heard st2 w4 st3 w5)
    by (intros st2 w4 u st3 w5; apply try_rebind_with_heard; exact IH).
  destruct reply as [code|].
  - destruct ((400 <=? code)%Z && AUTO_REBIND_ON_FAIL).
    + destruct (PyFloat.Qltb REBIND_COOLDOWN_SECONDS (now - _last_rebind st1)).
      * destruct (try_rebind_with (safe_post d) _ _) as [[[u st3] w4]|] eqn:Hr;
          [|discriminate].
        injection H as _ <- <-. apply Hrebind in Hr.
        pose proof (heard_log st1 w3 (set_last_rebind now st1)
                      (PostFailedRebind path code) eq_refl) as Hm.
        exact (heard_trans _ _ _ _ _ _ Hread (heard_trans _ _ _ _ _ _ Hm Hr)).
      * injection H as _ <- <-. exact Hread.
    + injection H as _ <- <-. exact Hsent.
  - cbv beta iota delta [AUTO_REBIND_ON_FAIL] in H.
    destruct (PyFloat.Qltb REBIND_COOLDOWN_SECONDS (now - _last_rebind st1)).
    + pose proof (heard_log st1 w3 (set_last_rebind now st1)
                    (PostExceptionRebind path) eq_refl) as Hm.
      pose proof (heard_resolution true (set_last_rebind now st1)
                    (log (PostExceptionRebind path) w3)) as Hf.
      destruct (get_current_base true _ _) as [[b2 st2] w4].
      cbn [fst snd] in Hf.
      destruct (try_rebind_with (safe_post d) _ _) as [[[u st3] w5]|] eqn:Hr;
        [|discriminate].
      injection H as _ <- <-. apply Hrebind in Hr.
      exact (heard_trans _ _ _ _ _ _ Hread
               (heard_trans _ _ _ _ _ _ Hm
                  (heard_trans _ _ _ _ _ _ Hf Hr))).
    + injection H as _ <- <-. exact Hread.
Qed.

Lemma try_rebind_heard depth st w u st' w' :
  try_rebind depth st w = Some (u, st', w') -> heard st w st' w'.
Proof. apply try_rebind_with_heard. apply safe_post_heard. Qed.

Lemma gamesense_ok_heard st w :
  heard st w (snd (fst (gamesense_ok st w))) (snd (gamesense_ok st w)).
Proof.
  unfold gamesense_ok.
  pose proof (heard_resolution false st w) as Hg.
  destruct (get_current_base false st w) as [[base st1] w1].
  cbn [fst snd] in *.
  destruct base as [b|]; [|exact Hg].
  destruct (truthy b); [|exact Hg].
  rewrite is_gamesense_alive_eq. cbn [fst snd].
  eapply heard_trans; [exact Hg|].
  eapply heard_silent; reflexivity.
Qed.

Lemma run_job_heard depth j st w u st' w' :
  run_job depth j st w = Some (u, st', w') -> heard st w st' w'.
Proof.
  destruct j; cbn [run_job]; unfold and_then.
  - unfold register_game, register_game_with.
    destruct (safe_post depth _ _ st w) as [[[r s1] w1]|] eqn:H1; [|discriminate].
    intros H. injection H as _ <- <-. exact (safe_post_heard _ _ _ _ _ _ _ _ H1).
  - unfold bind_all, bind_all_with, bind_screen_with, and_then.
    destruct (safe_post depth _ _ st w) as [[[r1 s1] w1]|] eqn:H1; [|discriminate].
    destruct (safe_post depth _ _ s1 w1) as [[[r2 s2] w2]|] eqn:H2; [|discriminate].
    destruct (safe_post depth _ _ s2 w2) as [[[r3 s3] w3]|] eqn:H3; [|discriminate].
    intros H. injection H as _ <- <-.
    apply safe_post_heard in H1, H2, H3.
    exact (heard_trans _ _ _ _ _ _ H1 (heard_trans _ _ _ _ _ _ H2 H3)).
  - unfold send_screen.
    destruct (safe_post depth _ _ st w) as [[[r s1] w1]|] eqn:H1; [|discriminate].
    intros H. injection H as _ <- <-. apply safe_post_heard in H1.
    destruct H1 as (R & B & n & T & S).
    split; [exact R|]. split; [exact B|]. exists n. auto.
  - unfold heartbeat.
    destruct (safe_post depth _ _ st w) as [[[r s1] w1]|] eqn:H1; [|discriminate].
    intros H. injection H as _ <- <-. exact (safe_post_heard _ _ _ _ _ _ _ _ H1).
  - unfold watchdog. rewrite is_lhm_ready_eq.
    set (w0 := {| clock := clock w; disk := disk w; net := net w;
                  lhm := snd (next (lhm w)); trace := trace w |}).
    set (w1 := if negb (fst (next (lhm w))) then log LhmNotReady w0 else w0).
    assert (H1 : heard st w st w1).
    { unfold w1. destruct (negb (fst (next (lhm w)))).
      - eapply heard_trans; [|apply heard_log; reflexivity].
        eapply heard_silent with (new := []); try reflexivity.
        cbn. now rewrite app_nil_r.
      - eapply heard_silent with (new := []); try reflexivity.
        cbn. now rewrite app_nil_r. }
    cbv beta iota delta [AUTO_REBIND_ON_FAIL].
    pose proof (gamesense_ok_heard st w1) as H2.
    destruct (gamesense_ok st w1) as [[ok st2] w2]. cbn [fst snd] in H2.
    destruct (negb ok).
    + pose proof (heard_log st2 w2 st2 GameSenseNotOkRebind eq_refl) as Hlog.
      pose proof (heard_resolution true st2 (log GameSenseNotOkRebind w2)) as H3.
      destruct (get_current_base true st2 _) as [[b3 st3] w3]. cbn [fst snd] in H3.
      intros Hr. apply try_rebind_heard in Hr.
      exact (heard_trans _ _ _ _ _ _ H1
               (heard_trans _ _ _ _ _ _ H2
                  (heard_trans _ _ _ _ _ _ Hlog
                     (heard_trans _ _ _ _ _ _ H3 Hr)))).
    + intros H. injection H as _ <- <-.
      exact (heard_trans _ _ _ _ _ _ H1 H2).
Qed.

Lemma run_pending_heard depth jobs : forall st w u st' w',
  run_pending depth jobs st w = Some (u, st', w') -> heard st w st' w'.
Proof.
  induction jobs as [|j rest IH]; intros st w u st' w'; cbn [run_pending].
  - intros H. injection H as _ <- <-. apply heard_refl.
  - unfold and_then.
    destruct (run_job depth j st w) as [[[u1 s1] w1]|] eqn:H1; [|discriminate].
    intros H. apply run_job_heard in H1. apply IH in H.
    exact (heard_trans _ _ _ _ _ _ H1 H).
Qed.

Lemma send_rebinds_stamps new : incl (send_rebinds new) (stamps new).
Proof.
  induction new as [|e new IH]; [intros x []|].
  destruct e as [|url p r|t l]; simpl; try exact IH.
  destruct l; simpl;
    first [ apply incl_tl; exact IH
          | intros x [<- | Hx]; [now left|right; now apply IH] ].
Qed.

(** X. However many sends fail, the cooldown is judged on the clock alone.
    In a run all of whose clock readings are within the cooldown of the
    last rebind, [safe_post] starts no rebind and [_last_rebind] stays; in a
    run whose clock readings all lie within one cooldown of one another it
    starts at most one. *)
Theorem failed_sends_in_window depth jobs st w :
  (budget st w < depth)%nat ->
  exists st' w' new,
    run_pending depth jobs st w = Some (tt, st', w')
    /\ trace w' = (trace w ++ new)%list
    /\ ((forall t, In t (readings w) ->
                   (t - _last_rebind st <= REBIND_COOLDOWN_SECONDS)%Q) ->
        send_rebinds new = [] /\ _last_rebind st' = _last_rebind st)
    /\ ((forall t t', In t (readings w) -> In t' (readings w) ->
                      (t' - t <= REBIND_COOLDOWN_SECONDS)%Q) ->
        (List.length (send_rebinds new) <= 1)%nat).
Proof.
  intros Hb.
  destruct (run_pending_settled depth jobs st w Hb)
    as (st' & w' & new & Hrun & _ & Ht & Hs & Hl).
  exists st', w', new. split; [exact Hrun|]. split; [exact Ht|].
  destruct (run_pending_heard _ _ _ _ _ _ _ Hrun) as (_ & _ & new' & Ht' & Hst).
  rewrite Ht in Ht'. apply app_inv_head in Ht'. subst new'.
  assert (Hin : incl (send_rebinds new) (readings w))
    by (eapply incl_tran; [apply send_rebinds_stamps|exact Hst]).
  split.
  - intros Hwin. destruct (send_rebinds new) as [|t rest] eqn:E.
    + split; [reflexivity|exact Hl].
    + exfalso. destruct Hs as [Hgap _].
      specialize (Hwin t (Hin t (or_introl eq_refl))). lra.
  - intros Hwin. destruct (send_rebinds new) as [|t1 [|t2 rest]] eqn:E;
      [simpl; lia|simpl; lia|].
    exfalso. destruct Hs as (_ & Hgap & _).
    specialize (Hwin t1 t2 (Hin t1 (or_introl eq_refl))
                  (Hin t2 (or_intror (or_introl eq_refl)))).
    lra.
Qed.

Lemma failed_sends_in_window_witness :
  (budget st_bound w_down_still < 2)%nat
  /\ exists st' w' new,
       run_pending 2 first_ticks st_bound w_down_still = Some (tt, st', w')
       /\ trace w' = (trace w_down_still ++ new)%list
       /\ (List.length (send_rebinds new) <= 1)%nat.
Proof.
  assert (H : (budget st_bound w_down_still < 2)%nat) by (vm_compute; lia).
  split; [exact H|].
  destruct (failed_sends_in_window 2 first_ticks st_bound w_down_still H)
    as (st' & w' & new & Hrun & Ht & _ & Hone).
  exists st', w', new. split; [exact Hrun|]. split; [exact Ht|].
  apply Hone. intros t t' [<- | []] [<- | []].
  unfold REBIND_COOLDOWN_SECONDS. cbn. lra.
Defined.

(** X. Once a base has been resolved no job ever loses it: after any run of
    registrations, sends, heartbeats and watchdog ticks, failed or not, a
    base is still cached. *)
Theorem base_never_lost depth jobs st w :
  (budget st w < depth)%nat ->
  truthy_base (_current_base st) = true ->
  exists st' w',
    run_pending depth jobs st w = Some (tt, st', w')
    /\ truthy_base (_current_base st') = true.
Proof.
  intros Hb Hbase.
  destruct (run_pending_settled depth jobs st w Hb)
    as (st' & w' & new & Hrun & _).
  exists st', w'. split; [exact Hrun|].
  destruct (run_pending_heard _ _ _ _ _ _ _ Hrun) as (_ & Hkeep & _). auto.
Qed.

Lemma base_never_lost_witness :
  (budget st_bound w_down < 30)%nat
  /\ exists st' w',
       run_pending 30 (first_ticks ++ [Watchdog]) st_bound w_down
       = Some (tt, st', w')
       /\ truthy_base (_current_base st') = true.
Proof.
  assert (H : (budget st_bound w_down < 30)%nat) by (vm_compute; lia).
  split; [exact H|].
  exact (base_never_lost 30 (first_ticks ++ [Watchdog]) st_bound w_down H eq_refl).
Defined.

(** ** Whole runs: the sequence counter *)

Lemma safe_post_frameless depth path payload st w :
  frames_of payload = [] ->
  (budget st w < depth)%nat ->
  exists r st' w',
    safe_post depth path payload st w = Some (r, st', w')
    /\ (budget st' w' <= budget st w)%nat
    /\ outcome st w st' w' [].
Proof.
  intros Hnil Hb.
  destruct (safe_post_returns depth path payload st w Hb)
    as (r & st' & w' & Hrun & Hle).
  exists r, st', w'. split; [exact Hrun|]. split; [exact Hle|].
  pose proof (safe_post_outcome _ _ _ _ _ _ _ _ Hrun) as H.
  rewrite Hnil in H. now destruct (truthy_base _) in H.
Qed.

Lemma watchdog_frameless depth st w :
  (budget st w < depth)%nat -> frameless st w (watchdog depth st w).
Proof.
  intros Hb. unfold watchdog. rewrite is_lhm_ready_eq.
  set (w0 := {| clock := clock w; disk := disk w; net := net w;
                lhm := snd (next (lhm w)); trace := trace w |}).
  set (w1 := if negb (fst (next (lhm w))) then log LhmNotReady w0 else w0).
  assert (H1 : outcome st w st w1 [] /\ clock w1 = clock w).
  { unfold w1. destruct (negb (fst (next (lhm w)))); split; try reflexivity; calm. }
  destruct H1 as (H1 & C1).
  cbv beta iota delta [AUTO_REBIND_ON_FAIL].
  pose proof (gamesense_ok_outcome st w1) as (H2 & C2 & L2).
  destruct (gamesense_ok st w1) as [[ok st2] w2]. cbn [fst snd] in *.
  assert (B2 : (budget st2 w2 <= budget st w)%nat).
  { pose proof (budget_next st w1 st2 w2 C2 L2) as B.
    now rewrite (budget_same st w st w1) in B by (assumption || reflexivity). }
  destruct (negb ok).
  - pose proof (get_current_base_outcome true st2 (log GameSenseNotOkRebind w2))
      as (H3 & C3 & L3).
    destruct (get_current_base true st2 _) as [[b3 st3] w3]. cbn [fst snd] in *.
    pose proof (budget_next _ _ _ _ C3 L3) as B3.
    rewrite (budget_same st2 w2 st2 (log GameSenseNotOkRebind w2)) in B3
      by reflexivity.
    destruct (try_rebind_returns depth st3 w3 ltac:(lia)) as (st4 & w4 & Hr & B4).
    rewrite Hr. apply try_rebind_outcome in Hr.
    pose proof (log_outcome st2 w2 GameSenseNotOkRebind eq_refl) as Hlog.
    exists st4, w4. split; [reflexivity|]. split; [lia|].
    exact (outcome_trans _ _ _ _ _ _ _ _ H1
             (outcome_trans _ _ _ _ _ _ _ _ H2
                (outcome_trans _ _ _ _ _ _ _ _ Hlog
                   (outcome_trans _ _ _ _ _ _ _ _ H3 Hr)))).
  - exists st2, w2. split; [reflexivity|]. split; [exact B2|].
    exact (outcome_trans _ _ _ _ _ _ _ _ H1 H2).
Qed.

Lemma frame_values_app a b :
  frame_values (a ++ b) = (frame_values a ++ frame_values b)%list.
Proof.
  induction a as [|p a IH]; [reflexivity|].
  destruct p; simpl; try exact IH. now rewrite IH.
Qed.

Lemma ascending_weaken lo lo' vs :
  (lo <= lo')%Z -> ascending lo' vs -> ascending lo vs.
Proof. destruct vs as [|v r]; [auto|]. intros H [H1 H2]. split; [lia|exact H2]. Qed.

Lemma ascending_app a : forall lo mid b,
  ascending lo a -> Forall (fun v => (v < mid)%Z) a -> (lo <= mid)%Z ->
  ascending mid b -> ascending lo (a ++ b).
Proof.
  induction a as [|v a IH]; intros lo mid b Ha Hf Hle Hb.
  - exact (ascending_weaken _ _ _ Hle Hb).
  - destruct Ha as [Hv Ha]. inversion Hf as [|? ? Hvm Hf']; subst.
    split; [exact Hv|]. apply (IH (v + 1)%Z mid); auto. lia.
Qed.

(** What a job does to the counter and which frame values it posts. *)
Lemma run_job_counted depth j st w :
  (budget st w < depth)%nat ->
  exists st' w' new,
    run_job depth j st w = Some (tt, st', w')
    /\ (budget st' w' <= budget st w)%nat
    /\ trace w' = (trace w ++ new)%list
    /\ _counter st' = (_counter st + Z.of_nat (sends [j]))%Z
    /\ ascending (_counter st) (frame_values (frames new))
    /\ Forall (fun v => (v < _counter st')%Z) (frame_values (frames new)).
Proof.
  intros Hb.
  assert (Hquiet : forall res, frameless st w res ->
            exists st' w' new,
              res = Some (tt, st', w')
              /\ (budget st' w' <= budget st w)%nat
              /\ trace w' = (trace w ++ new)%list
              /\ _counter st' = (_counter st + 0)%Z
              /\ ascending (_counter st) (frame_values (frames new))
              /\ Forall (fun v => (v < _counter st')%Z)
                   (frame_values (frames new))).
  { intros res (st' & w' & Hres & Hle & Hc & new & Ht & Hf & _).
    exists st', w', new. rewrite Hf. cbn.
    repeat split; auto. lia. }
  destruct j; cbn [run_job sends Z.of_nat].
  - apply Hquiet. unfold and_then, register_game, register_game_with.
    destruct (safe_post_frameless depth "/game_metadata"
                (game_metadata GAME "LHM OLED Monitor" "local" 60000)
                st w eq_refl Hb) as (r & s1 & w1 & -> & L & O).
    exists s1, w1. auto.
  - apply Hquiet. unfold and_then, bind_all, bind_all_with, bind_screen_with,
      and_then.
    destruct (safe_post_frameless depth "/bind_game_event"
                (bind_game_event GAME CPU_EVENT 1 [screen_handler])
                st w eq_refl Hb) as (r1 & s1 & w1 & -> & L1 & O1).
    destruct (safe_post_frameless depth "/bind_game_event"
                (bind_game_event GAME GPU_EVENT 1 [screen_handler])
                s1 w1 eq_refl ltac:(lia)) as (r2 & s2 & w2 & -> & L2 & O2).
    destruct (safe_post_frameless depth "/bind_game_event"
                (bind_game_event GAME RAM_EVENT 1 [screen_handler])
                s2 w2 eq_refl ltac:(lia)) as (r3 & s3 & w3 & -> & L3 & O3).
    exists s3, w3. split; [reflexivity|]. split; [lia|].
    exact (outcome_trans _ _ _ _ _ _ _ _ O1
             (outcome_trans _ _ _ _ _ _ _ _ O2 O3)).
  - destruct (send_screen_spec depth event_name line1 line2 st w Hb)
      as (st' & w' & new & Hrun & Hc & Hle & Ht & Hf & _).
    exists st', w', new. rewrite Hf, Hc.
    repeat split; auto; destruct (truthy_base _); cbn; auto.
    + split; [lia|exact I].
    + constructor; [lia|constructor].
  - apply Hquiet. unfold and_then, heartbeat.
    destruct (safe_post_frameless depth "/game_heartbeat" (game_heartbeat GAME)
                st w eq_refl Hb) as (r & s1 & w1 & -> & L & O).
    exists s1, w1. auto.
  - apply Hquiet. now apply watchdog_frameless.
Qed.

(** X. Over a whole run the sequence counter goes up by exactly the number
    of [send_screen] calls, whatever their outcome, and nothing else moves
    it; the frames that do go out carry strictly increasing values, from
    the counter at the start up to below the counter at the end. *)
Theorem run_counts_sends depth jobs : forall st w,
  (budget st w < depth)%nat ->
  exists st' w' new,
    run_pending depth jobs st w = Some (tt, st', w')
    /\ trace w' = (trace w ++ new)%list
    /\ _counter st' = (_counter st + Z.of_nat (sends jobs))%Z
    /\ ascending (_counter st) (frame_values (frames new))
    /\ Forall (fun v => (v < _counter st')%Z) (frame_values (frames new)).
Proof.
  assert (Hgen : forall st w,
            (budget st w < depth)%nat ->
            exists st' w' new,
              run_pending depth jobs st w = Some (tt, st', w')
              /\ (budget st' w' <= budget st w)%nat
              /\ trace w' = (trace w ++ new)%list
              /\ _counter st' = (_counter st + Z.of_nat (sends jobs))%Z
              /\ ascending (_counter st) (frame_values (frames new))
              /\ Forall (fun v => (v < _counter st')%Z)
                   (frame_values (frames new))).
  { induction jobs as [|j rest IH]; intros st w Hb; cbn [run_pending].
    - exists st, w, []. rewrite app_nil_r. cbn.
      repeat split; auto. lia.
    - unfold and_then.
      destruct (run_job_counted depth j st w Hb)
        as (s1 & w1 & n1 & -> & L1 & T1 & C1 & A1 & F1).
      destruct (IH s1 w1 ltac:(lia))
        as (s2 & w2 & n2 & -> & L2 & T2 & C2 & A2 & F2).
      exists s2, w2, (n1 ++ n2)%list.
      split; [reflexivity|]. split; [lia|].
      split; [now rewrite T2, T1, app_assoc|].
      assert (Hs : (_counter s1 <= _counter s2)%Z) by lia.
      split; [|split].
      + rewrite C2, C1. change (j :: rest) with ([j] ++ rest)%list.
        replace (sends ([j] ++ rest)) with (sends [j] + sends rest)%nat
          by (destruct j; reflexivity). lia.
      + rewrite frames_app, frame_values_app.
        apply (ascending_app _ _ (_counter s1)); auto. lia.
      + rewrite frames_app, frame_values_app. apply Forall_app. split; [|exact F2].
        eapply Forall_impl; [|exact F1]. cbn. intros v Hv. lia. }
  intros st w Hb.
  destruct (Hgen st w Hb) as (st' & w' & new & H1 & _ & H2 & H3 & H4 & H5).
  exists st', w', new. auto.
Qed.

Lemma run_counts_sends_witness :
  (budget st_bound w_down_still < 2)%nat
  /\ exists st' w' new,
       run_pending 2 first_ticks st_bound w_down_still = Some (tt, st', w')
       /\ trace w' = (trace w_down_still ++ new)%list
       /\ _counter st' = (_counter st_bound + Z.of_nat (sends first_ticks))%Z.
Proof.
  assert (H : (budget st_bound w_down_still < 2)%nat) by (vm_compute; lia).
  split; [exact H|].
  destruct (run_counts_sends 2 first_ticks st_bound w_down_still H)
    as (st' & w' & new & H1 & H2 & H3 & _).
  exists st', w', new. auto.
Defined.

(** ** The watchdog on a healthy endpoint *)

(** X. With a base cached and a peer that answers every probe with 200 or
    204, a watchdog tick finds GameSense in order: it comes back at every
    depth, posts nothing to the API (only liveness probes), starts no
    rebind and leaves the base cached and the cooldown timestamp alone. *)
Theorem healthy_watchdog_is_quiet depth st w :
  truthy_base (_current_base st) = true ->
  script_all alive_reply (net w) = true ->
  exists st' w' new,
    watchdog depth st w = Some (tt, st', w')
    /\ trace w' = (trace w ++ new)%list
    /\ api_posts new = []
    /\ rebinds new = []
    /\ truthy_base (_current_base st') = true
    /\ _last_rebind st' = _last_rebind st.
Proof.
  intros Hbase Hnet. unfold watchdog. rewrite is_lhm_ready_eq.
  set (w0 := {| clock := clock w; disk := disk w; net := net w;
                lhm := snd (next (lhm w)); trace := trace w |}).
  set (w1 := if negb (fst (next (lhm w))) then log LhmNotReady w0 else w0).
  assert (H1 : exists n0, trace w1 = (trace w ++ n0)%list
                          /\ api_posts n0 = [] /\ rebinds n0 = []
                          /\ net w1 = net w).
  { unfold w1. destruct (negb (fst (next (lhm w)))).
    - eexists. split; [reflexivity|auto].
    - exists []. cbn. rewrite app_nil_r. auto. }
  destruct H1 as (n0 & T0 & A0 & R0 & N0).
  cbv beta iota delta [AUTO_REBIND_ON_FAIL]. unfold gamesense_ok.
  pose proof (get_current_base_keeps false st w1) as (Hr & Hkeep & _ & Hl & _).
  rewrite <- N0 in Hnet.
  pose proof (script_all_resolution (p := alive_reply) false st w1 Hnet) as Hnet1.
  destruct (get_current_base_events false st w1) as (n1 & T1 & A1 & R1 & _).
  destruct (get_current_base false st w1) as [[base st1] w2]. cbn [fst snd] in *.
  specialize (Hkeep Hbase). subst base.
  destruct (_current_base st1) as [b|] eqn:Eb; [|discriminate Hkeep].
  cbn [truthy_base] in Hkeep. rewrite Hkeep.
  rewrite is_gamesense_alive_eq.
  destruct (script_all_next _ _ Hnet1) as [Halive _]. rewrite Halive. cbn [negb].
  eexists st1, _, (n0 ++ n1 ++ [Posted _ (game_heartbeat "PING") _])%list.
  split; [reflexivity|].
  split; [cbn [trace]; rewrite T1, T0, <- !app_assoc; reflexivity|].
  split; [rewrite !api_posts_app, A0, A1; reflexivity|].
  split; [rewrite !rebinds_app, R0, R1; reflexivity|].
  split; [rewrite Eb; exact Hkeep|exact Hl].
Qed.

Lemma healthy_watchdog_is_quiet_witness :
  exists st' w' new,
    watchdog 0 st_bound w_moved = Some (tt, st', w')
    /\ trace w' = (trace w_moved ++ new)%list
    /\ api_posts new = []
    /\ rebinds new = [].
Proof.
  destruct (healthy_watchdog_is_quiet 0 st_bound w_moved eq_refl eq_refl)
    as (st' & w' & new & H1 & H2 & H3 & H4 & _).
  exists st', w', new. auto.
Defined.

(** * When extraction aborts *)

Lemma assign_if_raise x l m ln sv val env e :
  assign_if x l m ln sv val env = Raise e ->
  String.eqb ln l = true /\ contains m sv = true
  /\ _to_float_best val = Raise e.
Proof.
  unfold assign_if.
  destruct (is_unset (env x)); cbn [andb]; [|discriminate].
  destruct (String.eqb ln l); cbn [andb]; [|discriminate].
  destruct (contains m sv); [|discriminate].
  destruct (_to_float_best val); cbn [rbind]; [discriminate|].
  intros H. injection H as ->. auto.
Qed.

Lemma visit_raise env n e :
  visit env n = Raise e ->
  exists x, candidate x n = true /\ reading n = Raise e.
Proof.
  unfold visit, candidate, reading.
  destruct (is_none (get n "Text") || is_none (get n "Value")); [discriminate|].
  fold (lname n) (sval n). cbn [negb andb].
  intros H.
  repeat match type of H with
  | rbind (assign_if ?z ?l ?m ?ln ?sv ?val ?env0) _ = Raise _ =>
      let E := fresh "E" in
      destruct (assign_if z l m ln sv val env0) eqn:E; cbn [rbind] in H;
      [ clear E
      | injection H as ->; apply assign_if_raise in E;
        destruct E as (El & Em & Er); exists z; cbn [rule fst snd];
        rewrite El, Em; auto ]
  end.
  apply assign_if_raise in H. destruct H as (El & Em & Er).
  exists vram_total_mb. cbn [rule fst snd]. rewrite El, Em. auto.
Qed.

Lemma reading_raises_value_error v e :
  _to_float_best v = Raise e -> e = ValueError.
Proof.
  unfold _to_float_best, float.
  destruct v as [|x shown|s|shown items|shown members]; try discriminate;
    (destruct (negb (truthy _)); [discriminate|]);
    repeat match goal with
    | |- context [let (_, _) := ?p in _] => destruct p
    | |- context [if ?c then _ else _] => destruct c
    end; cbn [rbind]; intros H; try discriminate H; now injection H.
Qed.

Lemma visit_ok_of_reading env n v :
  reading n = Ok v -> exists env', visit env n = Ok env'.
Proof.
  unfold reading, visit, assign_if. intros Hv.
  destruct (is_none (get n "Text") || is_none (get n "Value"));
    [eexists; reflexivity|].
  rewrite Hv.
  repeat match goal with
  | |- context [if ?c then _ else _] => destruct c; cbn [rbind]
  end; eexists; reflexivity.
Qed.

(** X. Extraction aborts only on a malformed number in a recognized place:
    when [lhm_read_metrics] raises, the document has a node with a
    recognized label and that label's unit marker whose value text makes
    the conversion raise, and the exception is a [ValueError]; when the
    value text of every labelled node converts (to a number or to "no
    value"), extraction returns a snapshot. *)
Theorem extraction_aborts_only_on_malformed_number source data :
  (forall e,
     lhm_read_metrics source (Some data) = Raise e ->
     e = ValueError
     /\ exists n x,
          In n (walk_json data) /\ candidate x n = true
          /\ reading n = Raise ValueError)
  /\ ((forall n, In n (walk_json data) -> labelled n = true ->
                 exists v, reading n = Ok v) ->
      exists m, lhm_read_metrics source (Some data) = Ok m).
Proof.
  split.
  - intros e H. unfold lhm_read_metrics in H.
    destruct (visit_all unset (walk_json data)) as [env|e'] eqn:Hrun;
      cbn [rbind] in H; [discriminate|]. injection H as ->.
    assert (Hfind : forall nodes env0,
              visit_all env0 nodes = Raise e ->
              exists n x, In n nodes /\ candidate x n = true
                          /\ reading n = Raise e).
    { induction nodes as [|n rest IH]; intros env0 Hn; [discriminate|].
      simpl in Hn. destruct (visit env0 n) as [e1|e1] eqn:Hv; cbn [rbind] in Hn.
      - destruct (IH e1 Hn) as (n' & x & Hin & Hc & Hr).
        exists n', x. split; [now right|auto].
      - injection Hn as ->. destruct (visit_raise _ _ _ Hv) as (x & Hc & Hr).
        exists n, x. split; [now left|auto]. }
    destruct (Hfind _ _ Hrun) as (n & x & Hin & Hc & Hr).
    pose proof (reading_raises_value_error _ _ Hr) as ->.
    split; [reflexivity|]. exists n, x. auto.
  - intros Hall. unfold lhm_read_metrics.
    assert (Hrun : forall nodes env0,
              (forall n, In n nodes -> labelled n = true ->
                         exists v, reading n = Ok v) ->
              exists env, visit_all env0 nodes = Ok env).
    { induction nodes as [|n rest IH]; intros env0 Hn; [eexists; reflexivity|].
      simpl. destruct (labelled n) eqn:Hl.
      - destruct (Hn n (or_introl eq_refl) Hl) as (v & Hv).
        destruct (visit_ok_of_reading env0 n v Hv) as (e1 & ->). cbn [rbind].
        apply IH. intros m Hm. apply Hn. now right.
      - rewrite (visit_unlabelled env0 n Hl). cbn [rbind].
        apply IH. intros m Hm. apply Hn. now right. }
    destruct (Hrun (walk_json data) unset Hall) as (env & ->). cbn [rbind].
    eexists. reflexivity.
Qed.

(** * Properties of the pages *)

Lemma progress_bar_is_bar used total :
  exists filled : Z,
    (0 <= filled <= BAR_WIDTH)%Z /\ progress_bar used total = Ok (bar filled).
Proof.
  assert (Hempty : exists filled : Z,
            (0 <= filled <= BAR_WIDTH)%Z
            /\ Ok ("[" ++ repeat BAR_EMPTY BAR_WIDTH ++ "]") = Ok (bar filled)).
  { exists 0%Z. split; [unfold BAR_WIDTH; lia|reflexivity]. }
  unfold progress_bar. destruct used as [u|], total as [t|]; try exact Hempty.
  destruct (PyFloat.le t (Fin 0)) eqn:Hle; [exact Hempty|].
  destruct (div_guarded u t Hle) as (r & ->). cbn [rbind].
  destruct (clamp_finite r) as (q & ->). cbn [PyFloat.mul_int PyFloat.round rbind].
  eexists. split; [|reflexivity]. unfold BAR_WIDTH. lia.
Qed.


(** X. A page render that does not raise makes exactly one [send_screen]
    call, under the event of its page (CPU for 0, GPU for 1, RAM for every
    other index): the counter goes up by one, and when a base is resolved
    one frame goes out for that event, its two lines at most 18 characters
    long. *)
Theorem render_page_sends_page_event (fixed1 fixed2 : pyfloat -> string)
    (depth : nat) (PAGE : Z) (met : Met.MET) (run : Run unit) st w :
  render_page fixed1 fixed2 depth PAGE met = Ok run ->
  (budget st w < depth)%nat ->
  exists st' w' new l1 l2,
    run st w = Some (tt, st', w')
    /\ _counter st' = (_counter st + 1)%Z
    /\ trace w' = (trace w ++ new)%list
    /\ frames new
       = (if truthy_base (resolved st w)
          then [game_event GAME (page_event PAGE) (_counter st) l1 l2]
          else [])
    /\ (String.length l1 <= 18)%nat /\ (String.length l2 <= 18)%nat.
Proof.
  intros Hrender Hb.
  assert (Hsend : forall ev a b,
            run = send_screen depth ev (Some a) (Some b) ->
            ev = page_event PAGE ->
            exists st' w' new l1 l2,
              run st w = Some (tt, st', w')
              /\ _counter st' = (_counter st + 1)%Z
              /\ trace w' = (trace w ++ new)%list
              /\ frames new
                 = (if truthy_base (resolved st w)
                    then [game_event GAME (page_event PAGE) (_counter st) l1 l2]
                    else [])
              /\ (String.length l1 <= 18)%nat /\ (String.length l2 <= 18)%nat).
  { intros ev a b -> <-.
    destruct (send_screen_spec depth ev (Some a) (Some b) st w Hb)
      as (st' & w' & new & Hrun & Hc & _ & Ht & Hf & _).
    exists st', w', new, (take 18 a), (take 18 b).
    repeat split; try assumption; rewrite take_length; lia. }
  unfold render_page in Hrender. unfold page_event in *.
  destruct (PAGE =? 0)%Z.
  - destruct (fmt_ghz_from_mhz fixed2 _) as [ghz|]; [|discriminate].
    cbn [rbind] in Hrender.
    destruct (fmt_pct _) as [pct|]; [|discriminate]. cbn [rbind] in Hrender.
    destruct (fmt_temp _) as [temp|]; [|discriminate]. cbn [rbind] in Hrender.
    injection Hrender as <-. eapply Hsend; reflexivity.
  - destruct (PAGE =? 1)%Z.
    + destruct (fmt_pct _) as [pct|]; [|discriminate]. cbn [rbind] in Hrender.
      destruct (fmt_temp _) as [temp|]; [|discriminate]. cbn [rbind] in Hrender.
      injection Hrender as <-. eapply Hsend; reflexivity.
    + destruct (progress_bar _ _) as [l2|]; [|discriminate].
      cbn [rbind] in Hrender.
      injection Hrender as <-. eapply Hsend; reflexivity.
Qed.

Lemma render_page_sends_page_event_witness :
  exists run st' w' new l1 l2,
    render_page (fun _ => "7.9") (fun _ => "4.20") 2 0 met_cpu = Ok run
    /\ run st_bound w_down_still = Some (tt, st', w')
    /\ frames new
       = (if truthy_base (resolved st_bound w_down_still)
          then [game_event GAME (page_event 0) (_counter st_bound) l1 l2]
          else []).
Proof.
  assert (Hr : render_page (fun _ => "7.9") (fun _ => "4.20") 2 0 met_cpu
               = Ok (send_screen 2 CPU_EVENT (Some "CPU ?")
                       (Some ("CPU 37% 52" ++ DEGREE_SYMBOL ++ "C"))))
    by reflexivity.
  assert (Hb : (budget st_bound w_down_still < 2)%nat) by (vm_compute; lia).
  destruct (render_page_sends_page_event _ _ _ _ _ _ _ _ Hr Hb)
    as (st' & w' & new & l1 & l2 & H1 & _ & _ & H4 & _).
  eexists. exists st', w', new, l1, l2. split; [exact Hr|]. auto.
Defined.

(** X. The RAM page never raises, and its second line is the whole
    progress bar: the bar is exactly as wide as the crop of [send_screen],
    so all of its 18 characters reach the display. *)
Theorem ram_page_shows_whole_bar (fixed1 fixed2 : pyfloat -> string)
    (depth : nat) (PAGE : Z) (met : Met.MET) :
  PAGE <> 0%Z -> PAGE <> 1%Z ->
  exists filled : Z,
    (0 <= filled <= BAR_WIDTH)%Z
    /\ render_page fixed1 fixed2 depth PAGE met
       = Ok (send_screen depth RAM_EVENT
               (Some ("RAM " ++ fmt_gb fixed1 (Met.ram_total_gb met) ++ "/"
                             ++ fmt_gb fixed1 (Met.ram_used_gb met)))
               (Some (bar filled)))
    /\ take 18 (text_of (Some (bar filled))) = bar filled.
Proof.
  intros H0 H1. unfold render_page.
  apply Z.eqb_neq in H0, H1. rewrite H0, H1.
  destruct (progress_bar_is_bar (Met.ram_used_gb met) (Met.ram_total_gb met))
    as (filled & Hf & ->).
  exists filled. split; [exact Hf|]. split; [reflexivity|].
  apply take_short. unfold bar. rewrite length_bar by exact Hf. lia.
Qed.

Lemma ram_page_shows_whole_bar_witness :
  exists filled : Z,
    render_page (fun _ => "7.9") (fun _ => "4.20") 2 2 met_cpu
    = Ok (send_screen 2 RAM_EVENT
            (Some ("RAM " ++ fmt_gb (fun _ => "7.9") (Met.ram_total_gb met_cpu)
                          ++ "/"
                          ++ fmt_gb (fun _ => "7.9") (Met.ram_used_gb met_cpu)))
            (Some (bar filled))).
Proof.
  destruct (ram_page_shows_whole_bar (fun _ => "7.9") (fun _ => "4.20") 2 2
              met_cpu ltac:(discriminate) ltac:(discriminate))
    as (filled & _ & H & _).
  exists filled. exact H.
Defined.

(** * Instances *)

Lemma unlabelled_nodes_ignored_witness :
  (forall n, In n (walk_json doc_unlabelled) -> labelled n = false)
  /\ lhm_read_metrics GPU_LOAD_SOURCE (Some doc_unlabelled) = Ok all_unknown.
Proof.
  assert (H : forall n, In n (walk_json doc_unlabelled) -> labelled n = false)
    by (intros n [<- | []]; reflexivity).
  split; [exact H|].
  exact (proj2 unlabelled_nodes_ignored GPU_LOAD_SOURCE doc_unlabelled H).
Defined.

Lemma discovery_priority_witness :
  first_address disk_moved COREPROPS_PATHS = Some "http://127.0.0.1:6000"
  /\ exists pre p post a,
       COREPROPS_PATHS = (pre ++ p :: post)%list
       /\ (forall q, In q pre -> usable disk_moved q = None)
       /\ usable disk_moved p = Some a
       /\ "http://127.0.0.1:6000" = "http://" ++ a.
Proof.
  assert (H : first_address disk_moved COREPROPS_PATHS
              = Some "http://127.0.0.1:6000") by reflexivity.
  split; [exact H|].
  exact (proj1 (proj1 (discovery_priority disk_moved COREPROPS_PATHS)
                  "http://127.0.0.1:6000") H).
Defined.

Lemma safe_post_quiet_paths_witness :
  safe_post 1 "/game_heartbeat" (game_heartbeat GAME) initial quiet
  = Some (None, fst (after_resolution initial quiet),
          snd (after_resolution initial quiet))
  /\ safe_post 1 "/game_heartbeat" (game_heartbeat GAME) st_bound w_healthy
     = Some (Some 200%Z, fst (after_resolution st_bound w_healthy),
             snd (requests_post ("http://127.0.0.1:5000" ++ "/game_heartbeat")
                    (game_heartbeat GAME)
                    (snd (after_resolution st_bound w_healthy)))).
Proof.
  split.
  - apply (proj1 (safe_post_quiet_paths 0 "/game_heartbeat"
                    (game_heartbeat GAME) initial quiet)). reflexivity.
  - apply (proj2 (safe_post_quiet_paths 0 "/game_heartbeat"
                    (game_heartbeat GAME) st_bound w_healthy));
      reflexivity.
Defined.

Lemma extraction_aborts_only_on_malformed_number_witness :
  lhm_read_metrics GPU_LOAD_SOURCE (Some doc_dash) = Raise ValueError
  /\ exists n x,
       In n (walk_json doc_dash) /\ candidate x n = true
       /\ reading n = Raise ValueError.
Proof.
  assert (H : lhm_read_metrics GPU_LOAD_SOURCE (Some doc_dash) = Raise ValueError)
    by (vm_compute; reflexivity).
  split; [exact H|].
  exact (proj2 (proj1 (extraction_aborts_only_on_malformed_number
                         GPU_LOAD_SOURCE doc_dash) ValueError H)).
Defined.
